(** * DASO kiosk and staff console: the client-side orchestration core

    A shallow embedding of the React components of the DASO prototype
    (StaffPage, CurrentCustomer, WalkInForm, VoiceInput, CheckInScreen)
    with the properties of the queue reducer, the service-session
    controller, the booking wizard and the check-in controller.

    Conventions.
    - A component's [useState] cells are the fields of a record; an event
      handler is a function from that record to the next one.
    - An [async] handler is split at its [await]: the part that runs when
      the event fires, and the part that runs when the request settles.
    - JavaScript strings are modelled by [string]; the operations used by
      the source ([toLowerCase], [includes], [replace], [split], [slice],
      [padStart], [parseInt]) are written out below for ASCII text.
    - [undefined]/[null] is [None]. *)

From Stdlib Require Import ZArith List Bool String Ascii Lia QArith Qround DecimalString Sorted.
From Equations Require Import Equations.
Import ListNotations.

Local Open Scope string_scope.
Local Open Scope Z_scope.

(* ================================================================== *)
(** ** JavaScript values and string operations used by the components *)
(* ================================================================== *)

Module JS.

(** A number that may be [NaN]: [None] is [NaN]. Only integers occur. *)
Definition number : Type := option Z.

Definition is_digit (c : ascii) : bool :=
  let n := N_of_ascii c in (48 <=? n)%N && (n <=? 57)%N.

Definition is_upper (c : ascii) : bool :=
  let n := N_of_ascii c in (65 <=? n)%N && (n <=? 90)%N.

(** White space that [parseInt] skips (the ASCII part of StrWhiteSpaceChar). *)
Definition is_space (c : ascii) : bool :=
  let n := N_of_ascii c in
  (n =? 32)%N || ((9 <=? n)%N && (n <=? 13)%N).

Definition lower_char (c : ascii) : ascii :=
  if is_upper c then ascii_of_N (N_of_ascii c + 32) else c.

(** [s.toLowerCase()] *)
Fixpoint toLowerCase (s : string) : string :=
  match s with
  | EmptyString => EmptyString
  | String c r => String (lower_char c) (toLowerCase r)
  end.

(** [s.startsWith(p)] *)
Fixpoint startsWith (p s : string) : bool :=
  match p, s with
  | EmptyString, _ => true
  | String _ _, EmptyString => false
  | String a p', String b s' => Ascii.eqb a b && startsWith p' s'
  end.

(** [s.includes(p)] *)
Fixpoint includes (s p : string) : bool :=
  startsWith p s ||
  match s with
  | EmptyString => false
  | String _ r => includes r p
  end.

(** [s.replace(a, b)] for one-character strings [a] and [b]: a string
    pattern replaces the first occurrence only. *)
Fixpoint replace_first (a b : ascii) (s : string) : string :=
  match s with
  | EmptyString => EmptyString
  | String c r => if Ascii.eqb c a then String b r
                  else String c (replace_first a b r)
  end.

(** [s.replace(/a/g, b)]: the global flag replaces every occurrence. *)
Fixpoint replace_all (a b : ascii) (s : string) : string :=
  match s with
  | EmptyString => EmptyString
  | String c r => String (if Ascii.eqb c a then b else c) (replace_all a b r)
  end.

(** [s.replace(/\D/g, '')] *)
Fixpoint strip_non_digits (s : string) : string :=
  match s with
  | EmptyString => EmptyString
  | String c r => if is_digit c then String c (strip_non_digits r)
                  else strip_non_digits r
  end.

(** [s.slice(0, n)] *)
Fixpoint slice0 (n : nat) (s : string) : string :=
  match n, s with
  | O, _ => EmptyString
  | S _, EmptyString => EmptyString
  | S k, String c r => String c (slice0 k r)
  end.

(** [s.split(sep)] for a one-character separator; [cur] is the piece
    being read, in reverse. *)
Fixpoint rev_string (acc s : string) : string :=
  match s with
  | EmptyString => acc
  | String c r => rev_string (String c acc) r
  end.

Fixpoint split_from (sep : ascii) (cur : string) (s : string) : list string :=
  match s with
  | EmptyString => [rev_string EmptyString cur]
  | String c r =>
      if Ascii.eqb c sep then rev_string EmptyString cur :: split_from sep EmptyString r
      else split_from sep (String c cur) r
  end.

Definition split (sep : ascii) (s : string) : list string :=
  split_from sep EmptyString s.

(** [arr[i]]: [undefined] out of range. *)
Definition at_index (arr : list string) (i : nat) : option string := nth_error arr i.

(** [n.toString()] of an integer or [NaN]. *)
Definition toString (n : number) : string :=
  match n with
  | Some z => NilZero.string_of_int (Z.to_int z)
  | None => "NaN"
  end.

(** [s.padStart(n, '0')] *)
Fixpoint zeros (k : nat) : string :=
  match k with
  | O => EmptyString
  | S k' => String "0" (zeros k')
  end.

Definition padStart0 (n : nat) (s : string) : string :=
  (zeros (n - String.length s) ++ s)%string.

(** [parseInt(s)] with no radix: white space is skipped, a sign is read,
    a [0x]/[0X] prefix selects radix 16, and the longest prefix of digits
    is converted; [NaN] when that prefix is empty. *)
Fixpoint skip_space (s : string) : string :=
  match s with
  | String c r => if is_space c then skip_space r else s
  | EmptyString => s
  end.

Definition digit_value (radix : Z) (c : ascii) : option Z :=
  let n := Z.of_N (N_of_ascii c) in
  let v := if (48 <=? n) && (n <=? 57) then Some (n - 48)
           else if (97 <=? n) && (n <=? 122) then Some (n - 87)
           else if (65 <=? n) && (n <=? 90) then Some (n - 55)
           else None in
  match v with
  | Some d => if d <? radix then Some d else None
  | None => None
  end.

Fixpoint read_digits (radix : Z) (acc : number) (s : string) : number :=
  match s with
  | EmptyString => acc
  | String c r =>
      match digit_value radix c with
      | Some d =>
          read_digits radix (Some (match acc with Some a => a * radix + d | None => d end)) r
      | None => acc
      end
  end.

Definition parseInt_unsigned (s : string) : number :=
  match s with
  | String "0" (String x r) =>
      if Ascii.eqb x "x" || Ascii.eqb x "X" then read_digits 16 None r
      else read_digits 10 None s
  | _ => read_digits 10 None s
  end.

Definition parseInt (arg : option string) : number :=
  match arg with
  | None => None              (* parseInt(undefined): "undefined" has no digit *)
  | Some s =>
      match skip_space s with
      | String "-" r => option_map Z.opp (parseInt_unsigned r)
      | String "+" r => parseInt_unsigned r
      | t => parseInt_unsigned t
      end
  end.

End JS.

(* ================================================================== *)
(** ** [Date]: the time arithmetic of ECMAScript (ECMA-262, 21.4.1) *)
(* ================================================================== *)

Module JSDate.

Definition msPerMinute : Z := 60000.
Definition msPerHour : Z := 3600000.
Definition msPerDay : Z := 86400000.

Definition Day (t : Z) : Z := t / msPerDay.
Definition TimeWithinDay (t : Z) : Z := t mod msPerDay.

Definition DaysInYear (y : Z) : Z :=
  if negb (y mod 4 =? 0) then 365
  else if negb (y mod 100 =? 0) then 366
  else if negb (y mod 400 =? 0) then 365
  else 366.

Definition DayFromYear (y : Z) : Z :=
  365 * (y - 1970) + (y - 1969) / 4 - (y - 1901) / 100 + (y - 1601) / 400.

(** [YearFromTime]: "the largest integer y such that TimeFromYear(y) <= t".
    The search starts at a year that is not before that one and walks
    down; [YearFromDay_bounds] below shows that it finds it. *)
Fixpoint year_down (fuel : nat) (y day : Z) : Z :=
  match fuel with
  | O => y
  | S f => if DayFromYear y <=? day then y else year_down f (y - 1) day
  end.

Definition YearFromDay (day : Z) : Z :=
  year_down (Z.to_nat (Z.abs day / 100000 + 4))
            (1971 + (if 0 <=? day then day / 365 else day / 366)) day.

Definition YearFromTime (t : Z) : Z := YearFromDay (Day t).

Definition InLeapYear (t : Z) : Z :=
  if DaysInYear (YearFromTime t) =? 366 then 1 else 0.

Definition DayWithinYear (t : Z) : Z := Day t - DayFromYear (YearFromTime t).

Definition MonthFromTime (t : Z) : Z :=
  let d := DayWithinYear t in
  let l := InLeapYear t in
  if d <? 31 then 0
  else if d <? 59 + l then 1
  else if d <? 90 + l then 2
  else if d <? 120 + l then 3
  else if d <? 151 + l then 4
  else if d <? 181 + l then 5
  else if d <? 212 + l then 6
  else if d <? 243 + l then 7
  else if d <? 273 + l then 8
  else if d <? 304 + l then 9
  else if d <? 334 + l then 10
  else 11.

Definition DateFromTime (t : Z) : Z :=
  let d := DayWithinYear t in
  let l := InLeapYear t in
  match MonthFromTime t with
  | 0 => d + 1
  | 1 => d - 30
  | 2 => d - 58 - l
  | 3 => d - 89 - l
  | 4 => d - 119 - l
  | 5 => d - 150 - l
  | 6 => d - 180 - l
  | 7 => d - 211 - l
  | 8 => d - 242 - l
  | 9 => d - 272 - l
  | 10 => d - 303 - l
  | _ => d - 333 - l
  end.

Definition HourFromTime (t : Z) : Z := (t / msPerHour) mod 24.
Definition MinFromTime (t : Z) : Z := (t / msPerMinute) mod 60.

Definition MakeTime (hour min sec ms : Z) : Z :=
  hour * msPerHour + min * msPerMinute + sec * 1000 + ms.

(** Day number of the first day of month [mn] (0..11) of year [ym]. *)
Definition month_start (ym mn : Z) : Z :=
  let l := if DaysInYear ym =? 366 then 1 else 0 in
  DayFromYear ym +
  match mn with
  | 0 => 0
  | 1 => 31
  | 2 => 59 + l
  | 3 => 90 + l
  | 4 => 120 + l
  | 5 => 151 + l
  | 6 => 181 + l
  | 7 => 212 + l
  | 8 => 243 + l
  | 9 => 273 + l
  | 10 => 304 + l
  | _ => 334 + l
  end.

Definition MakeDay (year month date : Z) : Z :=
  let ym := year + month / 12 in
  let mn := month mod 12 in
  month_start ym mn + date - 1.

Definition MakeDate (day time : Z) : Z := day * msPerDay + time.

(** [TimeClip]: a time value beyond 8.64e15 ms is [NaN]. *)
Definition TimeClip (t : Z) : JS.number :=
  if Z.abs t <=? 8640000000000000 then Some t else None.

Section Host.

(** The host's time zone: [LocalTZA t isUTC] is the offset of local time
    from UTC, in ms, at the UTC time [t] ([isUTC = true]) or at the local
    time [t] ([isUTC = false]). *)
Variable LocalTZA : Z -> bool -> Z.

Definition LocalTime (t : Z) : Z := t + LocalTZA t true.
Definition UTC (t : Z) : Z := t - LocalTZA t false.

(** A [Date] object is its time value, [NaN] for an invalid date. *)
Definition Date : Type := JS.number.

(** [new Date(year, month, date, hours, minutes)] *)
Definition new_Date (year month date hours minutes : JS.number) : Date :=
  match year, month, date, hours, minutes with
  | Some y, Some m, Some dt, Some h, Some mi =>
      let yr := if (0 <=? y) && (y <=? 99) then 1900 + y else y in
      TimeClip (UTC (MakeDate (MakeDay yr m dt) (MakeTime h mi 0 0)))
  | _, _, _, _, _ => None
  end.

Definition getFullYear (d : Date) : JS.number :=
  option_map (fun t => YearFromTime (LocalTime t)) d.
Definition getMonth (d : Date) : JS.number :=
  option_map (fun t => MonthFromTime (LocalTime t)) d.
Definition getDate (d : Date) : JS.number :=
  option_map (fun t => DateFromTime (LocalTime t)) d.
Definition getHours (d : Date) : JS.number :=
  option_map (fun t => HourFromTime (LocalTime t)) d.
Definition getMinutes (d : Date) : JS.number :=
  option_map (fun t => MinFromTime (LocalTime t)) d.

End Host.

(** A zone with a fixed offset, such as India Standard Time (UTC+05:30). *)
Definition fixed_zone (offset : Z) : Z -> bool -> Z := fun _ _ => offset.
Definition IST : Z -> bool -> Z := fixed_zone 19800000.

End JSDate.

(* ================================================================== *)
(** ** The staff page: [fetchQueue] *)
(* ================================================================== *)

Module StaffPage.

(** [status] of a queue entry, one of five string constants. *)
Inductive Status : Type :=
  | waiting | checked_in | in_progress | completed | no_show.

Definition Status_eqb (a b : Status) : bool :=
  match a, b with
  | waiting, waiting | checked_in, checked_in | in_progress, in_progress
  | completed, completed | no_show, no_show => true
  | _, _ => false
  end.

(** The fields of a queue entry that the staff console reads. *)
Record QueueEntry : Type := mkEntry {
  id : Z;
  token_number : string;
  customer_name : option string;
  service_type : string;
  status : Status;
  predicted_duration_min : Z;
  start_time : option string;
  assigned_counter : option Z
}.

(** [q.assigned_counter === n] for a number [n]. *)
Definition counter_is (n : Z) (q : QueueEntry) : bool :=
  match assigned_counter q with
  | Some c => c =? n
  | None => false
  end.

(** [q.status === 'in_progress' && q.assigned_counter === n] *)
Definition mine (n : Z) (q : QueueEntry) : bool :=
  Status_eqb (status q) in_progress && counter_is n q.

(** [q.status === 'waiting' || q.status === 'checked_in'] *)
Definition pending (q : QueueEntry) : bool :=
  Status_eqb (status q) waiting || Status_eqb (status q) checked_in.

(** [x?.id]: the id of an entry, [undefined] when there is no entry. *)
Definition opt_id (x : option QueueEntry) : option Z := option_map id x.

(** Truthiness of a number-or-undefined: [undefined] and [0] are falsy. *)
Definition truthy (x : option Z) : bool :=
  match x with
  | Some v => negb (v =? 0)
  | None => false
  end.

(** [a || b] on number-or-undefined values. *)
Definition js_or (a b : option Z) : option Z := if truthy a then a else b.

(** [n !== x] for a number [n] and a number-or-undefined [x]. *)
Definition strict_neq (n : Z) (x : option Z) : bool :=
  match x with
  | Some v => negb (n =? v)
  | None => true
  end.

(** The body of [fetchQueue] between the [await] and the two setters, for
    the counter [n]: the pair (argument of [setCurrentCustomer], argument
    of [setQueue]). *)
Definition reduceQueue (n : Z) (queue : list QueueEntry)
  : option QueueEntry * list QueueEntry :=
  let myCustomer := find (mine n) queue in
  let nextCustomer :=
    match myCustomer with
    | None => find pending queue
    | Some _ => None
    end in
  let current :=
    match myCustomer with
    | Some c => Some c
    | None => nextCustomer
    end in
  let remainingQueue :=
    filter (fun q =>
              strict_neq (id q) (js_or (opt_id myCustomer) (opt_id nextCustomer))
              && pending q) queue in
  (current, remainingQueue).

(** The page's state cells. *)
Record Page : Type := mkPage {
  queue : list QueueEntry;
  currentCustomer : option QueueEntry;
  loading : bool
}.

(** The prototype serves counter 1. *)
Definition counterNumber : Z := 1.

(** [fetchQueue], given how [getQueueStatus()] settled: [Some data_queue]
    when it resolved, [None] when it rejected (the [catch] only logs). *)
Definition fetchQueue (response : option (list QueueEntry)) (p : Page) : Page :=
  match response with
  | Some data_queue =>
      let '(cur, rest) := reduceQueue counterNumber data_queue in
      {| queue := rest; currentCustomer := cur; loading := false |}
  | None =>
      {| queue := queue p; currentCustomer := currentCustomer p; loading := false |}
  end.


Definition spec_remaining (current : option QueueEntry) (queue : list QueueEntry)
  : list QueueEntry :=
  filter (fun q => pending q &&
                   match current with
                   | Some c => negb (id q =? id c)
                   | None => true
                   end) queue.

End StaffPage.

(* ================================================================== *)
(** ** The service-session controller: [CurrentCustomer] *)
(* ================================================================== *)

Module CurrentCustomer.

(** The [action] strings of a staff update. *)
Inductive Action : Type := start | complete | no_show.

Definition Action_eqb (a b : Action) : bool :=
  match a, b with
  | start, start | complete, complete | no_show, no_show => true
  | _, _ => false
  end.

(** The component's props ([onUpdate] is the parent's [fetchQueue]). *)
Record Props : Type := mkProps {
  customer : option StaffPage.QueueEntry;
  staffId : Z;
  counterNumber : Z
}.

(** The body of a [updateStaffAction] request. *)
Record Request : Type := mkRequest {
  queue_id : Z;
  action : Action;
  counter_number : Z;
  staff_id : Z
}.

(** The component with its surroundings: its props, its [loading] cell,
    the requests it has posted (oldest first) and how often it has called
    [onUpdate]. *)
Record Session : Type := mkSession {
  props : Props;
  loading : bool;
  posted : list Request;
  updates : nat
}.

(** [!!customer.start_time]: a missing or empty time stamp is falsy. *)
Definition isStarted (c : StaffPage.QueueEntry) : bool :=
  match StaffPage.start_time c with
  | Some t => negb (String.eqb t "")
  | None => false
  end.

(** A rendered action button. *)
Record Button : Type := mkButton {
  onClick : Action;
  disabled : bool
}.

(** The buttons of the render: none without a customer ("Counter
    Closed"); Start Service and No Show before the service has started;
    Complete Transaction after. *)
Definition buttons (s : Session) : list Button :=
  match customer (props s) with
  | None => []
  | Some c =>
      if negb (isStarted c)
      then [ {| onClick := start; disabled := loading s |};
             {| onClick := no_show; disabled := loading s |} ]
      else [ {| onClick := complete; disabled := loading s |} ]
  end.

(** [handleAction(action)] up to its [await]. It is reached from a
    button, so a customer is present. *)
Definition handleAction (a : Action) (s : Session) : Session :=
  match customer (props s) with
  | Some c =>
      {| props := props s;
         loading := true;
         posted := posted s ++ [ {| queue_id := StaffPage.id c;
                                    action := a;
                                    counter_number := counterNumber (props s);
                                    staff_id := staffId (props s) |} ];
         updates := updates s |}
  | None => s
  end.

(** [handleAction] after its [await]: [onUpdate()] when the request
    resolved, a log line when it was rejected, [setLoading(false)] always. *)
Definition handleAction_settled (resolved : bool) (s : Session) : Session :=
  {| props := props s;
     loading := false;
     posted := posted s;
     updates := if resolved then S (updates s) else updates s |}.

(** A click on the button labelled with [a]: the browser runs the
    handler of a rendered button that is not disabled. *)
Definition clickable (a : Action) (s : Session) : bool :=
  existsb (fun b => Action_eqb (onClick b) a && negb (disabled b)) (buttons s).

Definition click (a : Action) (s : Session) : Session :=
  if clickable a s then handleAction a s else s.

(** What happens to a session: a click, a settled request, and a parent
    render with the current customer of the latest poll. *)
Inductive Event : Type :=
  | Click (a : Action)
  | Settled (resolved : bool)
  | Rendered (c : option StaffPage.QueueEntry).

Definition fire (e : Event) (s : Session) : Session :=
  match e with
  | Click a => click a s
  | Settled r => handleAction_settled r s
  | Rendered c =>
      {| props := {| customer := c;
                     staffId := staffId (props s);
                     counterNumber := counterNumber (props s) |};
         loading := loading s; posted := posted s; updates := updates s |}
  end.

Definition run (es : list Event) (s : Session) : Session :=
  fold_left (fun acc e => fire e acc) es s.

End CurrentCustomer.

(* ================================================================== *)
(** ** The check-in controller: [CheckInScreen] *)
(* ================================================================== *)

Module CheckInScreen.

Inductive Status : Type := scanning | input | processing | success | error.

(** The response body of [simulateProximity]. *)
Record Result : Type := mkResult {
  r_success : bool;
  r_message : option string;
  r_token_number : option string;
  r_assigned_counter : option Z
}.

(** The component's cells, the lookups it has posted and the results it
    has scheduled for [onComplete]. *)
Record Screen : Type := mkScreen {
  status : Status;
  message : option string;
  details : option Result;
  posted : list string;
  scheduled : list Result
}.

Definition initial : Screen :=
  {| status := scanning;
     message := Some "Searching for appointment...";
     details := None; posted := []; scheduled := [] |}.

(** The 2 s timer of the mount effect. *)
Definition timer_fired (s : Screen) : Screen :=
  {| status := input;
     message := Some "Please enter your registered mobile number";
     details := details s; posted := posted s; scheduled := scheduled s |}.

(** [result.message || 'No appointment found']: a missing or empty
    message is falsy. *)
Definition message_or_default (m : option string) : string :=
  match m with
  | Some t => if String.eqb t "" then "No appointment found" else t
  | None => "No appointment found"
  end.

(** How [await simulateProximity(mobile)] settles. *)
Inductive Settled : Type :=
  | resolved (result : Result)
  | rejected.

(** [handleMobileSubmit] up to its [await]. *)
Definition handleMobileSubmit (mobile : string) (s : Screen) : Screen :=
  if negb (String.length mobile =? 10)%nat then s
  else {| status := processing;
          message := Some "Verifying appointment...";
          details := details s;
          posted := posted s ++ [mobile];
          scheduled := scheduled s |}.

(** [handleMobileSubmit] after its [await]. *)
Definition handleMobileSubmit_settled (o : Settled) (s : Screen) : Screen :=
  match o with
  | resolved result =>
      if r_success result
      then {| status := success;
              message := r_message result;
              details := Some result;
              posted := posted s;
              scheduled := scheduled s ++ [result] |}
      else {| status := error;
              message := Some (message_or_default (r_message result));
              details := details s;
              posted := posted s;
              scheduled := scheduled s |}
  | rejected =>
      {| status := error;
         message := Some "Check-in failed. Please try again.";
         details := details s; posted := posted s; scheduled := scheduled s |}
  end.

(** The whole handler, for a submit whose request settles with [o]. *)
Definition checkIn (mobile : string) (o : Settled) (s : Screen) : Screen :=
  if negb (String.length mobile =? 10)%nat then s
  else handleMobileSubmit_settled o (handleMobileSubmit mobile s).

(** "Try Again" on the error view. *)
Definition tryAgain (s : Screen) : Screen :=
  {| status := input; message := message s; details := details s;
     posted := posted s; scheduled := scheduled s |}.

End CheckInScreen.

(* ================================================================== *)
(** ** The booking wizard: [WalkInForm] with its [VoiceInput] *)
(* ================================================================== *)

Module WalkInForm.

(** The [mode] prop. *)
Inductive Mode : Type := walk_in | pre_book.

Definition is_pre_book (m : Mode) : bool :=
  match m with pre_book => true | walk_in => false end.
Definition is_walk_in (m : Mode) : bool :=
  match m with walk_in => true | pre_book => false end.

(** An entry of the service catalog. *)
Record Service : Type := mkService {
  s_id : string;
  s_name : string;
  base_duration_min : Z
}.

Record TimeSlot : Type := mkSlot {
  time : string;
  available : bool
}.

(** The body of a [bookSlot] request. *)
Record Booking : Type := mkBooking {
  b_mobile : string;
  b_name : string;
  b_age : JS.number;
  b_is_disabled : bool;
  b_service_type : option string;
  b_booking_type : string;
  b_scheduled_time : option string
}.

(** The response body of [bookSlot]. *)
Record BookingResult : Type := mkBookingResult {
  success : bool;
  token_number : option string
}.

Inductive Settled : Type :=
  | resolved (result : BookingResult)
  | rejected.

(** The wizard: the [mode] prop, the [useState] cells, the booking
    requests that are in flight (oldest first) and the results handed to
    [onComplete]. *)
Record Wizard : Type := mkWizard {
  mode : Mode;
  step : Z;
  mobile : string;
  name : string;
  age : string;
  isDisabled : bool;
  selectedService : option string;
  isListening : bool;
  services : list Service;
  loading : bool;
  error : string;
  selectedDate : string;
  selectedTimeSlot : option string;
  availableSlots : list TimeSlot;
  inflight : list Booking;
  completed : list BookingResult
}.

(** Setters, one per cell. *)
Definition setStep (v : Z) (w : Wizard) : Wizard :=
  mkWizard (mode w) v (mobile w) (name w) (age w) (isDisabled w) (selectedService w)
    (isListening w) (services w) (loading w) (error w) (selectedDate w)
    (selectedTimeSlot w) (availableSlots w) (inflight w) (completed w).
Definition setMobile (v : string) (w : Wizard) : Wizard :=
  mkWizard (mode w) (step w) v (name w) (age w) (isDisabled w) (selectedService w)
    (isListening w) (services w) (loading w) (error w) (selectedDate w)
    (selectedTimeSlot w) (availableSlots w) (inflight w) (completed w).
Definition setName (v : string) (w : Wizard) : Wizard :=
  mkWizard (mode w) (step w) (mobile w) v (age w) (isDisabled w) (selectedService w)
    (isListening w) (services w) (loading w) (error w) (selectedDate w)
    (selectedTimeSlot w) (availableSlots w) (inflight w) (completed w).
Definition setAge (v : string) (w : Wizard) : Wizard :=
  mkWizard (mode w) (step w) (mobile w) (name w) v (isDisabled w) (selectedService w)
    (isListening w) (services w) (loading w) (error w) (selectedDate w)
    (selectedTimeSlot w) (availableSlots w) (inflight w) (completed w).
Definition setIsDisabled (v : bool) (w : Wizard) : Wizard :=
  mkWizard (mode w) (step w) (mobile w) (name w) (age w) v (selectedService w)
    (isListening w) (services w) (loading w) (error w) (selectedDate w)
    (selectedTimeSlot w) (availableSlots w) (inflight w) (completed w).
Definition setSelectedService (v : option string) (w : Wizard) : Wizard :=
  mkWizard (mode w) (step w) (mobile w) (name w) (age w) (isDisabled w) v
    (isListening w) (services w) (loading w) (error w) (selectedDate w)
    (selectedTimeSlot w) (availableSlots w) (inflight w) (completed w).
Definition setIsListening (v : bool) (w : Wizard) : Wizard :=
  mkWizard (mode w) (step w) (mobile w) (name w) (age w) (isDisabled w) (selectedService w)
    v (services w) (loading w) (error w) (selectedDate w)
    (selectedTimeSlot w) (availableSlots w) (inflight w) (completed w).
Definition setServices (v : list Service) (w : Wizard) : Wizard :=
  mkWizard (mode w) (step w) (mobile w) (name w) (age w) (isDisabled w) (selectedService w)
    (isListening w) v (loading w) (error w) (selectedDate w)
    (selectedTimeSlot w) (availableSlots w) (inflight w) (completed w).
Definition setLoading (v : bool) (w : Wizard) : Wizard :=
  mkWizard (mode w) (step w) (mobile w) (name w) (age w) (isDisabled w) (selectedService w)
    (isListening w) (services w) v (error w) (selectedDate w)
    (selectedTimeSlot w) (availableSlots w) (inflight w) (completed w).
Definition setError (v : string) (w : Wizard) : Wizard :=
  mkWizard (mode w) (step w) (mobile w) (name w) (age w) (isDisabled w) (selectedService w)
    (isListening w) (services w) (loading w) v (selectedDate w)
    (selectedTimeSlot w) (availableSlots w) (inflight w) (completed w).
Definition setSelectedDate (v : string) (w : Wizard) : Wizard :=
  mkWizard (mode w) (step w) (mobile w) (name w) (age w) (isDisabled w) (selectedService w)
    (isListening w) (services w) (loading w) (error w) v
    (selectedTimeSlot w) (availableSlots w) (inflight w) (completed w).
Definition setSelectedTimeSlot (v : option string) (w : Wizard) : Wizard :=
  mkWizard (mode w) (step w) (mobile w) (name w) (age w) (isDisabled w) (selectedService w)
    (isListening w) (services w) (loading w) (error w) (selectedDate w)
    v (availableSlots w) (inflight w) (completed w).
Definition setAvailableSlots (v : list TimeSlot) (w : Wizard) : Wizard :=
  mkWizard (mode w) (step w) (mobile w) (name w) (age w) (isDisabled w) (selectedService w)
    (isListening w) (services w) (loading w) (error w) (selectedDate w)
    (selectedTimeSlot w) v (inflight w) (completed w).
(** [bookSlot(body)] posts a request; [onComplete(result)] hands over. *)
Definition post (b : Booking) (w : Wizard) : Wizard :=
  mkWizard (mode w) (step w) (mobile w) (name w) (age w) (isDisabled w) (selectedService w)
    (isListening w) (services w) (loading w) (error w) (selectedDate w)
    (selectedTimeSlot w) (availableSlots w) (inflight w ++ [b]) (completed w).
Definition onComplete (r : BookingResult) (w : Wizard) : Wizard :=
  mkWizard (mode w) (step w) (mobile w) (name w) (age w) (isDisabled w) (selectedService w)
    (isListening w) (services w) (loading w) (error w) (selectedDate w)
    (selectedTimeSlot w) (availableSlots w) (inflight w) (completed w ++ [r]).
(** A request leaves the flight when it settles. *)
Fixpoint remove_nth {A : Type} (k : nat) (l : list A) : list A :=
  match l, k with
  | [], _ => []
  | _ :: r, O => r
  | x :: r, S k' => x :: remove_nth k' r
  end.
Definition land (k : nat) (w : Wizard) : Wizard :=
  mkWizard (mode w) (step w) (mobile w) (name w) (age w) (isDisabled w) (selectedService w)
    (isListening w) (services w) (loading w) (error w) (selectedDate w)
    (selectedTimeSlot w) (availableSlots w) (remove_nth k (inflight w)) (completed w).

(** Truthiness of a string-or-undefined: [undefined] and [''] are falsy. *)
Definition truthy (x : option string) : bool :=
  match x with
  | Some t => negb (String.eqb t "")
  | None => false
  end.

(** *** [generateSlots] *)

(** [n.toString().padStart(2, '0')] *)
Definition pad (n : JS.number) : string := JS.padStart0 2 (JS.toString n).

(** The [while (start < 17)] loop, from the value of [start] and the
    [slots] pushed so far; it runs [turns_left start] more times. *)
Definition turns_left (start : Z) : nat := Z.to_nat (17 - start).
Arguments turns_left : simpl never.

Equations? slots_loop (start : Z) (slots : list string) : list string
  by wf (turns_left start) lt :=
  slots_loop start slots with Z_lt_dec start 17 => {
    | left below =>
        slots_loop (start + 1)
          (slots ++ [ (pad (Some start) ++ ":00")%string;
                      (pad (Some start) ++ ":30")%string ]);
    | right _ => slots }.
Proof. unfold turns_left. lia. Qed.

(** [0.3], the double nearest to three tenths, as the rational it is. *)
Definition threshold : Q := (5404319552844595 # 18014398509481984)%Q.

(** [slots.map(s => ({ time: s, available: Math.random() > 0.3 }))];
    [random k] is the value of the [k]-th call of [Math.random()]. *)
Fixpoint stamp (random : nat -> Q) (k : nat) (slots : list string) : list TimeSlot :=
  match slots with
  | [] => []
  | s :: r =>
      {| time := s; available := negb (Qle_bool (random k) threshold) |}
        :: stamp random (S k) r
  end.

Definition generateSlots (random : nat -> Q) : list TimeSlot :=
  stamp random 0 (slots_loop 9 []).

(** *** Voice matching *)

(** The predicate of [services.find] in [handleVoiceResult]. *)
Definition voice_match (text : string) (s : Service) : bool :=
  JS.includes text (JS.toLowerCase (s_name s)) ||
  JS.includes text (JS.toLowerCase (JS.replace_first "_" " " (s_name s))).

Section Host.

Variable LocalTZA : Z -> bool -> Z.

(** *** [handleBookSlot] *)

(** The [scheduledTime] of [handleBookSlot]. *)
Definition scheduledTime (w : Wizard) : option string :=
  if is_pre_book (mode w) && truthy (selectedTimeSlot w) then
    let dateParts := JS.split "-" (selectedDate w) in
    let timeParts :=
      JS.split ":" (match selectedTimeSlot w with Some t => t | None => "" end) in
    let date :=
      JSDate.new_Date LocalTZA
        (JS.parseInt (JS.at_index dateParts 0))
        (option_map (fun m => m - 1) (JS.parseInt (JS.at_index dateParts 1)))
        (JS.parseInt (JS.at_index dateParts 2))
        (JS.parseInt (JS.at_index timeParts 0))
        (JS.parseInt (JS.at_index timeParts 1)) in
    Some (JS.toString (JSDate.getFullYear LocalTZA date) ++ "-" ++
          pad (option_map (fun m => m + 1) (JSDate.getMonth LocalTZA date)) ++ "-" ++
          pad (JSDate.getDate LocalTZA date) ++ "T" ++
          pad (JSDate.getHours LocalTZA date) ++ ":" ++
          pad (JSDate.getMinutes LocalTZA date) ++ ":00")%string
  else None.

(** The body passed to [bookSlot]. *)
Definition booking (serviceId : option string) (w : Wizard) : Booking :=
  {| b_mobile := mobile w;
     b_name := if negb (String.eqb (name w) "") then name w
               else if is_pre_book (mode w) then "Pre-booked Customer"
               else "Walk-in Customer";
     b_age := JS.parseInt (Some (age w));
     b_is_disabled := isDisabled w;
     b_service_type := if truthy serviceId then serviceId else selectedService w;
     b_booking_type := if is_pre_book (mode w) then "pre_booked" else "walk_in";
     b_scheduled_time := scheduledTime w |}.

(** [handleBookSlot(serviceId)] up to its [await]. *)
Definition handleBookSlot (serviceId : option string) (w : Wizard) : Wizard :=
  if String.eqb (mobile w) "" || (String.length (mobile w) <? 10)%nat then
    setError "Please enter a valid mobile number" w
  else if is_pre_book (mode w) && negb (truthy (selectedTimeSlot w)) then
    setError "Please select a time slot" w
  else
    post (booking serviceId w) (setError "" (setLoading true w)).

(** [handleBookSlot] after its [await], for the request at position [k]
    of the flight. *)
Definition handleBookSlot_settled (k : nat) (o : Settled) (w : Wizard) : Wizard :=
  match o with
  | resolved result =>
      setLoading false (if success result then onComplete result (land k w) else land k w)
  | rejected =>
      setLoading false (setError "Booking failed. Please try again." (land k w))
  end.

(** *** [handleVoiceResult] *)

Definition handleVoiceResult (transcript : string) (w : Wizard) : Wizard :=
  let text := JS.toLowerCase transcript in
  match find (voice_match text) (services w) with
  | Some foundService =>
      let w' :=
        if (String.length (mobile w) =? 10)%nat && is_walk_in (mode w)
        then handleBookSlot (Some (s_id foundService)) w
        else w in
      setIsListening false (setSelectedService (Some (s_id foundService)) w')
  | None => w
  end.

(** [recognition.onresult] of [VoiceInput]: the recognition object calls
    it when the platform delivers a result. *)
Definition onresult (transcript : string) (w : Wizard) : Wizard :=
  setIsListening false (handleVoiceResult transcript w).

(** *** The handlers of the rendered controls *)

(** The mobile field's [onChange]. *)
Definition mobile_onChange (value : string) (w : Wizard) : Wizard :=
  setMobile (JS.slice0 10 (JS.strip_non_digits value)) w.

(** The "Next Step" button of step 1. *)
Definition nextStep_onClick (w : Wizard) : Wizard :=
  if (String.length (mobile w) =? 10)%nat then setStep 2 w
  else setError "Please enter a valid 10-digit mobile number" w.

(** A service button of step 2. *)
Definition service_onClick (service : Service) (w : Wizard) : Wizard :=
  setSelectedService (Some (s_id service))
    (if is_pre_book (mode w) then setStep 3 w
     else handleBookSlot (Some (s_id service)) w).

(** The effect that follows a change of [selectedDate]. *)
Definition date_onChange (value : string) (random : nat -> Q) (w : Wizard) : Wizard :=
  let w' := setSelectedDate value w in
  if is_pre_book (mode w) then setAvailableSlots (generateSlots random) w' else w'.

(** The controls, as the user or the platform can operate them. *)
Inductive Event : Type :=
  | TypeMobile (value : string)
  | TypeName (value : string)
  | TypeAge (value : string)
  | ToggleDisabled
  | ClickNext
  | ClickMic
  | TapService (i : nat)
  | VoiceResult (transcript : string)
  | PickDate (value : string) (random : nat -> Q)
  | TapSlot (i : nat)
  | ClickConfirm
  | BookingSettled (k : nat) (o : Settled)
  | CatalogLoaded (service_types : list Service).

(** One event. A control handles a click when it is rendered and not
    [disabled]: the fields and "Next Step" on step 1, the microphone and
    the service buttons ([disabled={loading}]) on step 2, the date field,
    the slot buttons ([disabled={!slot.available}]) and "Confirm
    Appointment" ([disabled={loading || !selectedTimeSlot}]) on step 3 of
    [pre_book]. A recognition result, a settled request and the loaded
    catalog are not controls: they arrive when the platform delivers
    them. *)
Definition fire (e : Event) (w : Wizard) : Wizard :=
  match e with
  | TypeMobile v => if step w =? 1 then mobile_onChange v w else w
  | TypeName v => if step w =? 1 then setName v w else w
  | TypeAge v => if step w =? 1 then setAge v w else w
  | ToggleDisabled => if step w =? 1 then setIsDisabled (negb (isDisabled w)) w else w
  | ClickNext => if step w =? 1 then nextStep_onClick w else w
  | ClickMic => if step w =? 2 then setIsListening (negb (isListening w)) w else w
  | TapService i =>
      if step w =? 2 then
        match nth_error (services w) i with
        | Some service => if loading w then w else service_onClick service w
        | None => w
        end
      else w
  | VoiceResult t => onresult t w
  | PickDate v random =>
      if (step w =? 3) && is_pre_book (mode w) then date_onChange v random w else w
  | TapSlot i =>
      if (step w =? 3) && is_pre_book (mode w) then
        match nth_error (availableSlots w) i with
        | Some slot =>
            if negb (available slot) then w
            else setSelectedTimeSlot (Some (time slot)) w
        | None => w
        end
      else w
  | ClickConfirm =>
      if (step w =? 3) && is_pre_book (mode w) then
        if loading w || negb (truthy (selectedTimeSlot w)) then w
        else handleBookSlot None w
      else w
  | BookingSettled k o =>
      if (k <? List.length (inflight w))%nat then handleBookSlot_settled k o w else w
  | CatalogLoaded service_types => setServices service_types w
  end.

Definition run (es : list Event) (w : Wizard) : Wizard :=
  fold_left (fun acc e => fire e acc) es w.

End Host.

(** [{error && (<div>{error}</div>)}]: the error box, which the blocks of
    step 1 and of step 3 (in [pre_book] mode) render for a non-empty
    [error]. *)
Definition error_box (w : Wizard) : option string :=
  if ((step w =? 1) || ((step w =? 3) && is_pre_book (mode w)))
     && negb (String.eqb (error w) "")
  then Some (error w) else None.

(** The wizard as mounted: [today] is
    [new Date().toISOString().split('T')[0]]; the catalog arrives later. *)
Definition mount (m : Mode) (today : string) (random : nat -> Q) : Wizard :=
  {| mode := m; step := 1; mobile := ""; name := ""; age := "30";
     isDisabled := false; selectedService := None; isListening := false;
     services := []; loading := false; error := "";
     selectedDate := today; selectedTimeSlot := None;
     availableSlots := if is_pre_book m then generateSlots random else [];
     inflight := []; completed := [] |}.

End WalkInForm.

(* ================================================================== *)
(** ** The kiosk page: [KioskPage] with its [WelcomeScreen] *)
(* ================================================================== *)

Module KioskPage.

(** The values [setView] receives: 'welcome', 'walk_in', 'check_in' and
    'success' from the page itself, and the three modes that
    [WelcomeScreen] passes to [onSelectMode]. *)
Inductive View : Type := welcome | walk_in | check_in | pre_book | success.

(** The buttons of [WelcomeScreen]. *)
Inductive Choice : Type := new_token | have_appointment | book_future.

Definition onSelectMode (c : Choice) : View :=
  match c with
  | new_token => walk_in
  | have_appointment => check_in
  | book_future => pre_book
  end.

(** The fields of [successData] that the ticket reads. A number is the
    rational it is; a missing field is [None]. *)
Record Ticket : Type := mkTicket {
  token_number : string;
  queue_position : option Q;
  estimated_wait_min : option Q;
  priority_score : option Q;
  predicted_duration_min : option Q
}.

(** The page: its two cells and the auto-reset timers that are pending. *)
Record Kiosk : Type := mkKiosk {
  view : View;
  successData : option Ticket;
  resets : nat
}.

Definition initial : Kiosk := {| view := welcome; successData := None; resets := 0 |}.

(** [handleComplete(data)]: show the ticket and start a 10 s timer. *)
Definition handleComplete (data : Ticket) (k : Kiosk) : Kiosk :=
  {| view := success; successData := Some data; resets := S (resets k) |}.

(** The callback of that timer. *)
Definition reset (k : Kiosk) : Kiosk :=
  {| view := welcome; successData := None; resets := pred (resets k) |}.

Definition setView (v : View) (k : Kiosk) : Kiosk :=
  {| view := v; successData := successData k; resets := resets k |}.

(** What the content area renders. *)
Inductive Panel : Type :=
  | WelcomePanel
  | WalkInPanel
  | CheckInPanel
  | TicketPanel (data : Ticket)
  | NoPanel.

Definition render (k : Kiosk) : Panel :=
  match view k with
  | welcome => WelcomePanel
  | walk_in => WalkInPanel
  | check_in => CheckInPanel
  | success => match successData k with
               | Some data => TicketPanel data
               | None => NoPanel
               end
  | pre_book => NoPanel
  end.

(** [x || d] for a number: [undefined] and [0] are falsy. *)
Definition number_or (x : option Q) (d : Q) : Q :=
  match x with
  | Some q => if Qeq_bool q 0 then d else q
  | None => d
  end.

(** [successData.queue_position === 1] *)
Definition next_in_line (data : Ticket) : bool :=
  match queue_position data with
  | Some q => Qeq_bool q 1
  | None => false
  end.

(** [Math.ceil(successData.estimated_wait_min || 5)] *)
Definition wait_minutes (data : Ticket) : Z :=
  Qceiling (number_or (estimated_wait_min data) 5).

(** [Math.round(successData.priority_score || 0)]: halves round up. *)
Definition shown_score (data : Ticket) : Z :=
  Qfloor (number_or (priority_score data) 0 + (1 # 2)).

(** The black banner of the ticket. *)
Definition banner (data : Ticket) : string :=
  if next_in_line data then "NEXT IN LINE"
  else ("Wait: ~" ++ JS.toString (Some (wait_minutes data)) ++ " mins")%string.

(** What the user can do and what the platform delivers. The child's
    [onComplete] and the timer callback run whenever they are due, also
    after the child has been unmounted or the view has changed. *)
Inductive Event : Type :=
  | Select (c : Choice)
  | Back
  | ReturnHome
  | Completed (data : Ticket)
  | ResetFired.

Definition fire (e : Event) (k : Kiosk) : Kiosk :=
  match e, render k with
  | Select c, WelcomePanel => setView (onSelectMode c) k
  | Back, WalkInPanel => setView welcome k
  | Back, CheckInPanel => setView welcome k
  | ReturnHome, TicketPanel _ => setView welcome k
  | Completed data, _ => handleComplete data k
  | ResetFired, _ => match resets k with O => k | S _ => reset k end
  | _, _ => k
  end.

Definition run (es : list Event) (k : Kiosk) : Kiosk :=
  fold_left (fun acc e => fire e acc) es k.

(** The events that come from the user. *)
Definition by_user (e : Event) : bool :=
  match e with
  | Select _ | Back | ReturnHome => true
  | Completed _ | ResetFired => false
  end.

End KioskPage.

(* ================================================================== *)
(** ** The manager page: [AdminPage] *)
(* ================================================================== *)

Module AdminPage.

Record HourLoad : Type := mkHourLoad { hour : Z; load : Q }.

Record Staff : Type := mkStaff {
  staff_key : Z;
  staff_name : string;
  counter_number : Z;
  transactions_today : Z;
  efficiency_score : Q
}.

(** The analytics payload; a key the server leaves out is [None]. *)
Record Analytics : Type := mkAnalytics {
  avg_wait_time : option Q;
  avg_service_time : option Q;
  total_transactions_today : option Z;
  hourly_load_heatmap : option (list HourLoad);
  staff_performance : option (list Staff)
}.

Record Page : Type := mkPage {
  data : option Analytics;
  loading : bool
}.

Definition initial : Page := {| data := None; loading := true |}.

(** [fetchAnalytics], given how [getAnalytics()] settled. *)
Definition fetchAnalytics (response : option Analytics) (p : Page) : Page :=
  match response with
  | Some result => {| data := Some result; loading := false |}
  | None => {| data := data p; loading := false |}
  end.

Inductive Colour : Type := green | yellow.

(** A row of the staff table: name, desk, transactions, score and the
    colour of its bar ([efficiency_score >= 1]). *)
Record Row : Type := mkRow {
  row_name : string;
  row_desk : Z;
  row_transactions : Z;
  row_score : Q;
  row_colour : Colour
}.

Definition row (s : Staff) : Row :=
  {| row_name := staff_name s;
     row_desk := counter_number s;
     row_transactions := transactions_today s;
     row_score := efficiency_score s;
     row_colour := if Qle_bool 1 (efficiency_score s) then green else yellow |}.

Section Host.

(** [x.toFixed(1)], the platform's formatting of a number. *)
Variable toFixed1 : Q -> string.

(** [`${x ? x.toFixed(1) : 0} min`] *)
Definition minutes_text (x : option Q) : string :=
  match x with
  | Some q => if Qeq_bool q 0 then "0 min" else (toFixed1 q ++ " min")%string
  | None => "0 min"
  end.

Inductive Screen : Type :=
  | LoadingAnalytics
  | Dashboard (wait service : string) (transactions : option Z)
              (bars : list HourLoad) (rows : list Row).

(** The render: [None] when it throws a [TypeError], which it does when
    it reads a property of [data = null] or calls [map] on a missing
    array. *)
Definition render (p : Page) : option Screen :=
  match data p with
  | None => if loading p then Some LoadingAnalytics else None
  | Some d =>
      match hourly_load_heatmap d, staff_performance d with
      | Some heat, Some staff =>
          Some (Dashboard (minutes_text (avg_wait_time d))
                          (minutes_text (avg_service_time d))
                          (total_transactions_today d)
                          heat (map row staff))
      | _, _ => None
      end
  end.

End Host.

(** The polls of a run, each with how it settled. *)
Definition run (responses : list (option Analytics)) (p : Page) : Page :=
  fold_left (fun acc r => fetchAnalytics r acc) responses p.

End AdminPage.

(* ================================================================== *)
(** ** The appointment calendar: [AppointmentCalendar] *)
(* ================================================================== *)

Module AppointmentCalendar.
Import JSDate.

(** An appointment as the cards read it. *)
Record Appointment : Type := mkAppointment {
  appt_id : Z;
  appt_time : string;
  appt_customer : string;
  appt_service : string;
  appt_status : string;
  appt_mobile : string
}.

(** [s.slice(-n)]: from [max(length - n, 0)] to the end. *)
Fixpoint drop (k : nat) (s : string) : string :=
  match k, s with
  | O, _ => s
  | S _, EmptyString => EmptyString
  | S k', String _ r => drop k' r
  end.

Definition slice_last (n : nat) (s : string) : string :=
  drop (String.length s - n) s.

(** The mobile fragment of a card: [...{appt.mobile.slice(-4)}]. *)
Definition mobile_tail (a : Appointment) : string := slice_last 4 (appt_mobile a).

Definition SecFromTime (t : Z) : Z := (t / 1000) mod 60.
Definition msFromTime (t : Z) : Z := t mod 1000.

(** A number padded with zeros to [n] characters. *)
Definition pad_to (n : nat) (z : Z) : string := JS.padStart0 n (JS.toString (Some z)).

(** The year of [toISOString]: four digits from 0 to 9999, else a sign
    and six digits. *)
Definition iso_year (y : Z) : string :=
  if (0 <=? y) && (y <=? 9999) then pad_to 4 y
  else String.append (if y <? 0 then "-" else "+") (pad_to 6 (Z.abs y)).

(** [d.toISOString()]: the UTC fields of the time value; [None] is the
    [RangeError] thrown for an invalid date. *)
Definition toISOString (d : Date) : option string :=
  match d with
  | None => None
  | Some t =>
      Some (iso_year (YearFromTime t) ++ "-" ++ pad_to 2 (MonthFromTime t + 1) ++ "-" ++
            pad_to 2 (DateFromTime t) ++ "T" ++ pad_to 2 (HourFromTime t) ++ ":" ++
            pad_to 2 (MinFromTime t) ++ ":" ++ pad_to 2 (SecFromTime t) ++ "." ++
            pad_to 3 (msFromTime t) ++ "Z")%string
  end.

(** [new Date(value)] for a number: the value is truncated to an integer
    and clipped. *)
Definition Qtruncate (q : Q) : Z := if Qle_bool 0 q then Qfloor q else Qceiling q.

Definition Date_of_value (value : option Q) : Date :=
  match value with
  | Some q => TimeClip (Qtruncate q)
  | None => None
  end.

Section Host.

Variable LocalTZA : Z -> bool -> Z.

(** [d.getTimezoneOffset()]: [(t - LocalTime(t)) / msPerMinute]. *)
Definition getTimezoneOffset (d : Date) : option Q :=
  option_map (fun t => inject_Z (t - LocalTime LocalTZA t) / inject_Z msPerMinute)%Q d.

(** [formattedDate]:
    [new Date(date.getTime() - offset * 60 * 1000).toISOString().split('T')[0]].
    The arithmetic is that of the rationals; in doubles it is the same
    when the offset is a whole number of minutes. *)
Definition formattedDate (date : Date) : option string :=
  let localDate :=
    Date_of_value
      (match date, getTimezoneOffset date with
       | Some t, Some offset => Some (inject_Z t - offset * inject_Z 60 * inject_Z 1000)%Q
       | _, _ => None
       end) in
  match toISOString localDate with
  | Some text => JS.at_index (JS.split "T" text) 0
  | None => None
  end.

(** [d.setDate(dt)] *)
Definition setDate (dt : JS.number) (d : Date) : Date :=
  match d, dt with
  | Some t, Some n =>
      let lt := LocalTime LocalTZA t in
      TimeClip (UTC LocalTZA
                  (MakeDate (MakeDay (YearFromTime lt) (MonthFromTime lt) n)
                            (TimeWithinDay lt)))
  | _, _ => None
  end.

(** [changeDate(days)]: the next value of the [date] cell. *)
Definition changeDate (days : Z) (date : Date) : Date :=
  setDate (option_map (fun d => d + days) (getDate LocalTZA date)) date.

End Host.

End AppointmentCalendar.

(* ================================================================== *)
(** ** The walk-in form before pre-booking: the first [WalkInForm] *)
(* ================================================================== *)

Module WalkInFormV1.

(** The body of a [bookSlot] request: no [scheduled_time] yet. *)
Record Booking : Type := mkBooking {
  b_mobile : string;
  b_name : string;
  b_age : JS.number;
  b_is_disabled : bool;
  b_service_type : option string;
  b_booking_type : string
}.

(** The form: its [useState] cells, the requests in flight and the
    results handed to [onComplete]. *)
Record Wizard : Type := mkWizard {
  step : Z;
  mobile : string;
  name : string;
  age : string;
  isDisabled : bool;
  selectedService : option string;
  isListening : bool;
  services : list WalkInForm.Service;
  loading : bool;
  error : string;
  inflight : list Booking;
  completed : list WalkInForm.BookingResult
}.

Definition setStep (v : Z) (w : Wizard) : Wizard :=
  mkWizard v (mobile w) (name w) (age w) (isDisabled w) (selectedService w)
    (isListening w) (services w) (loading w) (error w) (inflight w) (completed w).
Definition setMobile (v : string) (w : Wizard) : Wizard :=
  mkWizard (step w) v (name w) (age w) (isDisabled w) (selectedService w)
    (isListening w) (services w) (loading w) (error w) (inflight w) (completed w).
Definition setName (v : string) (w : Wizard) : Wizard :=
  mkWizard (step w) (mobile w) v (age w) (isDisabled w) (selectedService w)
    (isListening w) (services w) (loading w) (error w) (inflight w) (completed w).
Definition setAge (v : string) (w : Wizard) : Wizard :=
  mkWizard (step w) (mobile w) (name w) v (isDisabled w) (selectedService w)
    (isListening w) (services w) (loading w) (error w) (inflight w) (completed w).
Definition setIsDisabled (v : bool) (w : Wizard) : Wizard :=
  mkWizard (step w) (mobile w) (name w) (age w) v (selectedService w)
    (isListening w) (services w) (loading w) (error w) (inflight w) (completed w).
Definition setSelectedService (v : option string) (w : Wizard) : Wizard :=
  mkWizard (step w) (mobile w) (name w) (age w) (isDisabled w) v
    (isListening w) (services w) (loading w) (error w) (inflight w) (completed w).
Definition setIsListening (v : bool) (w : Wizard) : Wizard :=
  mkWizard (step w) (mobile w) (name w) (age w) (isDisabled w) (selectedService w)
    v (services w) (loading w) (error w) (inflight w) (completed w).
Definition setServices (v : list WalkInForm.Service) (w : Wizard) : Wizard :=
  mkWizard (step w) (mobile w) (name w) (age w) (isDisabled w) (selectedService w)
    (isListening w) v (loading w) (error w) (inflight w) (completed w).
Definition setLoading (v : bool) (w : Wizard) : Wizard :=
  mkWizard (step w) (mobile w) (name w) (age w) (isDisabled w) (selectedService w)
    (isListening w) (services w) v (error w) (inflight w) (completed w).
Definition setError (v : string) (w : Wizard) : Wizard :=
  mkWizard (step w) (mobile w) (name w) (age w) (isDisabled w) (selectedService w)
    (isListening w) (services w) (loading w) v (inflight w) (completed w).
Definition post (b : Booking) (w : Wizard) : Wizard :=
  mkWizard (step w) (mobile w) (name w) (age w) (isDisabled w) (selectedService w)
    (isListening w) (services w) (loading w) (error w) (inflight w ++ [b]) (completed w).
Definition onComplete (r : WalkInForm.BookingResult) (w : Wizard) : Wizard :=
  mkWizard (step w) (mobile w) (name w) (age w) (isDisabled w) (selectedService w)
    (isListening w) (services w) (loading w) (error w) (inflight w) (completed w ++ [r]).
Definition land (k : nat) (w : Wizard) : Wizard :=
  mkWizard (step w) (mobile w) (name w) (age w) (isDisabled w) (selectedService w)
    (isListening w) (services w) (loading w) (error w)
    (WalkInForm.remove_nth k (inflight w)) (completed w).

(** The body passed to [bookSlot]. *)
Definition booking (serviceId : option string) (w : Wizard) : Booking :=
  {| b_mobile := mobile w;
     b_name := if negb (String.eqb (name w) "") then name w else "Walk-in Customer";
     b_age := JS.parseInt (Some (age w));
     b_is_disabled := isDisabled w;
     b_service_type := if WalkInForm.truthy serviceId then serviceId else selectedService w;
     b_booking_type := "walk_in" |}.

(** [handleBookSlot(serviceId)] up to its [await]. *)
Definition handleBookSlot (serviceId : option string) (w : Wizard) : Wizard :=
  if String.eqb (mobile w) "" || (String.length (mobile w) <? 10)%nat then
    setError "Please enter a valid mobile number" w
  else
    post (booking serviceId w) (setError "" (setLoading true w)).

(** [handleBookSlot] after its [await]. *)
Definition handleBookSlot_settled (k : nat) (o : WalkInForm.Settled) (w : Wizard) : Wizard :=
  match o with
  | WalkInForm.resolved result =>
      setLoading false
        (if WalkInForm.success result then onComplete result (land k w) else land k w)
  | WalkInForm.rejected =>
      setLoading false (setError "Booking failed. Please try again." (land k w))
  end.

Definition handleVoiceResult (transcript : string) (w : Wizard) : Wizard :=
  let text := JS.toLowerCase transcript in
  match find (WalkInForm.voice_match text) (services w) with
  | Some foundService =>
      let w' :=
        if (String.length (mobile w) =? 10)%nat
        then handleBookSlot (Some (WalkInForm.s_id foundService)) w
        else w in
      setIsListening false (setSelectedService (Some (WalkInForm.s_id foundService)) w')
  | None => w
  end.

Definition onresult (transcript : string) (w : Wizard) : Wizard :=
  setIsListening false (handleVoiceResult transcript w).

Definition mobile_onChange (value : string) (w : Wizard) : Wizard :=
  setMobile (JS.slice0 10 (JS.strip_non_digits value)) w.

Definition nextStep_onClick (w : Wizard) : Wizard :=
  if (String.length (mobile w) =? 10)%nat then setStep 2 w
  else setError "Please enter a valid 10-digit mobile number" w.

Definition service_onClick (service : WalkInForm.Service) (w : Wizard) : Wizard :=
  setSelectedService (Some (WalkInForm.s_id service))
    (handleBookSlot (Some (WalkInForm.s_id service)) w).

Inductive Event : Type :=
  | TypeMobile (value : string)
  | TypeName (value : string)
  | TypeAge (value : string)
  | ToggleDisabled
  | ClickNext
  | ClickMic
  | TapService (i : nat)
  | VoiceResult (transcript : string)
  | BookingSettled (k : nat) (o : WalkInForm.Settled)
  | CatalogLoaded (service_types : list WalkInForm.Service).

(** One event: the controls of step 1 and of step 2 handle a click when
    they are rendered and not [disabled]. *)
Definition fire (e : Event) (w : Wizard) : Wizard :=
  match e with
  | TypeMobile v => if step w =? 1 then mobile_onChange v w else w
  | TypeName v => if step w =? 1 then setName v w else w
  | TypeAge v => if step w =? 1 then setAge v w else w
  | ToggleDisabled => if step w =? 1 then setIsDisabled (negb (isDisabled w)) w else w
  | ClickNext => if step w =? 1 then nextStep_onClick w else w
  | ClickMic => if step w =? 2 then setIsListening (negb (isListening w)) w else w
  | TapService i =>
      if step w =? 2 then
        match nth_error (services w) i with
        | Some service => if loading w then w else service_onClick service w
        | None => w
        end
      else w
  | VoiceResult t => onresult t w
  | BookingSettled k o =>
      if (k <? List.length (inflight w))%nat then handleBookSlot_settled k o w else w
  | CatalogLoaded service_types => setServices service_types w
  end.

Definition run (es : list Event) (w : Wizard) : Wizard :=
  fold_left (fun acc e => fire e acc) es w.

Definition mount : Wizard :=
  {| step := 1; mobile := ""; name := ""; age := "30"; isDisabled := false;
     selectedService := None; isListening := false; services := [];
     loading := false; error := ""; inflight := []; completed := [] |}.

End WalkInFormV1.

(* ================================================================== *)
(** ** The check-in screen while it is mounted *)
(* ================================================================== *)

Module CheckInFlow.

(** The mounted screen: its cells, whether the 2 s timer of the mount
    effect is still to fire, and the lookups not yet settled. *)
Record Mounted : Type := mkMounted {
  screen : CheckInScreen.Screen;
  timer : bool;
  awaiting : nat
}.

Definition mount : Mounted := mkMounted CheckInScreen.initial true 0.

Inductive Event : Type :=
  | TimerFired
  | Submit (mobile : string)
  | Settle (o : CheckInScreen.Settled)
  | TryAgain.

(** One event. The timer fires once; the form is rendered with status
    [input] only, "Try Again" with status [error] only; a lookup settles
    when one is awaited. *)
Definition fire (e : Event) (m : Mounted) : Mounted :=
  match e with
  | TimerFired =>
      if timer m
      then mkMounted (CheckInScreen.timer_fired (screen m)) false (awaiting m)
      else m
  | Submit mobile =>
      match CheckInScreen.status (screen m) with
      | CheckInScreen.input =>
          if negb (String.length mobile =? 10)%nat then m
          else mkMounted (CheckInScreen.handleMobileSubmit mobile (screen m))
                 (timer m) (S (awaiting m))
      | _ => m
      end
  | Settle o =>
      match awaiting m with
      | S n => mkMounted (CheckInScreen.handleMobileSubmit_settled o (screen m)) (timer m) n
      | O => m
      end
  | TryAgain =>
      match CheckInScreen.status (screen m) with
      | CheckInScreen.error =>
          mkMounted (CheckInScreen.tryAgain (screen m)) (timer m) (awaiting m)
      | _ => m
      end
  end.

Definition run (es : list Event) (m : Mounted) : Mounted :=
  fold_left (fun acc e => fire e acc) es m.

End CheckInFlow.

(* ================================================================== *)
(** * Properties *)
(* ================================================================== *)

(* ------------------------------------------------------------------ *)
(** ** The JavaScript operations on samples *)
(* ------------------------------------------------------------------ *)

Module Samples.

Example parseInt_examples :
  JS.parseInt (Some "2025") = Some 2025 /\ JS.parseInt (Some "09") = Some 9 /\
  JS.parseInt (Some "") = None /\ JS.parseInt None = None /\
  JS.parseInt (Some " -12px") = Some (-12) /\ JS.parseInt (Some "0x1f") = Some 31.
Proof. repeat split. Qed.

Example string_examples :
  JS.split "-" "2025-01-05" = ["2025"; "01"; "05"] /\
  JS.split "-" "" = [""] /\
  JS.padStart0 2 (JS.toString (Some 9)) = "09" /\
  JS.padStart0 2 (JS.toString (Some 2025)) = "2025" /\
  JS.replace_first "_" " " "A_B_C" = "A B_C" /\
  JS.includes (JS.toLowerCase "Cash Deposit please") "cash deposit" = true /\
  JS.slice0 10 (JS.strip_non_digits "98765-432101") = "9876543210".
Proof. repeat split. Qed.

Example date_examples :
  JSDate.getFullYear JSDate.IST (JSDate.new_Date JSDate.IST (Some 2025) (Some 0) (Some 5) (Some 9) (Some 30)) = Some 2025 /\
  JSDate.getMonth JSDate.IST (JSDate.new_Date JSDate.IST (Some 2024) (Some 1) (Some 29) (Some 9) (Some 30)) = Some 1 /\
  JSDate.getDate JSDate.IST (JSDate.new_Date JSDate.IST (Some 2024) (Some 1) (Some 29) (Some 9) (Some 30)) = Some 29 /\
  JSDate.getDate JSDate.IST (JSDate.new_Date JSDate.IST (Some 2025) (Some 1) (Some 29) (Some 9) (Some 30)) = Some 1 /\
  JSDate.getFullYear JSDate.IST (JSDate.new_Date JSDate.IST (Some 50) (Some 5) (Some 15) (Some 9) (Some 30)) = Some 1950 /\
  JSDate.new_Date JSDate.IST (Some 1970) (Some 0) (Some 1) (Some 5) (Some 30) = Some 0 /\
  JSDate.YearFromDay (-1) = 1969 /\ JSDate.YearFromDay 0 = 1970 /\ JSDate.YearFromDay 364 = 1970 /\
  JSDate.YearFromDay 365 = 1971 /\ JSDate.YearFromDay (-719528) = 0 /\ JSDate.YearFromDay (-719529) = -1.
Proof. vm_compute. repeat split. Qed.

End Samples.

(* ------------------------------------------------------------------ *)
(** ** The queue reducer *)
(* ------------------------------------------------------------------ *)

Module QueueView.
Import StaffPage.

Lemma Status_eqb_eq a b : Status_eqb a b = true <-> a = b.
Proof. destruct a, b; simpl; split; congruence. Qed.


Lemma mine_in_progress n q : mine n q = true -> status q = in_progress.
Proof.
  unfold mine. rewrite andb_true_iff, Status_eqb_eq. tauto.
Qed.

Lemma mine_not_pending n q : mine n q = true -> pending q = false.
Proof.
  intros H. apply mine_in_progress in H. unfold pending. rewrite H. reflexivity.
Qed.


(** [find] returns the first entry, in input order, that satisfies the
    predicate. *)
Lemma find_first {A} (f : A -> bool) (l : list A) (x : A) :
  find f l = Some x ->
  exists before after,
    l = (before ++ x :: after)%list /\ f x = true /\
    Forall (fun y => f y = false) before.
Proof.
  induction l as [| y l IH]; [discriminate |].
  cbn. destruct (f y) eqn:Hy.
  - intros [= <-]. exists [], l. repeat split; [exact Hy | apply Forall_nil].
  - intros H. destruct (IH H) as [before [after [-> [Hx Hb]]]].
    exists (y :: before), after. repeat split; [exact Hx |].
    apply Forall_cons; assumption.
Qed.

(** The two cells that [fetchQueue] writes are the two components of
    [reduceQueue] at counter 1. *)
Lemma fetchQueue_reduce data p :
  currentCustomer (fetchQueue (Some data) p) = fst (reduceQueue counterNumber data) /\
  queue (fetchQueue (Some data) p) = snd (reduceQueue counterNumber data).
Proof. unfold fetchQueue. destruct (reduceQueue counterNumber data). split; reflexivity. Qed.

(** Scenario A and Scenario B of the specification. *)
Definition entry (i : Z) (st : Status) (counter : option Z) : QueueEntry :=
  mkEntry i "T" None "Forex" st 5 None counter.

Example scenario_A :
  let q := [entry 1 in_progress (Some 1); entry 2 waiting None; entry 3 checked_in None] in
  option_map id (fst (reduceQueue 1 q)) = Some 1 /\ map id (snd (reduceQueue 1 q)) = [2; 3].
Proof. split; reflexivity. Qed.

Example scenario_B :
  let q := [entry 2 waiting None; entry 3 checked_in None] in
  option_map id (fst (reduceQueue 1 q)) = Some 2 /\ map id (snd (reduceQueue 1 q)) = [3].
Proof. split; reflexivity. Qed.


(** Entries with pairwise distinct ids: an id names its entry. *)
Lemma id_names_entry (l : list QueueEntry) (a b : QueueEntry) :
  NoDup (map id l) -> In a l -> In b l -> id a = id b -> a = b.
Proof.
  induction l as [| x l IH]; intros Hnd Ha Hb Hid; [destruct Ha |].
  cbn in Hnd. inversion Hnd as [| ? ? Hx Hl]; subst.
  destruct Ha as [-> | Ha], Hb as [-> | Hb]; auto.
  - elim Hx. rewrite Hid. apply in_map. exact Hb.
  - elim Hx. rewrite <- Hid. apply in_map. exact Ha.
Qed.

(** On a snapshot whose ids are pairwise distinct, [remaining] is the
    waiting or checked-in entries whose id differs from the current
    one's, whatever that id is. *)
Lemma reduceQueue_distinct_ids (n : Z) (snapshot : list QueueEntry) :
  NoDup (map id snapshot) ->
  snd (reduceQueue n snapshot) = spec_remaining (fst (reduceQueue n snapshot)) snapshot.
Proof.
  intros Hnd. unfold reduceQueue, spec_remaining. cbn [fst snd].
  apply filter_ext_in. intros q Hq.
  destruct (find (mine n) snapshot) as [c0 |] eqn:Hmine.
  - pose proof (find_some _ _ Hmine) as [Hin Hc0].
    unfold js_or, opt_id, truthy. cbn [option_map].
    destruct (Z.eqb_spec (id c0) 0) as [Hz | Hnz]; cbn [negb strict_neq].
    + (* id 0: nothing is excluded by id, and no other entry has id 0 *)
      destruct (pending q) eqn:Hp; [| reflexivity]. cbn.
      symmetry. apply negb_true_iff, Z.eqb_neq. intros E.
      rewrite (id_names_entry snapshot q c0 Hnd Hq Hin E) in Hp.
      rewrite (mine_not_pending _ _ Hc0) in Hp. discriminate.
    + apply andb_comm.
  - destruct (find pending snapshot) as [c1 |] eqn:Hnext.
    + cbn. apply andb_comm.
    + cbn. symmetry. apply andb_true_r.
Qed.









(** Two entries with id 0, one in progress at counter 1, one waiting. *)
Definition served_zero : QueueEntry := entry 0 in_progress (Some 1).
Definition waiting_zero : QueueEntry := entry 0 waiting None.

(** The ids have to be distinct: on a snapshot in which the entry in
    progress at the counter has id 0 and a waiting entry carries the same
    id, the waiting entry stays in [remaining]. *)
Example reduceQueue_keeps_zero_id :
  fst (reduceQueue 1 [served_zero; waiting_zero]) = Some served_zero /\
  snd (reduceQueue 1 [served_zero; waiting_zero]) = [waiting_zero] /\
  id waiting_zero = id served_zero /\
  spec_remaining (Some served_zero) [served_zero; waiting_zero] = [].
Proof. repeat split. Qed.

End QueueView.

(* ------------------------------------------------------------------ *)
(** ** The service session *)
(* ------------------------------------------------------------------ *)

Module ServiceSession.
Import CurrentCustomer.

Lemma Action_eqb_eq a b : Action_eqb a b = true <-> a = b.
Proof. destruct a, b; simpl; split; congruence. Qed.

(** The actions on offer are those of the rendered buttons. *)
Lemma clickable_offer a s :
  clickable a s = true ->
  loading s = false /\
  exists c, customer (props s) = Some c /\
            (isStarted c = true /\ a = complete \/
             isStarted c = false /\ (a = start \/ a = no_show)).
Proof.
  unfold clickable, buttons. destruct (customer (props s)) as [c |]; [| discriminate].
  destruct (isStarted c) eqn:Hs; cbn [negb existsb onClick disabled];
    rewrite ?orb_false_r, ?orb_true_iff, ?andb_true_iff, ?Action_eqb_eq, ?negb_true_iff.
  - intros [<- Hl]. split; [exact Hl |]. exists c. auto.
  - intros [[<- Hl] | [<- Hl]]; (split; [exact Hl |]); exists c; auto.
Qed.

Lemma app_one_neq {A} (l : list A) (x : A) : (l ++ [x])%list <> l.
Proof.
  intros H. apply (f_equal (@List.length A)) in H.
  rewrite length_app in H. simpl in H. lia.
Qed.

Lemma click_posts a s :
  posted (click a s) <> posted s -> clickable a s = true.
Proof.
  unfold click. destruct (clickable a s); [reflexivity |]. intros H. elim H. reflexivity.
Qed.

(** C2. A click posts a request only through a rendered, enabled button:
    a [complete] request is posted only for a customer whose [start_time]
    is present, and for a customer without [start_time] the posted
    action is [start] or [no_show]. The request carries that action. *)
Theorem complete_needs_start_time (a : Action) (s : Session) :
  posted (click a s) <> posted s ->
  exists c,
    customer (props s) = Some c /\
    (a = complete -> exists t, StaffPage.start_time c = Some t /\ t <> ""%string) /\
    (StaffPage.start_time c = None -> a = start \/ a = no_show) /\
    posted (click a s) =
      (posted s ++
       [mkRequest (StaffPage.id c) a (counterNumber (props s)) (staffId (props s))])%list.
Proof.
  intros Hpost. pose proof (click_posts _ _ Hpost) as Hc.
  destruct (clickable_offer _ _ Hc) as [_ [c [Hcust Hoffer]]].
  exists c. split; [exact Hcust |]. split; [| split].
  - intros ->. destruct Hoffer as [[Hs _] | [_ [H | H]]]; try discriminate.
    unfold isStarted in Hs. destruct (StaffPage.start_time c) as [t |]; [| discriminate].
    exists t. split; [reflexivity |]. intros ->. discriminate.
  - intros Hnone. destruct Hoffer as [[Hs _] | [_ H]]; [| exact H].
    unfold isStarted in Hs. rewrite Hnone in Hs. discriminate.
  - unfold click. rewrite Hc. unfold handleAction. rewrite Hcust. reflexivity.
Qed.

(** A customer in service at counter 1. *)
Definition in_service : Session :=
  {| props := {| customer := Some (StaffPage.mkEntry 7 "A007" None "Forex"
                                    StaffPage.in_progress 5
                                    (Some "2025-01-05T09:30:00") (Some 1));
                 staffId := 1; counterNumber := 1 |};
     loading := false; posted := []; updates := 0 |}.

(** C2 at a customer in service, on "Complete Transaction". *)
Lemma complete_needs_start_time_witness :
  exists c,
    customer (props in_service) = Some c /\
    (complete = complete -> exists t, StaffPage.start_time c = Some t /\ t <> ""%string) /\
    (StaffPage.start_time c = None -> complete = start \/ complete = no_show) /\
    posted (click complete in_service) =
      (posted in_service ++
       [mkRequest (StaffPage.id c) complete (counterNumber (props in_service))
                  (staffId (props in_service))])%list.
Proof. apply (complete_needs_start_time complete in_service). discriminate. Defined.

(** Before the service has started, a click on "complete" posts nothing,
    and so does every sequence of such clicks. *)
Lemma complete_unreachable s c :
  customer (props s) = Some c -> StaffPage.start_time c = None ->
  click complete s = s.
Proof.
  intros Hc Hn. unfold click, clickable, buttons, isStarted. rewrite Hc, Hn. reflexivity.
Qed.

(** As long as no render brings a customer with a [start_time], no
    sequence of clicks and settled requests posts a [complete]. *)
Definition not_started (c : option StaffPage.QueueEntry) : Prop :=
  forall x, c = Some x -> isStarted x = false.

Definition renders_not_started (e : Event) : Prop :=
  match e with
  | Rendered c => not_started c
  | _ => True
  end.

Lemma fire_keeps_complete_out e s :
  not_started (customer (props s)) -> renders_not_started e ->
  Forall (fun r => action r <> complete) (posted s) ->
  not_started (customer (props (fire e s))) /\
  Forall (fun r => action r <> complete) (posted (fire e s)).
Proof.
  intros Hs He Hp. destruct e as [a | r | c]; cbn [fire].
  - unfold click. destruct (clickable a s) eqn:Hc; [| split; assumption].
    destruct (clickable_offer _ _ Hc) as [_ [x [Hx Hoffer]]].
    unfold handleAction. rewrite Hx. cbn [props posted]. split; [exact Hs |].
    apply Forall_app. split; [exact Hp |]. apply Forall_cons; [| apply Forall_nil].
    cbn [action]. destruct Hoffer as [[Hst _] | [_ [-> | ->]]]; try discriminate.
    rewrite (Hs x Hx) in Hst. discriminate.
  - split; assumption.
  - split; [exact He | exact Hp].
Qed.

(** X7. From a state that has posted no [complete], and as long as every
    render brings a customer without a [start_time] (or none), no
    sequence of clicks, settled requests and renders posts a
    [complete]. *)
Lemma no_complete_before_start es : forall s,
  not_started (customer (props s)) -> Forall renders_not_started es ->
  Forall (fun r => action r <> complete) (posted s) ->
  Forall (fun r => action r <> complete) (posted (run es s)).
Proof.
  induction es as [| e es IH]; intros s Hs Hes Hp; [exact Hp |].
  inversion Hes as [| ? ? He Hes']; subst.
  destruct (fire_keeps_complete_out e s Hs He Hp) as [Hs' Hp'].
  cbn [run fold_left]. apply (IH (fire e s) Hs' Hes' Hp').
Qed.

End ServiceSession.

(* ------------------------------------------------------------------ *)
(** ** The check-in controller *)
(* ------------------------------------------------------------------ *)

Module CheckIn.
Import CheckInScreen.

(** Scenario D of the specification. *)
Example scenario_D s :
  let s' := handleMobileSubmit_settled
              (resolved (mkResult false (Some "No appointment found") None None)) s in
  status s' = error /\ message s' = Some "No appointment found".
Proof. split; reflexivity. Qed.

(** C9. When the lookup settles with a response, the screen shows
    [success] exactly when the response has [success = true]; a response
    with [success = false] leads to [error] with the server's message,
    or with 'No appointment found' when the message is missing or empty;
    nothing is scheduled for [onComplete] then. A rejected lookup leads
    to [error] as well. *)
Theorem negative_result_is_error (r : Result) (s : Screen) :
  (r_success r = false ->
     status (handleMobileSubmit_settled (resolved r) s) = error /\
     status (handleMobileSubmit_settled (resolved r) s) <> success /\
     message (handleMobileSubmit_settled (resolved r) s) =
       Some (message_or_default (r_message r)) /\
     (forall m, r_message r = Some m -> m <> ""%string ->
                message (handleMobileSubmit_settled (resolved r) s) = Some m) /\
     (r_message r = None \/ r_message r = Some ""%string ->
                message (handleMobileSubmit_settled (resolved r) s) =
                  Some "No appointment found"%string) /\
     scheduled (handleMobileSubmit_settled (resolved r) s) = scheduled s) /\
  (status (handleMobileSubmit_settled (resolved r) s) = success <-> r_success r = true) /\
  status (handleMobileSubmit_settled rejected s) = error.
Proof.
  unfold handleMobileSubmit_settled. destruct (r_success r) eqn:Hs; cbn.
  - split; [discriminate |]. split; [tauto | reflexivity].
  - split; [| split; [split; discriminate | reflexivity]]. intros _.
    repeat split; try discriminate.
    + intros m -> Hm. unfold message_or_default.
      destruct (String.eqb m "") eqn:E; [apply String.eqb_eq in E; contradiction | reflexivity].
    + intros [-> | ->]; reflexivity.
Qed.

(** A submit with a mobile number of another length is ignored. *)
Lemma short_mobile_ignored mobile o s :
  String.length mobile <> 10%nat -> checkIn mobile o s = s.
Proof.
  intros H. unfold checkIn. apply Nat.eqb_neq in H. rewrite H. reflexivity.
Qed.

(** A submit with ten characters posts exactly one lookup. *)
Lemma checkIn_posts_once mobile o s :
  String.length mobile = 10%nat ->
  posted (checkIn mobile o s) = (posted s ++ [mobile])%list.
Proof.
  intros H. unfold checkIn, handleMobileSubmit. apply Nat.eqb_eq in H. rewrite H. cbn.
  destruct o as [r |]; cbn; [destruct (r_success r) |]; reflexivity.
Qed.

End CheckIn.

(* ------------------------------------------------------------------ *)
(** ** The calendar *)
(* ------------------------------------------------------------------ *)

Module Calendar.
Import JSDate.

(** Linear arithmetic with the quotients and remainders named. *)
Ltac div_lia := Z.to_euclidean_division_equations; lia.

Lemma DayFromYear_succ y : DayFromYear (y + 1) = DayFromYear y + DaysInYear y.
Proof.
  unfold DayFromYear, DaysInYear.
  destruct (y mod 4 =? 0) eqn:E4; destruct (y mod 100 =? 0) eqn:E100;
    destruct (y mod 400 =? 0) eqn:E400; cbn [negb];
    rewrite ?Z.eqb_eq, ?Z.eqb_neq in *; div_lia.
Qed.

Lemma DaysInYear_cases y : DaysInYear y = 365 \/ DaysInYear y = 366.
Proof.
  unfold DaysInYear. repeat (destruct (negb _); [tauto |]). tauto.
Qed.

Lemma DayFromYear_le y1 y2 : y1 <= y2 -> DayFromYear y1 <= DayFromYear y2.
Proof. unfold DayFromYear. intros H. div_lia. Qed.

Lemma DayFromYear_lt y1 y2 : y1 < y2 -> DayFromYear y1 < DayFromYear y2.
Proof. unfold DayFromYear. intros H. div_lia. Qed.

(** The downward search stops at the year of the day. *)
Lemma year_down_finds fuel : forall y0 day y,
  DayFromYear y <= day < DayFromYear (y + 1) ->
  y <= y0 -> y0 - y < Z.of_nat fuel ->
  year_down fuel y0 day = y.
Proof.
  induction fuel as [| fuel IH]; intros y0 day y Hy Hle Hfuel; [lia |].
  cbn [year_down]. destruct (Z.leb_spec (DayFromYear y0) day) as [Hd | Hd].
  - destruct (Z.eq_dec y0 y) as [E | E]; [exact E |].
    assert (Hlt : y + 1 <= y0) by lia.
    apply DayFromYear_le in Hlt. lia.
  - assert (Hne : y0 <> y) by (intros ->; lia).
    apply IH; [exact Hy | lia | lia].
Qed.

Lemma YearFromDay_unique day y :
  DayFromYear y <= day < DayFromYear (y + 1) -> YearFromDay day = y.
Proof.
  intros Hy. unfold YearFromDay. apply year_down_finds; [exact Hy | |].
  - destruct (Z.leb_spec 0 day); unfold DayFromYear in Hy; div_lia.
  - rewrite Z2Nat.id by div_lia.
    destruct (Z.leb_spec 0 day); unfold DayFromYear in Hy; div_lia.
Qed.

(** Every day lies in a year. *)
Lemma year_between (n : nat) : forall lo day,
  DayFromYear lo <= day < DayFromYear (lo + Z.of_nat n) ->
  exists y, DayFromYear y <= day < DayFromYear (y + 1).
Proof.
  induction n as [| n IH]; intros lo day H.
  - rewrite Z.add_0_r in H. lia.
  - destruct (Z.lt_ge_cases day (DayFromYear (lo + 1))) as [Hlt | Hge].
    + exists lo. lia.
    + apply (IH (lo + 1)). replace (lo + 1 + Z.of_nat n) with (lo + Z.of_nat (S n)) by lia.
      lia.
Qed.

Lemma year_exists day : exists y, DayFromYear y <= day < DayFromYear (y + 1).
Proof.
  apply (year_between (Z.to_nat (2 * Z.abs day + 2)) (1969 - Z.abs day)).
  rewrite Z2Nat.id by lia. unfold DayFromYear. div_lia.
Qed.

(** [YearFromDay day] is the largest year that starts on or before [day]. *)
Lemma YearFromDay_bounds day :
  DayFromYear (YearFromDay day) <= day < DayFromYear (YearFromDay day + 1).
Proof.
  destruct (year_exists day) as [y Hy]. rewrite (YearFromDay_unique _ _ Hy). exact Hy.
Qed.

Lemma YearFromDay_largest day y : DayFromYear y <= day -> y <= YearFromDay day.
Proof.
  intros H. destruct (Z.le_gt_cases y (YearFromDay day)) as [Hle | Hgt]; [exact Hle |].
  assert (Hs : YearFromDay day + 1 <= y) by lia.
  apply DayFromYear_le in Hs. pose proof (YearFromDay_bounds day). lia.
Qed.

(** Days of month [mn] (0..11) in year [y]. *)
Definition DaysInMonth (y mn : Z) : Z :=
  match mn with
  | 1 => if DaysInYear y =? 366 then 29 else 28
  | 3 | 5 | 8 | 10 => 30
  | _ => 31
  end.

Lemma DaysInMonth_le y mn : DaysInMonth y mn <= 31.
Proof.
  unfold DaysInMonth. destruct mn as [| p | p]; try lia.
  do 4 (try destruct p as [p | p |]); try destruct (_ =? _); lia.
Qed.

(** A calendar date is found again in the day number [MakeDay] gives it. *)
Lemma civil_roundtrip y mn d t :
  0 <= mn <= 11 -> 1 <= d <= DaysInMonth y mn ->
  Day t = MakeDay y mn d ->
  YearFromTime t = y /\ MonthFromTime t = mn /\ DateFromTime t = d.
Proof.
  intros Hmn Hd Hday.
  assert (Hq : mn / 12 = 0) by div_lia.
  assert (Hr : mn mod 12 = mn) by div_lia.
  unfold MakeDay in Hday. rewrite Hq, Hr, Z.add_0_r in Hday.
  assert (Hyear : YearFromTime t = y).
  { unfold YearFromTime. apply YearFromDay_unique. rewrite DayFromYear_succ, Hday.
    unfold month_start, DaysInMonth in *.
    destruct (DaysInYear_cases y) as [E | E]; rewrite E in *; cbn [Z.eqb Pos.eqb] in *;
      assert (Hc : mn = 0 \/ mn = 1 \/ mn = 2 \/ mn = 3 \/ mn = 4 \/ mn = 5 \/ mn = 6 \/
                   mn = 7 \/ mn = 8 \/ mn = 9 \/ mn = 10 \/ mn = 11) by lia;
      repeat (destruct Hc as [-> | Hc]; [lia |]); subst mn; lia. }
  split; [exact Hyear |].
  unfold DateFromTime, MonthFromTime, DayWithinYear, InLeapYear.
  rewrite Hyear, Hday. unfold month_start, DaysInMonth in *.
  assert (Hc : mn = 0 \/ mn = 1 \/ mn = 2 \/ mn = 3 \/ mn = 4 \/ mn = 5 \/ mn = 6 \/
               mn = 7 \/ mn = 8 \/ mn = 9 \/ mn = 10 \/ mn = 11) by lia.
  destruct (DaysInYear_cases y) as [E | E]; rewrite E in *; cbn [Z.eqb Pos.eqb] in *;
    repeat (destruct Hc as [-> | Hc];
            [repeat match goal with
                    | |- context [?a <? ?b] => destruct (Z.ltb_spec a b); try lia
                    end; split; lia |]);
    subst mn;
    repeat match goal with
           | |- context [?a <? ?b] => destruct (Z.ltb_spec a b); try lia
           end; split; lia.
Qed.

(** The hour and the minute are found again in the time value. *)
Lemma clock_roundtrip day h mi :
  0 <= h <= 23 -> 0 <= mi <= 59 ->
  Day (MakeDate day (MakeTime h mi 0 0)) = day /\
  HourFromTime (MakeDate day (MakeTime h mi 0 0)) = h /\
  MinFromTime (MakeDate day (MakeTime h mi 0 0)) = mi.
Proof.
  intros Hh Hmi.
  unfold Day, HourFromTime, MinFromTime, MakeDate, MakeTime, msPerDay, msPerHour, msPerMinute.
  repeat split; div_lia.
Qed.

(** The day number of a calendar date lies in its year. *)
Lemma MakeDay_in_year y mn d :
  0 <= mn <= 11 -> 1 <= d <= DaysInMonth y mn ->
  DayFromYear y <= MakeDay y mn d < DayFromYear (y + 1).
Proof.
  intros Hmn Hd.
  assert (Hq : mn / 12 = 0) by div_lia.
  assert (Hr : mn mod 12 = mn) by div_lia.
  unfold MakeDay. rewrite Hq, Hr, Z.add_0_r, DayFromYear_succ.
  unfold month_start, DaysInMonth in *.
  assert (Hc : mn = 0 \/ mn = 1 \/ mn = 2 \/ mn = 3 \/ mn = 4 \/ mn = 5 \/ mn = 6 \/
               mn = 7 \/ mn = 8 \/ mn = 9 \/ mn = 10 \/ mn = 11) by lia.
  destruct (DaysInYear_cases y) as [E | E]; rewrite E in *; cbn [Z.eqb Pos.eqb] in *;
    repeat (destruct Hc as [-> | Hc]; [lia |]); subst mn; lia.
Qed.

Section Host.

Variable LocalTZA : Z -> bool -> Z.

(** The local time [t] exists in the host's zone: the offset in force at
    the instant it denotes is the offset it is read with (it is not
    skipped by a transition), and that offset is within a day. *)
Definition wall_clock (t : Z) : Prop :=
  LocalTZA (UTC LocalTZA t) true = LocalTZA t false /\
  Z.abs (LocalTZA t false) <= msPerDay.

Lemma LocalTime_UTC t : wall_clock t -> LocalTime LocalTZA (UTC LocalTZA t) = t.
Proof. intros [H _]. unfold LocalTime. rewrite H. unfold UTC. lia. Qed.

(** A [Date] built from a calendar date and a time of day that exist
    returns them through its getters. *)
Lemma new_Date_fields y mn d h mi :
  ~ 0 <= y <= 99 -> -200000 <= y <= 200000 ->
  0 <= mn <= 11 -> 1 <= d <= DaysInMonth y mn ->
  0 <= h <= 23 -> 0 <= mi <= 59 ->
  wall_clock (MakeDate (MakeDay y mn d) (MakeTime h mi 0 0)) ->
  getFullYear LocalTZA (new_Date LocalTZA (Some y) (Some mn) (Some d) (Some h) (Some mi)) = Some y /\
  getMonth LocalTZA (new_Date LocalTZA (Some y) (Some mn) (Some d) (Some h) (Some mi)) = Some mn /\
  getDate LocalTZA (new_Date LocalTZA (Some y) (Some mn) (Some d) (Some h) (Some mi)) = Some d /\
  getHours LocalTZA (new_Date LocalTZA (Some y) (Some mn) (Some d) (Some h) (Some mi)) = Some h /\
  getMinutes LocalTZA (new_Date LocalTZA (Some y) (Some mn) (Some d) (Some h) (Some mi)) = Some mi.
Proof.
  intros Hy Hrange Hmn Hd Hh Hmi Hwall.
  unfold new_Date.
  assert (Hcentury : (0 <=? y) && (y <=? 99) = false).
  { apply andb_false_iff. destruct (Z.leb_spec 0 y); [right | left; reflexivity].
    apply Z.leb_gt. lia. }
  rewrite Hcentury.
  set (t := MakeDate (MakeDay y mn d) (MakeTime h mi 0 0)) in *.
  destruct (clock_roundtrip (MakeDay y mn d) h mi Hh Hmi) as [Hday [Hhour Hmin]].
  fold t in Hday, Hhour, Hmin.
  assert (Hclip : TimeClip (UTC LocalTZA t) = Some (UTC LocalTZA t)).
  { unfold TimeClip.
    pose proof (MakeDay_in_year y mn d Hmn Hd) as Hin.
    assert (Hlo : DayFromYear (-200000) <= DayFromYear y) by (apply DayFromYear_le; lia).
    assert (Hhi : DayFromYear (y + 1) <= DayFromYear 200001) by (apply DayFromYear_le; lia).
    change (DayFromYear (-200000)) with (-73768028) in Hlo.
    change (DayFromYear 200001) with 72329338 in Hhi.
    destruct Hwall as [_ Hoff]. unfold UTC.
    assert (Ht : Day t * msPerDay <= t < Day t * msPerDay + msPerDay).
    { unfold Day, msPerDay. div_lia. }
    rewrite Hday in Ht. unfold msPerDay in *.
    destruct (Z.leb_spec (Z.abs (t - LocalTZA t false)) 8640000000000000); [reflexivity | lia]. }
  rewrite Hclip. unfold getFullYear, getMonth, getDate, getHours, getMinutes.
  cbn [option_map]. rewrite (LocalTime_UTC t Hwall).
  destruct (civil_roundtrip y mn d t Hmn Hd Hday) as [Hyear [Hmonth Hdate]].
  rewrite Hyear, Hmonth, Hdate, Hhour, Hmin. repeat split.
Qed.

End Host.

(** In a zone with a fixed offset of less than a day every local time
    exists. *)
Lemma fixed_zone_wall_clock offset t :
  Z.abs offset <= msPerDay -> wall_clock (fixed_zone offset) t.
Proof. intros H. split; [reflexivity | exact H]. Qed.

End Calendar.

(* ------------------------------------------------------------------ *)
(** ** Numbers as text *)
(* ------------------------------------------------------------------ *)

Module Text.

Lemma append_assoc (a b c : string) : ((a ++ b) ++ c = a ++ (b ++ c))%string.
Proof. induction a as [| x a IH]; cbn; [| rewrite IH]; reflexivity. Qed.

Lemma append_nil_r (a : string) : (a ++ "" = a)%string.
Proof. induction a as [| x a IH]; cbn; [| rewrite IH]; reflexivity. Qed.

(** [sep] does not occur in [s]. *)
Fixpoint free_of (sep : ascii) (s : string) : bool :=
  match s with
  | EmptyString => true
  | String c r => negb (Ascii.eqb c sep) && free_of sep r
  end.

Lemma rev_string_twice a : forall acc1 acc2,
  JS.rev_string acc2 (JS.rev_string acc1 a) = JS.rev_string (a ++ acc2) acc1.
Proof.
  induction a as [| c a IH]; intros acc1 acc2; cbn; [reflexivity |].
  rewrite IH. reflexivity.
Qed.

Lemma split_from_piece sep a : forall cur rest,
  free_of sep a = true ->
  JS.split_from sep cur (a ++ rest) = JS.split_from sep (JS.rev_string cur a) rest.
Proof.
  induction a as [| c a IH]; intros cur rest H; cbn in *; [reflexivity |].
  apply andb_true_iff in H. destruct H as [Hc Ha].
  apply negb_true_iff in Hc. rewrite Hc. apply IH. exact Ha.
Qed.

(** The first piece of a split ends at the first separator. *)
Lemma split_cons sep a rest :
  free_of sep a = true ->
  JS.split sep (a ++ String sep rest) = a :: JS.split sep rest.
Proof.
  intros H. unfold JS.split. rewrite (split_from_piece _ _ _ _ H). cbn.
  rewrite Ascii.eqb_refl, rev_string_twice. cbn. rewrite append_nil_r. reflexivity.
Qed.

Lemma split_last sep a :
  free_of sep a = true -> JS.split sep a = [a].
Proof.
  intros H. unfold JS.split. rewrite <- (append_nil_r a) at 1.
  rewrite (split_from_piece _ _ _ _ H). cbn.
  rewrite rev_string_twice. cbn. rewrite append_nil_r. reflexivity.
Qed.

(** Checked on every number of a range. *)
Definition range (lo n : Z) : list Z :=
  map (fun k => lo + Z.of_nat k) (seq 0 (Z.to_nat n)).

Lemma range_forall (P : Z -> bool) (lo n : Z) :
  forallb P (range lo n) = true ->
  forall z, lo <= z < lo + n -> P z = true.
Proof.
  intros H z Hz. rewrite forallb_forall in H. apply H.
  apply in_map_iff. exists (Z.to_nat (z - lo)). split; [lia |].
  apply in_seq. lia.
Qed.

Definition number_eqb (a b : JS.number) : bool :=
  match a, b with
  | Some x, Some y => x =? y
  | None, None => true
  | _, _ => false
  end.

Lemma number_eqb_eq a b : number_eqb a b = true -> a = b.
Proof.
  destruct a, b; cbn; try discriminate; [| reflexivity].
  intros H. apply Z.eqb_eq in H. congruence.
Qed.

(** A four-digit year prints as four characters without ['-'] and reads
    back. *)
Definition year_text_ok (y : Z) : bool :=
  let s := JS.toString (Some y) in
  (String.length s =? 4)%nat && free_of "-" s &&
  number_eqb (JS.parseInt (Some s)) (Some y).

Lemma year_text y :
  1000 <= y <= 9999 ->
  String.length (JS.toString (Some y)) = 4%nat /\
  free_of "-" (JS.toString (Some y)) = true /\
  JS.parseInt (Some (JS.toString (Some y))) = Some y.
Proof.
  intros Hy.
  assert (H : year_text_ok y = true).
  { apply (range_forall year_text_ok 1000 9000); [vm_compute; reflexivity | lia]. }
  unfold year_text_ok in H. rewrite !andb_true_iff in H. destruct H as [[H1 H2] H3].
  split; [apply Nat.eqb_eq; exact H1 |]. split; [exact H2 |].
  apply number_eqb_eq. exact H3.
Qed.

(** A number below 100 pads to two characters without ['-'] or [':']
    and reads back. *)
Definition pad_text_ok (n : Z) : bool :=
  let s := WalkInForm.pad (Some n) in
  (String.length s =? 2)%nat && free_of "-" s && free_of ":" s &&
  number_eqb (JS.parseInt (Some s)) (Some n).

Lemma pad_text n :
  0 <= n <= 99 ->
  String.length (WalkInForm.pad (Some n)) = 2%nat /\
  free_of "-" (WalkInForm.pad (Some n)) = true /\
  free_of ":" (WalkInForm.pad (Some n)) = true /\
  JS.parseInt (Some (WalkInForm.pad (Some n))) = Some n.
Proof.
  intros Hn.
  assert (H : pad_text_ok n = true).
  { apply (range_forall pad_text_ok 0 100); [vm_compute; reflexivity | lia]. }
  unfold pad_text_ok in H. rewrite !andb_true_iff in H. destruct H as [[[H1 H2] H3] H4].
  split; [apply Nat.eqb_eq; exact H1 |]. split; [exact H2 |]. split; [exact H3 |].
  apply number_eqb_eq. exact H4.
Qed.

End Text.

(* ------------------------------------------------------------------ *)
(** ** The booking wizard *)
(* ------------------------------------------------------------------ *)

Module BookingWizard.
Import WalkInForm.

(** *** Strings *)

Definition digits : list ascii :=
  ["0"; "1"; "2"; "3"; "4"; "5"; "6"; "7"; "8"; "9"]%char.

Lemma is_digit_iff c : JS.is_digit c = true <-> In c digits.
Proof.
  split.
  - destruct c as [[] [] [] [] [] [] [] []]; cbv; intros H; try discriminate H; tauto.
  - intros H. repeat (destruct H as [<- | H]; [reflexivity |]). destruct H.
Qed.

Lemma strip_non_digits_filter s :
  JS.strip_non_digits s =
  string_of_list_ascii (filter JS.is_digit (list_ascii_of_string s)).
Proof.
  induction s as [| c r IH]; [reflexivity |].
  cbn. destruct (JS.is_digit c); cbn; rewrite IH; reflexivity.
Qed.

Lemma slice0_firstn n s :
  JS.slice0 n s = string_of_list_ascii (firstn n (list_ascii_of_string s)).
Proof.
  revert s. induction n as [| n IH]; intros [| c r]; cbn; try reflexivity.
  rewrite IH. reflexivity.
Qed.

Lemma length_string_of_list l :
  String.length (string_of_list_ascii l) = List.length l.
Proof. induction l as [| c l IH]; cbn; [| rewrite IH]; reflexivity. Qed.

(** The stored mobile number, in terms of the list functions. *)
Definition first_ten_digits (value : string) : string :=
  string_of_list_ascii (firstn 10 (filter JS.is_digit (list_ascii_of_string value))).

Lemma stored_mobile value :
  JS.slice0 10 (JS.strip_non_digits value) = first_ten_digits value.
Proof.
  rewrite slice0_firstn, strip_non_digits_filter, list_ascii_of_string_of_list_ascii.
  reflexivity.
Qed.

Lemma first_ten_digits_length value : (String.length (first_ten_digits value) <= 10)%nat.
Proof.
  unfold first_ten_digits. rewrite length_string_of_list. apply firstn_le_length.
Qed.

Lemma first_ten_digits_digits value c :
  In c (list_ascii_of_string (first_ten_digits value)) -> In c digits.
Proof.
  unfold first_ten_digits. rewrite list_ascii_of_string_of_list_ascii.
  intros H. apply is_digit_iff.
  assert (Hin : In c (filter JS.is_digit (list_ascii_of_string value))).
  { rewrite <- (firstn_skipn 10). apply in_or_app. left. exact H. }
  apply filter_In in Hin. tauto.
Qed.

(** The text of a calendar date, ["YYYY-MM-DD"], and of a time of day,
    ["HH:mm"]. *)
Definition iso_date (y m d : Z) : string :=
  (JS.toString (Some y) ++ "-" ++ pad (Some m) ++ "-" ++ pad (Some d))%string.

Definition slot_time (h mi : Z) : string :=
  (pad (Some h) ++ ":" ++ pad (Some mi))%string.

Lemma slot_time_truthy h mi : 0 <= h <= 99 -> truthy (Some (slot_time h mi)) = true.
Proof.
  intros Hh. destruct (Text.pad_text h Hh) as [Hlen _].
  unfold slot_time, truthy. destruct (pad (Some h)); [discriminate Hlen | reflexivity].
Qed.

Lemma split_iso_date y m d :
  1000 <= y <= 9999 -> 0 <= m <= 99 -> 0 <= d <= 99 ->
  JS.split "-" (iso_date y m d) = [JS.toString (Some y); pad (Some m); pad (Some d)].
Proof.
  intros Hy Hm Hd. unfold iso_date.
  destruct (Text.year_text y Hy) as [_ [Fy _]].
  destruct (Text.pad_text m Hm) as [_ [Fm _]].
  destruct (Text.pad_text d Hd) as [_ [Fd _]].
  cbn [append].
  rewrite (Text.split_cons _ _ _ Fy), (Text.split_cons _ _ _ Fm), (Text.split_last _ _ Fd).
  reflexivity.
Qed.

Lemma split_slot_time h mi :
  0 <= h <= 99 -> 0 <= mi <= 99 ->
  JS.split ":" (slot_time h mi) = [pad (Some h); pad (Some mi)].
Proof.
  intros Hh Hmi. unfold slot_time.
  destruct (Text.pad_text h Hh) as [_ [_ [Fh _]]].
  destruct (Text.pad_text mi Hmi) as [_ [_ [Fmi _]]].
  cbn [append].
  rewrite (Text.split_cons _ _ _ Fh), (Text.split_last _ _ Fmi).
  reflexivity.
Qed.

Section Host.

Variable LocalTZA : Z -> bool -> Z.

Local Abbreviation fire := (fire LocalTZA).
Local Abbreviation handleBookSlot := (handleBookSlot LocalTZA).
Local Abbreviation handleVoiceResult := (handleVoiceResult LocalTZA).
Local Abbreviation onresult := (onresult LocalTZA).

(** *** Step 1 *)

(** C3. On step 1, typing [value] into the mobile field stores the first
    ten digits of [value] (at most ten characters, digits only), and
    "Next Step" moves to step 2 exactly when the stored mobile number
    has ten characters, changing nothing else; otherwise the step stays
    1, nothing but the error text changes, the error text is "Please
    enter a valid 10-digit mobile number", and the error box shows it. *)
Theorem mobile_gate (value : string) (w : Wizard) :
  step w = 1 ->
  (mobile (fire (TypeMobile value) w) = first_ten_digits value /\
   (String.length (mobile (fire (TypeMobile value) w)) <= 10)%nat /\
   (forall c, In c (list_ascii_of_string (mobile (fire (TypeMobile value) w))) ->
              In c digits) /\
   step (fire (TypeMobile value) w) = 1) /\
  (step (fire ClickNext w) = 2 <-> String.length (mobile w) = 10%nat) /\
  (String.length (mobile w) = 10%nat ->
     fire ClickNext w = setStep 2 w /\
     error (fire ClickNext w) = error w) /\
  (String.length (mobile w) <> 10%nat ->
     step (fire ClickNext w) = 1 /\
     fire ClickNext w = setError "Please enter a valid 10-digit mobile number" w /\
     error (fire ClickNext w) = "Please enter a valid 10-digit mobile number"%string /\
     error (fire ClickNext w) <> ""%string /\
     error_box (fire ClickNext w) = Some "Please enter a valid 10-digit mobile number"%string /\
     mobile (fire ClickNext w) = mobile w /\
     inflight (fire ClickNext w) = inflight w).
Proof.
  intros Hstep. unfold WalkInForm.fire. rewrite Hstep. cbn [Z.eqb Pos.eqb].
  unfold mobile_onChange, nextStep_onClick. cbn [mobile setMobile step].
  rewrite stored_mobile.
  split; [| split; [| split]].
  - split; [reflexivity |]. split; [apply first_ten_digits_length |].
    split; [apply first_ten_digits_digits | exact Hstep].
  - destruct (String.length (mobile w) =? 10)%nat eqn:E; cbn [step setStep setError].
    + apply Nat.eqb_eq in E. tauto.
    + apply Nat.eqb_neq in E. rewrite Hstep. split; [discriminate | contradiction].
  - intros Hlen. rewrite Hlen. cbn [Nat.eqb]. split; reflexivity.
  - intros Hlen. apply Nat.eqb_neq in Hlen. rewrite Hlen. cbn [step setError error].
    split; [exact Hstep |]. split; [reflexivity |]. split; [reflexivity |].
    split; [discriminate |]. split; [| split; reflexivity].
    unfold error_box. cbn [step setError error mode]. rewrite Hstep. reflexivity.
Qed.

(** *** Step 3 *)

Lemma truthy_None_or_empty x : x = None \/ x = Some ""%string -> truthy x = false.
Proof. intros [-> | ->]; reflexivity. Qed.

(** Without a time slot, [handleBookSlot] in [pre_book] mode only sets an
    error text. *)
Lemma handleBookSlot_without_slot serviceId w :
  mode w = pre_book -> truthy (selectedTimeSlot w) = false ->
  (handleBookSlot serviceId w = setError "Please enter a valid mobile number" w \/
   handleBookSlot serviceId w = setError "Please select a time slot" w).
Proof.
  intros Hm Ht. unfold WalkInForm.handleBookSlot. rewrite Hm, Ht. cbn [is_pre_book negb andb].
  destruct (_ || _); [left | right]; reflexivity.
Qed.

Lemma length_remove_nth {A} k (l : list A) :
  (List.length (remove_nth k l) <= List.length l)%nat.
Proof.
  revert k. induction l as [| x l IH]; intros [| k]; cbn; try lia.
  specialize (IH k). lia.
Qed.

(** In [pre_book] mode no event posts a booking while no slot is chosen. *)
Lemma pre_book_needs_slot e w :
  mode w = pre_book -> truthy (selectedTimeSlot w) = false ->
  (List.length (inflight (fire e w)) <= List.length (inflight w))%nat.
Proof.
  intros Hm Ht.
  destruct e;
    unfold WalkInForm.fire, service_onClick, WalkInForm.onresult,
      WalkInForm.handleVoiceResult, date_onChange, nextStep_onClick, mobile_onChange,
      handleBookSlot_settled;
    rewrite ?Hm, ?Ht; cbn [is_pre_book is_walk_in negb];
    rewrite ?andb_false_r, ?orb_true_r;
    repeat match goal with
           | |- context [if ?b then _ else _] => destruct b
           | |- context [match nth_error ?l ?i with _ => _ end] => destruct (nth_error l i)
           | |- context [match find ?f ?l with _ => _ end] => destruct (find f l)
           | |- context [match ?o with resolved _ => _ | rejected => _ end] => destruct o
           end;
    cbn; try lia; apply length_remove_nth.
Qed.

(** C4. In [pre_book] mode a tap on a slot that is not available changes
    nothing; while no slot is chosen, every call of [handleBookSlot] only
    sets one of the two validation texts (no request is posted, [loading]
    stays as it was), [handleBookSlot] reached with a ten-digit mobile
    number reports the missing slot, the "Confirm Appointment" button
    does nothing, and no event at all posts a booking. *)
Theorem slot_gate (w : Wizard) :
  mode w = pre_book ->
  (forall i slot, nth_error (availableSlots w) i = Some slot -> available slot = false ->
                  fire (TapSlot i) w = w) /\
  (selectedTimeSlot w = None ->
     (forall serviceId,
        (handleBookSlot serviceId w = setError "Please enter a valid mobile number" w \/
         handleBookSlot serviceId w = setError "Please select a time slot" w) /\
        error (handleBookSlot serviceId w) <> ""%string /\
        inflight (handleBookSlot serviceId w) = inflight w /\
        loading (handleBookSlot serviceId w) = loading w /\
        (String.length (mobile w) = 10%nat ->
           handleBookSlot serviceId w = setError "Please select a time slot" w)) /\
     fire ClickConfirm w = w /\
     (forall e, (List.length (inflight (fire e w)) <= List.length (inflight w))%nat)).
Proof.
  intros Hm. split.
  - intros i slot Hi Ha. unfold WalkInForm.fire. rewrite Hi, Ha. cbn [negb].
    destruct (_ && _); reflexivity.
  - intros Hn.
    assert (Ht : truthy (selectedTimeSlot w) = false) by (rewrite Hn; reflexivity).
    split; [| split].
    + intros serviceId.
      pose proof (handleBookSlot_without_slot serviceId w Hm Ht) as Hb.
      split; [exact Hb |].
      split; [| split; [| split]].
      * destruct Hb as [-> | ->]; cbn; discriminate.
      * destruct Hb as [-> | ->]; reflexivity.
      * destruct Hb as [-> | ->]; reflexivity.
      * intros Hlen. unfold WalkInForm.handleBookSlot. rewrite Hm, Ht, Hlen.
        destruct (mobile w) as [| c r]; [discriminate Hlen | reflexivity].
    + unfold WalkInForm.fire. rewrite Ht, orb_true_r. destruct (_ && _); reflexivity.
    + intros e. apply pre_book_needs_slot; assumption.
Qed.

(** *** Step 2: voice *)

Lemma handleVoiceResult_no_match transcript w :
  find (voice_match (JS.toLowerCase transcript)) (services w) = None ->
  handleVoiceResult transcript w = w.
Proof. intros H. unfold WalkInForm.handleVoiceResult. rewrite H. reflexivity. Qed.

Lemma handleVoiceResult_match transcript w found :
  find (voice_match (JS.toLowerCase transcript)) (services w) = Some found ->
  handleVoiceResult transcript w =
  setIsListening false
    (setSelectedService (Some (s_id found))
       (if (String.length (mobile w) =? 10)%nat && is_walk_in (mode w)
        then handleBookSlot (Some (s_id found)) w else w)).
Proof. intros H. unfold WalkInForm.handleVoiceResult. rewrite H. reflexivity. Qed.

(** [handleBookSlot] and [handleVoiceResult] do not read [step]. *)
Lemma handleBookSlot_setStep serviceId k w :
  handleBookSlot serviceId (setStep k w) = setStep k (handleBookSlot serviceId w).
Proof.
  unfold WalkInForm.handleBookSlot. cbn [mobile mode selectedTimeSlot setStep].
  destruct (_ || _); [reflexivity |]. destruct (_ && _); reflexivity.
Qed.

Lemma handleVoiceResult_setStep transcript k w :
  handleVoiceResult transcript (setStep k w) = setStep k (handleVoiceResult transcript w).
Proof.
  unfold WalkInForm.handleVoiceResult. cbn [services mobile mode setStep].
  destruct (find _ _) as [found |]; [| reflexivity].
  destruct (_ && _); [rewrite handleBookSlot_setStep |]; reflexivity.
Qed.

(** [handleVoiceResult] has no guard on the step: it does on every
    step what it does on step 2. A transcript that matches no catalog
    entry leaves the wizard unchanged; a transcript that matches sets
    the selected service to the first matching entry and keeps the step,
    and in [walk_in] mode with a ten-digit mobile number it posts a
    booking. *)
Lemma voice_result_any_step (transcript : string) (k : Z) (w : Wizard) :
  handleVoiceResult transcript (setStep k w) = setStep k (handleVoiceResult transcript w) /\
  (find (voice_match (JS.toLowerCase transcript)) (services w) = None ->
     handleVoiceResult transcript (setStep k w) = setStep k w) /\
  (forall found,
     find (voice_match (JS.toLowerCase transcript)) (services w) = Some found ->
     selectedService (handleVoiceResult transcript (setStep k w)) = Some (s_id found) /\
     step (handleVoiceResult transcript (setStep k w)) = k /\
     (String.length (mobile w) = 10%nat -> mode w = walk_in ->
        inflight (handleVoiceResult transcript (setStep k w)) =
          (inflight w ++ [booking LocalTZA (Some (s_id found)) w])%list /\
        loading (handleVoiceResult transcript (setStep k w)) = true)).
Proof.
  split; [apply handleVoiceResult_setStep |]. split.
  - intros H. apply handleVoiceResult_no_match. exact H.
  - intros found H. rewrite handleVoiceResult_setStep, (handleVoiceResult_match _ _ _ H).
    split; [reflexivity |]. split.
    + cbn [step setStep]. reflexivity.
    + intros Hlen Hmode. rewrite Hlen, Hmode. cbn [Nat.eqb is_walk_in andb].
      unfold WalkInForm.handleBookSlot. rewrite Hlen, Hmode.
      destruct (mobile w) as [| c r]; [discriminate Hlen |].
      split; reflexivity.
Qed.

(** For a name with at most one underscore, the first-underscore
    variant that the code tests is the name with every underscore turned
    into a space. *)
Lemma replace_all_absent a b s :
  Text.free_of a s = true -> JS.replace_all a b s = s.
Proof.
  induction s as [| c r IH]; cbn; [reflexivity |].
  intros H. apply andb_true_iff in H. destruct H as [Hc Hr].
  apply negb_true_iff in Hc. rewrite Hc, (IH Hr). reflexivity.
Qed.

Fixpoint at_most_one (a : ascii) (s : string) : bool :=
  match s with
  | EmptyString => true
  | String c r => if Ascii.eqb c a then Text.free_of a r else at_most_one a r
  end.

Lemma replace_first_all a b s :
  at_most_one a s = true -> JS.replace_first a b s = JS.replace_all a b s.
Proof.
  induction s as [| c r IH]; cbn; [reflexivity |].
  destruct (Ascii.eqb c a); intros H.
  - rewrite (replace_all_absent _ _ _ H). reflexivity.
  - rewrite (IH H). reflexivity.
Qed.

(** The match as the specification words it. *)
Definition spec_match (text : string) (s : Service) : bool :=
  JS.includes text (JS.toLowerCase (s_name s)) ||
  JS.includes text (JS.toLowerCase (JS.replace_all "_" " " (s_name s))).

Lemma find_agree {A} (f g : A -> bool) (l : list A) :
  (forall x, In x l -> f x = g x) -> find f l = find g l.
Proof.
  induction l as [| x l IH]; intros H; [reflexivity |].
  cbn. rewrite (H x (or_introl eq_refl)).
  destruct (g x); [reflexivity |]. apply IH. intros y Hy. apply H. right. exact Hy.
Qed.

(** X22. On a catalog whose names hold at most one underscore each, the
    voice handler finds the first service whose name, or whose name as
    the buttons show it (every underscore a space), occurs in the
    lower-cased transcript. *)
Lemma voice_match_single_underscore text (catalog : list Service) :
  Forall (fun s => at_most_one "_" (s_name s) = true) catalog ->
  find (voice_match text) catalog = find (spec_match text) catalog.
Proof.
  intros H. apply find_agree. intros s Hs. rewrite Forall_forall in H.
  unfold voice_match, spec_match. rewrite (replace_first_all _ _ _ (H s Hs)). reflexivity.
Qed.

(** *** One request at a time *)

(** While [loading] is set, the service buttons and "Confirm
    Appointment" are disabled. *)
Lemma busy_buttons_disabled i w :
  loading w = true -> fire (TapService i) w = w /\ fire ClickConfirm w = w.
Proof.
  intros H. unfold WalkInForm.fire. rewrite H. cbn [orb]. split.
  - destruct (step w =? 2); [destruct (nth_error _ _) |]; reflexivity.
  - destruct (_ && _); reflexivity.
Qed.

(** *** The scheduled time *)

(** X23. In a pre-booking with a ten-digit mobile number, a chosen
    calendar date of a year from 1000 to 9999 and a chosen time of day,
    written "YYYY-MM-DD" and "HH:mm", [handleBookSlot] posts one booking
    whose [scheduled_time] is "YYYY-MM-DDTHH:mm:00" with the same date
    and time, when this local time exists in the host's time zone. *)
Theorem scheduled_time_local (y m d h mi : Z) (serviceId : option string) (w : Wizard) :
  mode w = pre_book ->
  String.length (mobile w) = 10%nat ->
  1000 <= y <= 9999 -> 1 <= m <= 12 -> 1 <= d <= Calendar.DaysInMonth y (m - 1) ->
  0 <= h <= 23 -> 0 <= mi <= 59 ->
  selectedDate w = iso_date y m d ->
  selectedTimeSlot w = Some (slot_time h mi) ->
  Calendar.wall_clock LocalTZA
    (JSDate.MakeDate (JSDate.MakeDay y (m - 1) d) (JSDate.MakeTime h mi 0 0)) ->
  inflight (handleBookSlot serviceId w) = (inflight w ++ [booking LocalTZA serviceId w])%list /\
  b_scheduled_time (booking LocalTZA serviceId w) =
    Some (selectedDate w ++ "T" ++ slot_time h mi ++ ":00")%string /\
  b_booking_type (booking LocalTZA serviceId w) = "pre_booked"%string.
Proof.
  intros Hmode Hmobile Hy Hm Hd Hh Hmi Hdate Hslot Hwall.
  assert (Hd' : 1 <= d <= 31).
  { pose proof (Calendar.DaysInMonth_le y (m - 1)). lia. }
  assert (Htruthy : truthy (selectedTimeSlot w) = true).
  { rewrite Hslot. apply slot_time_truthy. lia. }
  split; [| split].
  - unfold WalkInForm.handleBookSlot. rewrite Hmode, Hmobile, Htruthy.
    destruct (mobile w); [discriminate Hmobile | reflexivity].
  - cbn [b_scheduled_time booking]. unfold scheduledTime.
    rewrite Hmode, Htruthy, Hdate, Hslot. cbn [is_pre_book andb].
    rewrite split_iso_date, split_slot_time by lia.
    cbn [JS.at_index nth_error].
    destruct (Text.year_text y Hy) as [_ [_ ->]].
    destruct (Text.pad_text m) as [_ [_ [_ ->]]]; [lia |].
    destruct (Text.pad_text d) as [_ [_ [_ ->]]]; [lia |].
    destruct (Text.pad_text h) as [_ [_ [_ ->]]]; [lia |].
    destruct (Text.pad_text mi) as [_ [_ [_ ->]]]; [lia |].
    cbn [option_map].
    destruct (Calendar.new_Date_fields LocalTZA y (m - 1) d h mi)
      as [-> [-> [-> [-> ->]]]]; try lia; [exact Hwall |].
    cbn [option_map]. replace (m - 1 + 1) with m by lia.
    unfold iso_date, slot_time. rewrite !Text.append_assoc. reflexivity.
  - cbn [b_booking_type booking]. rewrite Hmode. reflexivity.
Qed.

(** While [loading] is set, only a recognition result can post a
    booking. *)
Lemma only_voice_posts_while_loading e w :
  loading w = true ->
  (List.length (inflight w) < List.length (inflight (fire e w)))%nat ->
  exists transcript, e = VoiceResult transcript.
Proof.
  intros Hl Hpost.
  destruct e; try (eexists; reflexivity); exfalso; revert Hpost;
    unfold WalkInForm.fire, date_onChange, nextStep_onClick, mobile_onChange,
      handleBookSlot_settled;
    rewrite ?Hl; cbn [orb];
    repeat match goal with
           | |- context [if ?b then _ else _] => destruct b
           | |- context [match nth_error ?l ?i with _ => _ end] => destruct (nth_error l i)
           | |- context [match ?o with resolved _ => _ | rejected => _ end] => destruct o
           end;
    cbn; try lia;
    match goal with
    | |- context [remove_nth ?k ?l] => pose proof (length_remove_nth k l); lia
    end.
Qed.

End Host.

(** A freshly mounted walk-in wizard; every random value is one half. *)
Definition half : nat -> Q := fun _ => (1 # 2)%Q.
Definition fresh : Wizard := mount walk_in "2025-01-05" half.

(** A walk-in customer who has typed nine digits and a dash. *)
Definition nine_digits : Wizard := fire JSDate.IST (TypeMobile "98765-4321") fresh.

(** C3 at that customer: "Next Step" is refused and the error box shows
    the text; eleven digits typed then are cut to ten. *)
Lemma mobile_gate_witness :
  mobile nine_digits = "987654321"%string /\
  mobile (fire JSDate.IST (TypeMobile "98765432101") nine_digits) = "9876543210"%string /\
  step (fire JSDate.IST ClickNext nine_digits) = 1 /\
  error (fire JSDate.IST ClickNext nine_digits) =
    "Please enter a valid 10-digit mobile number"%string /\
  error_box (fire JSDate.IST ClickNext nine_digits) =
    Some "Please enter a valid 10-digit mobile number"%string /\
  inflight (fire JSDate.IST ClickNext nine_digits) = [].
Proof.
  destruct (mobile_gate JSDate.IST "98765432101" nine_digits)
    as [[Htyped _] [_ [_ Hrefused]]]; [reflexivity |].
  destruct Hrefused as [Hstep [_ [Herror [_ [Hbox [_ Hflight]]]]]]; [discriminate |].
  split; [reflexivity |]. split; [exact Htyped |]. split; [exact Hstep |].
  split; [exact Herror |]. split; [exact Hbox | exact Hflight].
Defined.

Example eleven_digits :
  mobile (fire JSDate.IST (TypeMobile "98765432101") fresh) = "9876543210" /\
  step (run JSDate.IST [TypeMobile "98765432101"; ClickNext] fresh) = 2 /\
  step (run JSDate.IST [TypeMobile "98765-4321"; ClickNext] fresh) = 1.
Proof. repeat split. Qed.

(** *** The wizard at work *)

Definition cash_deposit : Service := mkService "Cash_Deposit" "Cash_Deposit" 5.
Definition forex : Service := mkService "Forex" "Forex" 15.
Definition renewal : Service := mkService "Fixed_Deposit_Renewal" "Fixed_Deposit_Renewal" 10.

(** A walk-in customer on step 2, microphone on. *)
Definition at_services : Wizard :=
  run JSDate.IST
    [CatalogLoaded [cash_deposit; forex]; TypeMobile "9876543210"; ClickNext; ClickMic]
    fresh.

(** A random source under which the odd-numbered slots are taken. *)
Definition alternate : nat -> Q := fun k => if Nat.even k then (1 # 2)%Q else (1 # 10)%Q.

(** A pre-booking customer on step 3, Forex chosen by tap, microphone
    still on. *)
Definition at_slots : Wizard :=
  run JSDate.IST
    [CatalogLoaded [cash_deposit; forex]; TypeMobile "9876543210"; ClickNext; ClickMic;
     TapService 1]
    (mount pre_book "2025-01-05" alternate).

Example at_slots_state :
  step at_slots = 3 /\ selectedService at_slots = Some "Forex" /\
  selectedTimeSlot at_slots = None /\ isListening at_slots = true /\
  nth_error (availableSlots at_slots) 1 = Some (mkSlot "09:30" false).
Proof. vm_compute. repeat split. Qed.

(** C4 at the pre-booking customer on step 3, no slot chosen, the 09:30
    slot taken. *)
Lemma slot_gate_witness :
  (forall i slot, nth_error (availableSlots at_slots) i = Some slot -> available slot = false ->
                  fire JSDate.IST (TapSlot i) at_slots = at_slots) /\
  (selectedTimeSlot at_slots = None ->
     (forall serviceId,
        (handleBookSlot JSDate.IST serviceId at_slots =
           setError "Please enter a valid mobile number" at_slots \/
         handleBookSlot JSDate.IST serviceId at_slots =
           setError "Please select a time slot" at_slots) /\
        error (handleBookSlot JSDate.IST serviceId at_slots) <> ""%string /\
        inflight (handleBookSlot JSDate.IST serviceId at_slots) = inflight at_slots /\
        loading (handleBookSlot JSDate.IST serviceId at_slots) = loading at_slots /\
        (String.length (mobile at_slots) = 10%nat ->
           handleBookSlot JSDate.IST serviceId at_slots =
             setError "Please select a time slot" at_slots)) /\
     fire JSDate.IST ClickConfirm at_slots = at_slots /\
     (forall e, (List.length (inflight (fire JSDate.IST e at_slots)) <=
                 List.length (inflight at_slots))%nat)).
Proof. apply (slot_gate JSDate.IST at_slots). reflexivity. Defined.

(** Scenario C of the specification. *)
Example scenario_C w :
  services w = [cash_deposit] ->
  selectedService (handleVoiceResult JSDate.IST "cash deposit please" w) = Some "Cash_Deposit".
Proof.
  intros H. rewrite (handleVoiceResult_match _ _ _ cash_deposit); [reflexivity |].
  rewrite H. reflexivity.
Qed.

(** A walk-in customer on step 2, microphone on, before a catalog with
    a name of three words. *)
Definition at_renewal : Wizard :=
  run JSDate.IST
    [CatalogLoaded [renewal]; TypeMobile "9876543210"; ClickNext; ClickMic]
    fresh.

(** C5 at a catalog name with two underscores: [replace('_', ' ')]
    turns only the first one into a space, so the spoken name, which
    contains the name with every underscore turned into a space (as the
    service button shows it), matches nothing: nothing is selected and
    nothing is posted. *)
Lemma voice_second_underscore :
  JS.replace_first "_" " " (s_name renewal) = "Fixed Deposit_Renewal"%string /\
  JS.replace_all "_" " " (s_name renewal) = "Fixed Deposit Renewal"%string /\
  JS.includes (JS.toLowerCase "fixed deposit renewal please")
              (JS.toLowerCase (JS.replace_all "_" " " (s_name renewal))) = true /\
  handleVoiceResult JSDate.IST "fixed deposit renewal please" at_renewal = at_renewal /\
  selectedService (fire JSDate.IST (VoiceResult "fixed deposit renewal please") at_renewal) = None /\
  inflight (fire JSDate.IST (VoiceResult "fixed deposit renewal please") at_renewal) = [].
Proof. vm_compute. repeat split. Qed.


(** C7 on the voice path: with the microphone on, a tap on a service
    posts a booking and sets [loading]; a recognition result that arrives
    before that request settles posts a second booking. *)
Lemma voice_books_while_loading :
  loading (fire JSDate.IST (TapService 0) at_services) = true /\
  List.length (inflight (fire JSDate.IST (TapService 0) at_services)) = 1%nat /\
  List.length (inflight (run JSDate.IST [TapService 0; VoiceResult "cash deposit"] at_services)) = 2%nat /\
  map b_service_type
      (inflight (run JSDate.IST [TapService 0; VoiceResult "cash deposit"] at_services)) =
    [Some "Cash_Deposit"; Some "Cash_Deposit"]%string.
Proof. vm_compute. repeat split. Qed.

(** A pre-booking customer who has chosen Forex, 5 January 2025 and the
    09:30 slot. *)
Definition at_confirm : Wizard :=
  run JSDate.IST
    [CatalogLoaded [cash_deposit; forex]; TypeMobile "9876543210"; ClickNext;
     TapService 1; TapSlot 1]
    (mount pre_book "2025-01-05" half).

Example at_confirm_booking :
  map b_scheduled_time (inflight (fire JSDate.IST ClickConfirm at_confirm)) =
    [Some "2025-01-05T09:30:00"]%string /\
  map b_service_type (inflight (fire JSDate.IST ClickConfirm at_confirm)) =
    [Some "Forex"]%string.
Proof. vm_compute. split; reflexivity. Qed.

(** X23 at 5 January 2025, 09:30, India Standard Time. *)
Lemma scheduled_time_local_witness :
  inflight (handleBookSlot JSDate.IST None at_confirm) =
    (inflight at_confirm ++ [booking JSDate.IST None at_confirm])%list /\
  b_scheduled_time (booking JSDate.IST None at_confirm) =
    Some (selectedDate at_confirm ++ "T" ++ slot_time 9 30 ++ ":00")%string /\
  b_booking_type (booking JSDate.IST None at_confirm) = "pre_booked"%string.
Proof.
  apply (scheduled_time_local JSDate.IST 2025 1 5 9 30 None at_confirm);
    try reflexivity; try lia.
  - cbn. lia.
  - apply Calendar.fixed_zone_wall_clock. cbv. discriminate.
Defined.

(** Pre-booking customers who have typed the years 0050 and 0999 into
    the date field and chosen the 10:30 slot. *)
Definition at_year_50 : Wizard :=
  run JSDate.IST
    [CatalogLoaded [cash_deposit; forex]; TypeMobile "9876543210"; ClickNext;
     TapService 1; PickDate "0050-06-15" half; TapSlot 3]
    (mount pre_book "2025-01-05" half).

Definition at_year_999 : Wizard :=
  run JSDate.IST
    [CatalogLoaded [cash_deposit; forex]; TypeMobile "9876543210"; ClickNext;
     TapService 1; PickDate "0999-06-15" half; TapSlot 3]
    (mount pre_book "2025-01-05" half).

(** C8 at dates whose year is below 1000. The comment in
    [handleBookSlot] says "Manually format to YYYY-MM-DDTHH:mm:ss to
    preserve local time", but [new Date] takes a year from 0 to 99 as
    1900 + year and [getFullYear()] is printed without padding: for the
    displayed date 0050-06-15 and the 10:30 slot the booking carries
    "1950-06-15T10:30:00", and for 0999-06-15 it carries
    "999-06-15T10:30:00", instead of the displayed date followed by
    "T10:30:00". *)
Lemma scheduled_time_early_year :
  selectedDate at_year_50 = "0050-06-15"%string /\
  selectedTimeSlot at_year_50 = Some "10:30"%string /\
  map b_scheduled_time (inflight (fire JSDate.IST ClickConfirm at_year_50)) =
    [Some "1950-06-15T10:30:00"]%string /\
  selectedDate at_year_999 = "0999-06-15"%string /\
  selectedTimeSlot at_year_999 = Some "10:30"%string /\
  map b_scheduled_time (inflight (fire JSDate.IST ClickConfirm at_year_999)) =
    [Some "999-06-15T10:30:00"]%string.
Proof. vm_compute. repeat split. Qed.

(** *** The slot generator *)

(** ["HH:mm"] of a minute of the day. *)
Definition hhmm (minute : Z) : string := slot_time (minute / 60) (minute mod 60).

Lemma slots_loop_9 :
  slots_loop 9 [] =
  ["09:00"; "09:30"; "10:00"; "10:30"; "11:00"; "11:30"; "12:00"; "12:30";
   "13:00"; "13:30"; "14:00"; "14:30"; "15:00"; "15:30"; "16:00"; "16:30"]%string.
Proof. vm_compute. reflexivity. Qed.

(** C10. Whatever [Math.random] returns, [generateSlots] yields the 16
    slots 09:00, 09:30, ..., 16:30 in this order: slot [k] is the
    zero-padded time of minute 540 + 30 k of the day, the times ascend
    strictly, and only [available] depends on the random values, slot [k]
    being available when the [k]-th value exceeds 0.3. *)
Theorem generateSlots_times (random : nat -> Q) :
  map time (generateSlots random) =
    ["09:00"; "09:30"; "10:00"; "10:30"; "11:00"; "11:30"; "12:00"; "12:30";
     "13:00"; "13:30"; "14:00"; "14:30"; "15:00"; "15:30"; "16:00"; "16:30"]%string /\
  List.length (generateSlots random) = 16%nat /\
  map time (generateSlots random) =
    map (fun k => hhmm (540 + 30 * Z.of_nat k)) (seq 0 16) /\
  StronglySorted (fun a b => String.ltb a b = true) (map time (generateSlots random)) /\
  Forall (fun t => String.leb "09:00" t = true /\ String.ltb t "17:00" = true)
         (map time (generateSlots random)) /\
  map available (generateSlots random) =
    map (fun k => negb (Qle_bool (random k) threshold)) (seq 0 16).
Proof.
  unfold generateSlots. rewrite slots_loop_9. cbn [stamp map time available seq].
  split; [reflexivity |]. split; [reflexivity |]. split; [vm_compute; reflexivity |].
  split; [| split; [| reflexivity]].
  - repeat (apply SSorted_cons; [| repeat (apply Forall_cons; [reflexivity |]); apply Forall_nil]).
    apply SSorted_nil.
  - repeat (apply Forall_cons; [split; reflexivity |]). apply Forall_nil.
Qed.

End BookingWizard.

(* ------------------------------------------------------------------ *)
(** ** The booking wizard along its runs *)
(* ------------------------------------------------------------------ *)

Module WizardRuns.
Import WalkInForm.

(** Only digits. *)
Definition digits_only (s : string) : bool :=
  forallb JS.is_digit (list_ascii_of_string s).

Lemma digits_only_strip s : digits_only (JS.strip_non_digits s) = true.
Proof.
  induction s as [| c r IH]; [reflexivity |].
  cbn. destruct (JS.is_digit c) eqn:E; [| exact IH].
  unfold digits_only. cbn. rewrite E. exact IH.
Qed.

Lemma digits_only_slice0 n : forall s,
  digits_only s = true -> digits_only (JS.slice0 n s) = true.
Proof.
  induction n as [| n IH]; intros [| c r] H; try reflexivity.
  unfold digits_only in *. cbn in *. apply andb_true_iff in H. destruct H as [Hc Hr].
  rewrite Hc. apply IH. exact Hr.
Qed.

Lemma length_slice0 n : forall s, (String.length (JS.slice0 n s) <= n)%nat.
Proof.
  induction n as [| n IH]; intros [| c r]; cbn; try lia.
  specialize (IH r). lia.
Qed.

(** The sixteen slot times. *)
Definition slot_times : list string :=
  ["09:00"; "09:30"; "10:00"; "10:30"; "11:00"; "11:30"; "12:00"; "12:30";
   "13:00"; "13:30"; "14:00"; "14:30"; "15:00"; "15:30"; "16:00"; "16:30"]%string.

Lemma generateSlots_time_list random : map time (generateSlots random) = slot_times.
Proof.
  unfold generateSlots. rewrite BookingWizard.slots_loop_9. reflexivity.
Qed.

(** What a booking in flight looks like in mode [m]. *)
Definition flight_ok (m : Mode) (b : Booking) : Prop :=
  String.length (b_mobile b) = 10%nat /\
  digits_only (b_mobile b) = true /\
  b_booking_type b = (if is_pre_book m then "pre_booked" else "walk_in")%string /\
  (if is_pre_book m then exists t, b_scheduled_time b = Some t
   else b_scheduled_time b = None).

(** What holds of a wizard mounted in mode [m], whatever has happened
    since. *)
Record Sound (m : Mode) (w : Wizard) : Prop := {
  sound_mode : mode w = m;
  sound_mobile : (String.length (mobile w) <= 10)%nat /\ digits_only (mobile w) = true;
  sound_step : step w = 1 \/
               (step w = 2 /\ String.length (mobile w) = 10%nat) \/
               (step w = 3 /\ m = pre_book /\ String.length (mobile w) = 10%nat);
  sound_flight : Forall (flight_ok m) (inflight w);
  sound_completed : Forall (fun r => success r = true) (completed w);
  sound_loading : loading w = true -> inflight w <> [];
  sound_slot : forall t, selectedTimeSlot w = Some t -> In t slot_times;
  sound_slots : map time (availableSlots w) = if is_pre_book m then slot_times else []
}.

Lemma mount_sound m today random : Sound m (mount m today random).
Proof.
  split; cbn; try (auto; fail).
  - split; [lia | reflexivity].
  - discriminate.
  - discriminate.
  - destruct m; [reflexivity | apply generateSlots_time_list].
Qed.

Lemma Forall_remove_nth {A} (P : A -> Prop) k : forall l,
  Forall P l -> Forall P (remove_nth k l).
Proof.
  induction k as [| k IH]; intros [| x l] H; cbn; try exact H.
  - inversion H; assumption.
  - inversion H; subst. apply Forall_cons; [assumption | apply IH; assumption].
Qed.

Section Host.

Variable LocalTZA : Z -> bool -> Z.

Local Abbreviation fire := (fire LocalTZA).
Local Abbreviation run := (run LocalTZA).
Local Abbreviation handleBookSlot := (handleBookSlot LocalTZA).

(** Reading a cell after a setter. *)
Ltac fields :=
  cbn [mode step mobile name age isDisabled selectedService isListening services
       loading error selectedDate selectedTimeSlot availableSlots inflight completed
       setStep setMobile setName setAge setIsDisabled setSelectedService
       setIsListening setServices setLoading setError setSelectedDate
       setSelectedTimeSlot setAvailableSlots post onComplete land].

(** [handleBookSlot] keeps a sound wizard sound: what it posts carries
    the ten digits of the mobile number and the shape of the mode. *)
Lemma handleBookSlot_sound m serviceId w :
  Sound m w -> Sound m (handleBookSlot serviceId w).
Proof.
  intros [Hmode [Hlen Hdig] Hstep Hflight Hdone Hload Hslot Hslots].
  unfold WalkInForm.handleBookSlot.
  destruct (String.eqb (mobile w) "" || (String.length (mobile w) <? 10)%nat) eqn:Hshort.
  - split; fields; auto.
  - apply orb_false_iff in Hshort. destruct Hshort as [_ Hshort].
    apply Nat.ltb_ge in Hshort.
    destruct (is_pre_book (mode w) && negb (truthy (selectedTimeSlot w))) eqn:Hgate.
    + split; fields; auto.
    + split; fields; auto.
      * apply Forall_app. split; [exact Hflight |].
        apply Forall_cons; [| apply Forall_nil].
        unfold flight_ok. cbn. rewrite Hmode in *.
        split; [lia |]. split; [exact Hdig |]. split; [reflexivity |].
        unfold scheduledTime. rewrite Hmode.
        destruct m; cbn in *; [reflexivity |].
        apply negb_false_iff in Hgate. rewrite Hgate. eexists. reflexivity.
      * intros _ H. apply app_eq_nil in H. destruct H as [_ H]. discriminate H.
Qed.

(** Every event keeps a sound wizard sound. *)
Lemma fire_sound m e w : Sound m w -> Sound m (fire e w).
Proof.
  intros S. pose proof S as [Hmode [Hlen Hdig] Hstep Hflight Hdone Hload Hslot Hslots].
  destruct e; unfold WalkInForm.fire.
  - (* the mobile field *)
    destruct (Z.eqb_spec (step w) 1) as [H1 | H1]; [| exact S].
    unfold mobile_onChange. split; fields; auto.
    split; [apply length_slice0 | apply digits_only_slice0, digits_only_strip].
  - destruct (step w =? 1); [| exact S]. split; fields; auto.
  - destruct (step w =? 1); [| exact S]. split; fields; auto.
  - destruct (step w =? 1); [| exact S]. split; fields; auto.
  - (* Next Step *)
    destruct (step w =? 1); [| exact S]. unfold nextStep_onClick.
    destruct (Nat.eqb_spec (String.length (mobile w)) 10) as [H10 | H10];
      split; fields; auto.
  - destruct (step w =? 2); [| exact S]. split; fields; auto.
  - (* a service button *)
    destruct (Z.eqb_spec (step w) 2) as [H2 | H2]; [| exact S].
    destruct (nth_error (services w) i) as [service |]; [| exact S].
    destruct (loading w) eqn:Hl; [exact S |].
    assert (Hidle : loading w = true -> inflight w <> []) by (rewrite Hl; discriminate).
    unfold service_onClick.
    destruct (is_pre_book (mode w)) eqn:Hp.
    + split; fields; auto. right. right.
      split; [reflexivity |]. split.
      * rewrite Hmode in Hp. destruct m; [discriminate | reflexivity].
      * destruct Hstep as [H | [[_ H] | [_ [_ H]]]]; [lia | exact H | exact H].
    + pose proof (handleBookSlot_sound m (Some (s_id service)) w S)
        as [Hmode' Hmob' Hstep' Hflight' Hdone' Hload' Hslot' Hslots'].
      split; fields; auto.
  - (* a recognition result *)
    unfold WalkInForm.onresult, WalkInForm.handleVoiceResult.
    destruct (find _ _) as [found |]; [| split; fields; auto].
    destruct (_ && _).
    + pose proof (handleBookSlot_sound m (Some (s_id found)) w S)
        as [Hmode' Hmob' Hstep' Hflight' Hdone' Hload' Hslot' Hslots'].
      split; fields; auto.
    + split; fields; auto.
  - (* the date field *)
    destruct (_ && _) eqn:Hc; [| exact S]. unfold date_onChange.
    apply andb_true_iff in Hc. destruct Hc as [_ Hp]. rewrite Hp.
    split; fields; auto. rewrite generateSlots_time_list.
    rewrite Hmode in Hp. rewrite Hp. reflexivity.
  - (* a slot button *)
    destruct (_ && _) eqn:Hc; [| exact S].
    destruct (nth_error (availableSlots w) i) as [slot |] eqn:Hi; [| exact S].
    destruct (available slot); cbn [negb]; [| exact S].
    apply andb_true_iff in Hc. destruct Hc as [_ Hp]. rewrite Hmode in Hp.
    split; fields; auto. intros t [= <-].
    rewrite Hp in Hslots. rewrite <- Hslots. apply in_map.
    apply (nth_error_In _ _ Hi).
  - (* Confirm Appointment *)
    destruct (_ && _); [| exact S]. destruct (_ || _); [exact S |].
    apply handleBookSlot_sound. exact S.
  - (* a settled request *)
    destruct (Nat.ltb_spec k (List.length (inflight w))) as [Hk | Hk]; [| exact S].
    unfold handleBookSlot_settled.
    destruct o as [result |]; [destruct (success result) eqn:Hs |];
      split; fields; auto using Forall_remove_nth; try discriminate.
    apply Forall_app. split; [exact Hdone |]. apply Forall_cons; [exact Hs | apply Forall_nil].
  - (* the catalog *)
    split; fields; auto.
Qed.

Lemma run_sound m es : forall w, Sound m w -> Sound m (run es w).
Proof.
  induction es as [| e es IH]; intros w S; [exact S |].
  cbn. apply IH. apply fire_sound. exact S.
Qed.

(** The wizard after the events [es], from its mount in mode [m]. *)
Definition reached (m : Mode) (today : string) (random : nat -> Q) (es : list Event)
  : Wizard :=
  run es (mount m today random).

Lemma reached_sound m today random es : Sound m (reached m today random es).
Proof. apply run_sound, mount_sound. Qed.

(** X1. Whatever happens after the mount, the stored mobile number is at
    most ten digits; the step is 1, 2 or 3; beyond step 1 the mobile
    number has exactly ten digits; and step 3 is reached in [pre_book]
    mode only. *)
Theorem reached_mobile_and_step m today random es :
  (String.length (mobile (reached m today random es)) <= 10)%nat /\
  digits_only (mobile (reached m today random es)) = true /\
  (step (reached m today random es) = 1 \/ step (reached m today random es) = 2 \/
   step (reached m today random es) = 3) /\
  (step (reached m today random es) <> 1 ->
   String.length (mobile (reached m today random es)) = 10%nat) /\
  (step (reached m today random es) = 3 -> m = pre_book).
Proof.
  destruct (reached_sound m today random es) as [_ [Hlen Hdig] Hstep _ _ _ _ _].
  split; [exact Hlen |]. split; [exact Hdig |].
  destruct Hstep as [H1 | [[H2 H10] | [H3 [Hm H10]]]].
  - split; [tauto |]. split; [contradiction | rewrite H1; discriminate].
  - split; [tauto |]. split; [intros _; exact H10 | rewrite H2; discriminate].
  - split; [tauto |]. split; [intros _; exact H10 | intros _; exact Hm].
Qed.

(** X2. Every booking request in flight carries a ten-digit mobile
    number; in [walk_in] mode it has [booking_type] 'walk_in' and no
    [scheduled_time], in [pre_book] mode [booking_type] 'pre_booked' and
    a [scheduled_time]. *)
Theorem bookings_in_flight m today random es b :
  In b (inflight (reached m today random es)) ->
  String.length (b_mobile b) = 10%nat /\
  digits_only (b_mobile b) = true /\
  (m = walk_in -> b_booking_type b = "walk_in"%string /\ b_scheduled_time b = None) /\
  (m = pre_book -> b_booking_type b = "pre_booked"%string /\
                   exists t, b_scheduled_time b = Some t).
Proof.
  intros Hb.
  destruct (reached_sound m today random es) as [_ _ _ Hflight _ _ _ _].
  rewrite Forall_forall in Hflight. destruct (Hflight b Hb) as [H10 [Hdig [Htype Htime]]].
  split; [exact H10 |]. split; [exact Hdig |].
  split; intros ->; cbn in Htype, Htime; split; assumption.
Qed.

(** X3. While [loading] is set a booking request is in flight, and
    every result handed to [onComplete] has [success] set. *)
Theorem loading_and_completed m today random es :
  (loading (reached m today random es) = true ->
   inflight (reached m today random es) <> []) /\
  (forall r, In r (completed (reached m today random es)) -> success r = true).
Proof.
  destruct (reached_sound m today random es) as [_ _ _ _ Hdone Hload _ _].
  split; [exact Hload |]. apply Forall_forall. exact Hdone.
Qed.

(** X4. In [pre_book] mode the slot buttons always show the sixteen
    times from 09:00 to 16:30 (a change of date only changes which are
    available), and a chosen slot is one of them. *)
Theorem slots_offered today random es :
  map time (availableSlots (reached pre_book today random es)) = slot_times /\
  (forall t, selectedTimeSlot (reached pre_book today random es) = Some t ->
             In t slot_times).
Proof.
  destruct (reached_sound pre_book today random es) as [_ _ _ _ _ _ Hslot Hslots].
  split; [exact Hslots | exact Hslot].
Qed.

(** *** One request at a time *)

(** Nothing in flight and not loading, or one request in flight and
    loading. *)
Definition one_flight (w : Wizard) : Prop :=
  (inflight w = [] /\ loading w = false) \/
  (exists b, inflight w = [b] /\ loading w = true).

(** Every event but a recognition result. *)
Definition quiet (e : Event) : bool :=
  match e with
  | VoiceResult _ => false
  | _ => true
  end.

Lemma fire_mode e w : mode (fire e w) = mode w.
Proof.
  destruct e; unfold WalkInForm.fire, mobile_onChange, nextStep_onClick, service_onClick,
    WalkInForm.onresult, WalkInForm.handleVoiceResult, date_onChange,
    handleBookSlot_settled, WalkInForm.handleBookSlot;
    repeat match goal with
           | |- context [if ?b then _ else _] => destruct b
           | |- context [match nth_error ?l ?i with _ => _ end] => destruct (nth_error l i)
           | |- context [match find ?f ?l with _ => _ end] => destruct (find f l)
           | |- context [match ?o with resolved _ => _ | rejected => _ end] => destruct o
           end; reflexivity.
Qed.

Lemma handleBookSlot_idle serviceId w :
  inflight w = [] -> loading w = false -> one_flight (handleBookSlot serviceId w).
Proof.
  intros Hf Hl. unfold WalkInForm.handleBookSlot.
  destruct (_ || _); [left; split; assumption |].
  destruct (_ && _); [left; split; assumption |].
  right. fields. rewrite Hf. eexists. split; reflexivity.
Qed.

Lemma fire_one_flight e w :
  mode w = pre_book \/ quiet e = true ->
  one_flight w -> one_flight (fire e w).
Proof.
  intros Hcalm Hone.
  destruct e; unfold WalkInForm.fire.
  - destruct (step w =? 1); exact Hone.
  - destruct (step w =? 1); exact Hone.
  - destruct (step w =? 1); exact Hone.
  - destruct (step w =? 1); exact Hone.
  - (* Next Step *)
    destruct (step w =? 1); [| exact Hone]. unfold nextStep_onClick.
    destruct (_ =? _)%nat; exact Hone.
  - destruct (step w =? 2); exact Hone.
  - (* a service button *)
    destruct (step w =? 2); [| exact Hone].
    destruct (nth_error _ _) as [service |]; [| exact Hone].
    destruct (loading w) eqn:Hl; [exact Hone |].
    destruct Hone as [[Hf _] | [b [_ Hb]]]; [| congruence].
    unfold service_onClick. destruct (is_pre_book (mode w)).
    + left. fields. split; assumption.
    + destruct (handleBookSlot_idle (Some (s_id service)) w Hf Hl) as [[H1 H2] | [b [H1 H2]]];
        [left | right; exists b]; fields; split; assumption.
  - (* a recognition result: in pre_book mode only *)
    destruct Hcalm as [Hm | Hq]; [| discriminate Hq].
    unfold WalkInForm.onresult, WalkInForm.handleVoiceResult. rewrite Hm.
    destruct (find _ _); fields; rewrite ?andb_false_r; exact Hone.
  - (* the date field *)
    destruct (_ && _); [| exact Hone]. unfold date_onChange.
    destruct (is_pre_book _); exact Hone.
  - (* a slot button *)
    destruct (_ && _); [| exact Hone].
    destruct (nth_error _ _) as [slot |]; [| exact Hone].
    destruct (negb _); exact Hone.
  - (* Confirm Appointment *)
    destruct (_ && _); [| exact Hone].
    destruct (loading w) eqn:Hl; [exact Hone |]. cbn [orb].
    destruct (negb _); [exact Hone |].
    destruct Hone as [[Hf _] | [b [_ Hb]]]; [| congruence].
    apply handleBookSlot_idle; assumption.
  - (* a settled request *)
    destruct (Nat.ltb_spec k (List.length (inflight w))) as [Hk | Hk]; [| exact Hone].
    destruct Hone as [[Hf _] | [b [Hf _]]]; rewrite Hf in Hk; cbn in Hk; [lia |].
    assert (k = 0%nat) by lia. subst k.
    left. unfold handleBookSlot_settled.
    destruct o as [result |]; [destruct (success result) |]; fields; rewrite Hf; split; reflexivity.
  - (* the catalog *)
    exact Hone.
Qed.

Lemma run_one_flight es : forall w,
  mode w = pre_book \/ Forall (fun e => quiet e = true) es ->
  one_flight w -> one_flight (run es w).
Proof.
  induction es as [| e es IH]; intros w Hcalm Hone; [exact Hone |].
  cbn. apply IH.
  - rewrite fire_mode. destruct Hcalm as [Hm | Hq]; [left; exact Hm | right].
    inversion Hq; assumption.
  - apply fire_one_flight; [| exact Hone].
    destruct Hcalm as [Hm | Hq]; [left; exact Hm | right]. inversion Hq; assumption.
Qed.

(** X5. In [pre_book] mode, and in any mode as long as no recognition
    result arrives, at most one booking request is in flight, and
    [loading] is set exactly while one is. *)
Theorem one_request_at_a_time m today random es :
  m = pre_book \/ Forall (fun e => quiet e = true) es ->
  (List.length (inflight (reached m today random es)) <= 1)%nat /\
  (loading (reached m today random es) = true <->
   inflight (reached m today random es) <> []).
Proof.
  intros Hcalm.
  assert (Hone : one_flight (reached m today random es)).
  { apply run_one_flight; [exact Hcalm |]. left. split; reflexivity. }
  destruct Hone as [[Hf Hl] | [b [Hf Hl]]]; rewrite Hf, Hl; cbn.
  - split; [lia |]. split; [discriminate | intros H; elim H; reflexivity].
  - split; [lia |]. split; [discriminate | reflexivity].
Qed.

End Host.

(** X5 at a walk-in customer who types, goes on and taps a service. *)
Lemma one_request_at_a_time_witness :
  (List.length (inflight (reached JSDate.IST walk_in "2025-01-05" BookingWizard.half
     [CatalogLoaded [BookingWizard.cash_deposit]; TypeMobile "9876543210"; ClickNext;
      TapService 0])) <= 1)%nat /\
  (loading (reached JSDate.IST walk_in "2025-01-05" BookingWizard.half
     [CatalogLoaded [BookingWizard.cash_deposit]; TypeMobile "9876543210"; ClickNext;
      TapService 0]) = true <->
   inflight (reached JSDate.IST walk_in "2025-01-05" BookingWizard.half
     [CatalogLoaded [BookingWizard.cash_deposit]; TypeMobile "9876543210"; ClickNext;
      TapService 0]) <> []).
Proof.
  apply (one_request_at_a_time JSDate.IST walk_in "2025-01-05" BookingWizard.half).
  right. repeat (apply Forall_cons; [reflexivity |]). apply Forall_nil.
Defined.

(** X2 at the booking posted for that customer. *)
Lemma bookings_in_flight_witness :
  String.length (b_mobile (booking JSDate.IST (Some "Cash_Deposit"%string) BookingWizard.at_services)) = 10%nat /\
  digits_only (b_mobile (booking JSDate.IST (Some "Cash_Deposit"%string) BookingWizard.at_services)) = true /\
  (walk_in = walk_in ->
   b_booking_type (booking JSDate.IST (Some "Cash_Deposit"%string) BookingWizard.at_services) = "walk_in"%string /\
   b_scheduled_time (booking JSDate.IST (Some "Cash_Deposit"%string) BookingWizard.at_services) = None) /\
  (walk_in = pre_book ->
   b_booking_type (booking JSDate.IST (Some "Cash_Deposit"%string) BookingWizard.at_services) = "pre_booked"%string /\
   exists t, b_scheduled_time (booking JSDate.IST (Some "Cash_Deposit"%string) BookingWizard.at_services) = Some t).
Proof.
  apply (bookings_in_flight JSDate.IST walk_in "2025-01-05" BookingWizard.half
           [CatalogLoaded [BookingWizard.cash_deposit; BookingWizard.forex];
            TypeMobile "9876543210"; ClickNext; ClickMic; TapService 0]).
  left. reflexivity.
Defined.

End WizardRuns.

(* ------------------------------------------------------------------ *)
(** ** A recognition result after the wizard has left step 2 *)
(* ------------------------------------------------------------------ *)

Module LateVoice.
Import WalkInForm.

Section Host.

Variable LocalTZA : Z -> bool -> Z.

Local Abbreviation fire := (fire LocalTZA).
Local Abbreviation run := (run LocalTZA).






End Host.



End LateVoice.

(* ------------------------------------------------------------------ *)
(** ** The service session along its runs *)
(* ------------------------------------------------------------------ *)

Module SessionRuns.
Import CurrentCustomer.

(** The number of settled requests among the events. *)
Fixpoint settled_count (es : list Event) : nat :=
  match es with
  | [] => O
  | Settled _ :: r => S (settled_count r)
  | _ :: r => settled_count r
  end.

Lemma click_posted a s :
  (clickable a s = true /\ loading s = false /\
   loading (click a s) = true /\
   List.length (posted (click a s)) = S (List.length (posted s))) \/
  click a s = s.
Proof.
  unfold click. destruct (clickable a s) eqn:Hc; [left | right; reflexivity].
  destruct (ServiceSession.clickable_offer _ _ Hc) as [Hl [c [Hcust _]]].
  unfold handleAction. rewrite Hcust. cbn [loading posted].
  split; [reflexivity |]. split; [exact Hl |]. split; [reflexivity |].
  rewrite length_app. cbn [List.length]. lia.
Qed.

Lemma posted_bound es : forall s,
  (List.length (posted (run es s)) <=
   List.length (posted s) + settled_count es + (if loading s then 0 else 1))%nat.
Proof.
  induction es as [| e es IH]; intros s; [cbn; lia |].
  unfold run in *. cbn [fold_left]. specialize (IH (fire e s)).
  destruct e as [a | r | c]; cbn [fire settled_count] in *.
  - destruct (click_posted a s) as [[_ [Hl [Hl' Hp]]] | Hsame].
    + rewrite Hl' in IH. rewrite Hp in IH. rewrite Hl. lia.
    + rewrite Hsame in *. exact IH.
  - cbn [loading posted handleAction_settled] in IH. destruct (loading s); lia.
  - cbn [loading posted] in IH. exact IH.
Qed.

(** X6. However the staff member clicks, the requests posted during a
    run are at most one more than the requests settled during it: while a
    request is outstanding the buttons are disabled and nothing is
    posted. *)
Theorem one_action_at_a_time (es : list Event) (s : Session) :
  loading s = false ->
  (List.length (posted (run es s)) <= List.length (posted s) + settled_count es + 1)%nat /\
  (forall a, loading (run es s) = true -> click a (run es s) = run es s).
Proof.
  intros Hl. split.
  - pose proof (posted_bound es s) as H. rewrite Hl in H. exact H.
  - intros a Hbusy. destruct (click_posted a (run es s)) as [[_ [Hidle _]] | Hsame];
      [congruence | exact Hsame].
Qed.

(** A customer waiting at counter 1, not yet started. *)
Definition assigned : Session :=
  {| props := {| customer := Some (StaffPage.mkEntry 7 "A007" None "Forex"
                                    StaffPage.waiting 5 None None);
                 staffId := 1; counterNumber := 1 |};
     loading := false; posted := []; updates := 0 |}.

(** X6 at two clicks on Start Service in a row. *)
Lemma one_action_at_a_time_witness :
  (List.length (posted (run [Click start; Click start] assigned)) <=
   List.length (posted assigned) + settled_count [Click start; Click start] + 1)%nat /\
  (forall a, loading (run [Click start; Click start] assigned) = true ->
             click a (run [Click start; Click start] assigned) =
             run [Click start; Click start] assigned).
Proof. apply (one_action_at_a_time [Click start; Click start] assigned). reflexivity. Defined.

Example double_click_posts_once :
  List.length (posted (run [Click start; Click start; Click no_show] assigned)) = 1%nat.
Proof. reflexivity. Qed.

(** X7 at a customer who is not started, through a click, a settled
    request and a second click. *)
Lemma no_complete_before_start_witness :
  Forall (fun r => action r <> complete)
         (posted (run [Click complete; Click start; Settled true; Click complete] assigned)).
Proof.
  apply (ServiceSession.no_complete_before_start
           [Click complete; Click start; Settled true; Click complete] assigned).
  - intros x [= <-]. reflexivity.
  - repeat (apply Forall_cons; [exact I |]). apply Forall_nil.
  - apply Forall_nil.
Defined.

End SessionRuns.

(* ------------------------------------------------------------------ *)
(** ** The staff page with distinct ids *)
(* ------------------------------------------------------------------ *)

Module StaffView.
Import StaffPage.

(** The "Queue Load" figure of the header:
    [queue.length + (currentCustomer ? 1 : 0)]. *)
Definition queueLoad (p : Page) : nat :=
  (List.length (queue p) + match currentCustomer p with Some _ => 1 | None => 0 end)%nat.

Lemma hd_error_filter {A} (f : A -> bool) (l : list A) :
  hd_error (filter f l) = find f l.
Proof.
  induction l as [| x l IH]; [reflexivity |].
  cbn. destruct (f x); [reflexivity | exact IH].
Qed.

(** Taking one waiting entry out by its id shortens the waiting list by
    one when ids are distinct. *)
Lemma filter_without_one (l : list QueueEntry) (c : QueueEntry) :
  NoDup (map id l) -> In c l -> pending c = true ->
  S (List.length (filter (fun q => pending q && negb (id q =? id c)) l)) =
  List.length (filter pending l).
Proof.
  induction l as [| x l IH]; intros Hnd Hin Hp; [destruct Hin |].
  cbn in Hnd. inversion Hnd as [| ? ? Hx Hl]; subst.
  destruct Hin as [-> | Hin].
  - cbn [filter]. rewrite Hp, Z.eqb_refl. cbn [negb andb List.length]. f_equal.
    f_equal. apply filter_ext_in. intros q Hq.
    destruct (Z.eqb_spec (id q) (id c)) as [E | E]; [| cbn; apply andb_true_r].
    elim Hx. rewrite <- E. apply in_map. exact Hq.
  - cbn [filter].
    assert (Hne : (id x =? id c) = false).
    { apply Z.eqb_neq. intros E. elim Hx. rewrite E. apply in_map. exact Hin. }
    rewrite Hne. cbn [negb]. rewrite andb_true_r.
    destruct (pending x); cbn [List.length andb]; rewrite <- (IH Hl Hin Hp); reflexivity.
Qed.

(** X8. When the ids of a snapshot are pairwise distinct, [fetchQueue]
    leaves in [queue] exactly the waiting or checked-in entries whose id
    differs from the current customer's, and the first card of the list
    (the one marked NEXT) is the first such entry of the snapshot. *)
Theorem staff_view_distinct_ids (data : list QueueEntry) (p : Page) :
  NoDup (map id data) ->
  queue (fetchQueue (Some data) p) =
    spec_remaining (currentCustomer (fetchQueue (Some data) p)) data /\
  hd_error (queue (fetchQueue (Some data) p)) =
    find (fun q => pending q &&
                   match currentCustomer (fetchQueue (Some data) p) with
                   | Some c => negb (id q =? id c)
                   | None => true
                   end) data.
Proof.
  intros Hnd.
  destruct (QueueView.fetchQueue_reduce data p) as [-> ->].
  rewrite (QueueView.reduceQueue_distinct_ids counterNumber data Hnd).
  split; [reflexivity |]. unfold spec_remaining. apply hd_error_filter.
Qed.

(** X9. When the ids of a snapshot are pairwise distinct, the Queue
    Load shown in the header is the number of waiting or checked-in
    entries, plus one when an entry is in progress at counter 1. *)
Theorem queue_load_distinct_ids (data : list QueueEntry) (p : Page) :
  NoDup (map id data) ->
  queueLoad (fetchQueue (Some data) p) =
    (List.length (filter pending data) +
     (if existsb (mine counterNumber) data then 1 else 0))%nat.
Proof.
  intros Hnd. unfold queueLoad.
  destruct (QueueView.fetchQueue_reduce data p) as [-> ->].
  rewrite (QueueView.reduceQueue_distinct_ids counterNumber data Hnd).
  unfold reduceQueue, spec_remaining. cbn [fst].
  destruct (find (mine counterNumber) data) as [c0 |] eqn:Hmine.
  - pose proof (find_some _ _ Hmine) as [Hin Hc0].
    assert (Hex : existsb (mine counterNumber) data = true)
      by (apply existsb_exists; exists c0; split; assumption).
    rewrite Hex. f_equal. f_equal. apply filter_ext_in. intros q Hq.
    destruct (pending q) eqn:Hp; [| reflexivity]. cbn.
    apply negb_true_iff, Z.eqb_neq. intros E.
    rewrite (QueueView.id_names_entry data q c0 Hnd Hq Hin E) in Hp.
    rewrite (QueueView.mine_not_pending _ _ Hc0) in Hp. discriminate.
  - assert (Hex : existsb (mine counterNumber) data = false).
    { destruct (existsb _ data) eqn:E; [| reflexivity].
      apply existsb_exists in E. destruct E as [x [Hx Hm]].
      rewrite (find_none _ _ Hmine x Hx) in Hm. discriminate. }
    rewrite Hex, Nat.add_0_r.
    destruct (find pending data) as [c1 |] eqn:Hnext.
    + pose proof (find_some _ _ Hnext) as [Hin Hc1].
      rewrite <- (filter_without_one data c1 Hnd Hin Hc1). lia.
    + rewrite Nat.add_0_r. f_equal. apply filter_ext. intros q. apply andb_true_r.
Qed.

(** Scenario A of the specification as a page. *)
Definition scenario_A_data : list QueueEntry :=
  [QueueView.entry 1 in_progress (Some 1); QueueView.entry 2 waiting None;
   QueueView.entry 3 checked_in None].

Definition blank_page : Page := {| queue := []; currentCustomer := None; loading := true |}.

Lemma distinct_ids_A : NoDup (map id scenario_A_data).
Proof.
  cbn. repeat (apply NoDup_cons; [cbn; intuition discriminate |]). apply NoDup_nil.
Defined.

(** X8 at Scenario A. *)
Lemma staff_view_distinct_ids_witness :
  queue (fetchQueue (Some scenario_A_data) blank_page) =
    spec_remaining (currentCustomer (fetchQueue (Some scenario_A_data) blank_page))
                   scenario_A_data /\
  hd_error (queue (fetchQueue (Some scenario_A_data) blank_page)) =
    find (fun q => pending q &&
                   match currentCustomer (fetchQueue (Some scenario_A_data) blank_page) with
                   | Some c => negb (id q =? id c)
                   | None => true
                   end) scenario_A_data.
Proof. apply (staff_view_distinct_ids scenario_A_data blank_page). exact distinct_ids_A. Defined.

(** X9 at Scenario A. *)
Lemma queue_load_distinct_ids_witness :
  queueLoad (fetchQueue (Some scenario_A_data) blank_page) =
    (List.length (filter pending scenario_A_data) +
     (if existsb (mine counterNumber) scenario_A_data then 1 else 0))%nat.
Proof. apply (queue_load_distinct_ids scenario_A_data blank_page). exact distinct_ids_A. Defined.

Example queue_load_A : queueLoad (fetchQueue (Some scenario_A_data) blank_page) = 3%nat.
Proof. reflexivity. Qed.

End StaffView.

(* ------------------------------------------------------------------ *)
(** ** The kiosk page along its runs *)
(* ------------------------------------------------------------------ *)

Module KioskRuns.
Import KioskPage.

(** What holds of the kiosk after the events [hist]: a ticket is held
    whenever the view is 'success', and the ticket held was handed over
    by a child. *)
Definition holds_ticket (hist : list Event) (k : Kiosk) : Prop :=
  (view k = success -> successData k <> None) /\
  (forall d, successData k = Some d -> In (Completed d) hist).

Lemma fire_holds_ticket hist e k :
  holds_ticket hist k -> holds_ticket (hist ++ [e]) (fire e k).
Proof.
  intros [Hview Hdata].
  assert (Hkeep : forall d, successData k = Some d -> In (Completed d) (hist ++ [e]))
    by (intros d Hd; apply in_or_app; left; apply Hdata; exact Hd).
  destruct e as [c | | | data |]; unfold fire.
  - destruct (render k); try (split; assumption).
    split; [destruct c; discriminate | exact Hkeep].
  - destruct (render k); (split; [try assumption; discriminate | exact Hkeep]).
  - destruct (render k); (split; [try assumption; discriminate | exact Hkeep]).
  - assert (Hnew : holds_ticket (hist ++ [Completed data]) (handleComplete data k)).
    { split; [discriminate |]. intros d [= <-]. apply in_or_app. right. left. reflexivity. }
    destruct (render k); exact Hnew.
  - assert (Hnew : holds_ticket (hist ++ [ResetFired])
                     (match resets k with O => k | S _ => reset k end)).
    { destruct (resets k); [split; assumption |]. split; discriminate. }
    destruct (render k); exact Hnew.
Qed.

Lemma run_holds_ticket es : forall hist k,
  holds_ticket hist k -> holds_ticket (hist ++ es) (run es k).
Proof.
  induction es as [| e es IH]; intros hist k H; [rewrite app_nil_r; exact H |].
  cbn [run fold_left]. replace (hist ++ e :: es)%list with ((hist ++ [e]) ++ es)%list
    by (rewrite <- app_assoc; reflexivity).
  apply IH. apply fire_holds_ticket. exact H.
Qed.

(** X10. Whatever the user does and whenever completions and resets
    arrive, a kiosk whose view is 'success' holds a ticket, so the ticket
    panel is rendered, and the ticket is one that a child handed to
    [onComplete]. *)
Theorem success_shows_ticket (es : list Event) :
  view (run es initial) = success ->
  exists d, successData (run es initial) = Some d /\
            render (run es initial) = TicketPanel d /\
            In (Completed d) es.
Proof.
  intros Hv.
  destruct (run_holds_ticket es [] initial) as [Hview Hdata].
  { split; [discriminate | discriminate]. }
  cbn [app] in Hdata. specialize (Hview Hv).
  destruct (successData (run es initial)) as [d |] eqn:Hd; [| contradiction].
  exists d. split; [reflexivity |]. split; [| apply Hdata; reflexivity].
  unfold render. rewrite Hv, Hd. reflexivity.
Qed.

Definition sample_ticket : Ticket :=
  mkTicket "A014" (Some (3 # 1)) (Some (25 # 2)) (Some (171 # 2)) (Some (9 # 2)).

(** X10 at a walk-in customer whose booking completes. *)
Lemma success_shows_ticket_witness :
  exists d, successData (run [Select new_token; Completed sample_ticket] initial) = Some d /\
            render (run [Select new_token; Completed sample_ticket] initial) = TicketPanel d /\
            In (Completed d) [Select new_token; Completed sample_ticket].
Proof. apply (success_shows_ticket [Select new_token; Completed sample_ticket]). reflexivity. Defined.

(** Nothing is rendered for the view 'pre_book'. *)
Lemma user_event_without_panel e k :
  render k = NoPanel -> by_user e = true -> fire e k = k.
Proof.
  intros Hr He. unfold fire. rewrite Hr. destruct e; try discriminate He; reflexivity.
Qed.

(** X11. "Book a Future Appointment" on the welcome screen sets the
    view to 'pre_book', for which the page renders none of its panels:
    from then on no action of the user changes the page. *)
Theorem pre_book_view_is_blank (k : Kiosk) (es : list Event) :
  render k = WelcomePanel ->
  Forall (fun e => by_user e = true) es ->
  view (fire (Select book_future) k) = pre_book /\
  render (fire (Select book_future) k) = NoPanel /\
  run es (fire (Select book_future) k) = fire (Select book_future) k.
Proof.
  intros Hw Hes.
  assert (Hv : fire (Select book_future) k = setView pre_book k)
    by (unfold fire; rewrite Hw; reflexivity).
  rewrite Hv. split; [reflexivity |]. split; [reflexivity |].
  induction es as [| e es IH]; [reflexivity |].
  inversion Hes as [| ? ? He Hes']; subst.
  cbn [run fold_left]. rewrite (user_event_without_panel e (setView pre_book k));
    [apply IH; exact Hes' | reflexivity | exact He].
Qed.

(** X11 at the freshly loaded kiosk. *)
Lemma pre_book_view_is_blank_witness :
  view (fire (Select book_future) initial) = pre_book /\
  render (fire (Select book_future) initial) = NoPanel /\
  run [Back; ReturnHome; Select new_token] (fire (Select book_future) initial) =
    fire (Select book_future) initial.
Proof.
  apply (pre_book_view_is_blank initial [Back; ReturnHome; Select new_token]);
    [reflexivity |].
  repeat (apply Forall_cons; [reflexivity |]). apply Forall_nil.
Defined.

Lemma user_event_keeps_resets e k : by_user e = true -> resets (fire e k) = resets k.
Proof.
  intros He. unfold fire. destruct e; try discriminate He; destruct (render k); reflexivity.
Qed.

(** X12. The 10 s reset started by a completion is never cancelled: no
    action of the user changes the number of pending resets, and when one
    fires the page goes back to the welcome screen and drops the ticket,
    whatever it shows then. *)
Theorem reset_is_never_cancelled (k : Kiosk) (es : list Event) :
  (0 < resets k)%nat ->
  Forall (fun e => by_user e = true) es ->
  resets (run es k) = resets k /\
  view (fire ResetFired (run es k)) = welcome /\
  successData (fire ResetFired (run es k)) = None.
Proof.
  intros Hr Hes.
  assert (Hsame : resets (run es k) = resets k).
  { revert k Hr. induction es as [| e es IH]; intros k Hr; [reflexivity |].
    inversion Hes as [| ? ? He Hes']; subst.
    cbn [run fold_left]. fold (run es (fire e k)).
    rewrite (IH Hes' (fire e k)); rewrite (user_event_keeps_resets e k He);
      [reflexivity | exact Hr]. }
  split; [exact Hsame |].
  assert (Hfire : forall x, fire ResetFired x = match resets x with O => x | S _ => reset x end)
    by (intros x; unfold fire; destruct (render x); reflexivity).
  rewrite Hfire. destruct (resets (run es k)) as [| n] eqn:Hn; [lia |].
  split; reflexivity.
Qed.

(** X12 at a customer who returns home after a completion and starts a
    new token. *)
Lemma reset_is_never_cancelled_witness :
  resets (run [ReturnHome; Select new_token] (handleComplete sample_ticket initial)) =
    resets (handleComplete sample_ticket initial) /\
  view (fire ResetFired
          (run [ReturnHome; Select new_token] (handleComplete sample_ticket initial))) =
    welcome /\
  successData (fire ResetFired
          (run [ReturnHome; Select new_token] (handleComplete sample_ticket initial))) =
    None.
Proof.
  apply (reset_is_never_cancelled (handleComplete sample_ticket initial)
           [ReturnHome; Select new_token]); [cbn; lia |].
  repeat (apply Forall_cons; [reflexivity |]). apply Forall_nil.
Defined.

Example new_customer_is_reset :
  view (run [ReturnHome; Select new_token] (handleComplete sample_ticket initial)) = walk_in /\
  view (run [ReturnHome; Select new_token; ResetFired]
            (handleComplete sample_ticket initial)) = welcome.
Proof. split; reflexivity. Qed.

(** X13. The wait printed on the ticket: for a positive estimate it is
    the estimate rounded up to whole minutes, at least 1; for a missing
    or zero estimate it is 5. *)
Theorem ticket_wait (data : Ticket) :
  (forall q, estimated_wait_min data = Some q -> (0 < q)%Q ->
             1 <= wait_minutes data /\
             (q <= inject_Z (wait_minutes data))%Q /\
             (inject_Z (wait_minutes data) < q + 1)%Q) /\
  (estimated_wait_min data = None -> wait_minutes data = 5) /\
  (forall q, estimated_wait_min data = Some q -> (q == 0)%Q -> wait_minutes data = 5).
Proof.
  unfold wait_minutes, number_or. split; [| split].
  - intros q -> Hq.
    destruct (Qeq_bool q 0) eqn:E.
    + apply Qeq_bool_eq in E. rewrite E in Hq. apply Qlt_irrefl in Hq. contradiction.
    + pose proof (Qle_ceiling q) as Hle. pose proof (Qceiling_lt q) as Hlt.
      split; [| split; [exact Hle |]].
      * assert (H0 : (inject_Z 0 < inject_Z (Qceiling q))%Q)
          by (apply (Qlt_le_trans _ q); assumption).
        rewrite <- Zlt_Qlt in H0. lia.
      * unfold Z.sub in Hlt. rewrite inject_Z_plus in Hlt.
        change (inject_Z (-1)) with (-1 # 1)%Q in Hlt.
        apply (Qplus_lt_l _ _ (-1 # 1)%Q). 
        setoid_replace (q + 1 + (-1 # 1))%Q with q by ring. exact Hlt.
  - intros ->. reflexivity.
  - intros q -> Hq. apply Qeq_bool_iff in Hq. rewrite Hq. reflexivity.
Qed.

Example banner_samples :
  banner sample_ticket = "Wait: ~13 mins"%string /\
  banner (mkTicket "A015" (Some (1 # 1)) None None None) = "NEXT IN LINE"%string /\
  banner (mkTicket "A016" None None None None) = "Wait: ~5 mins"%string /\
  banner (mkTicket "A017" (Some (2 # 1)) (Some (-1 # 2)) None None) = "Wait: ~0 mins"%string /\
  shown_score sample_ticket = 86.
Proof. vm_compute. repeat split. Qed.

End KioskRuns.

(* ------------------------------------------------------------------ *)
(** ** The manager page along its polls *)
(* ------------------------------------------------------------------ *)

Module AdminPolls.
Import AdminPage.

(** The payload of the last poll that resolved. *)
Definition last_resolved (responses : list (option Analytics)) : option Analytics :=
  fold_left (fun acc r => match r with Some d => Some d | None => acc end) responses None.

Lemma run_data responses : forall p,
  data (run responses p) =
  fold_left (fun acc r => match r with Some d => Some d | None => acc end) responses (data p).
Proof.
  induction responses as [| r rs IH]; intros p; [reflexivity |].
  cbn [run fold_left]. fold (run rs (fetchAnalytics r p)). rewrite IH.
  destruct r; reflexivity.
Qed.

Lemma run_loading responses : forall p,
  responses <> [] -> loading (run responses p) = false.
Proof.
  induction responses as [| r rs IH]; intros p H; [contradiction |].
  cbn [run fold_left]. fold (run rs (fetchAnalytics r p)).
  destruct rs as [| r' rs']; [destruct r; reflexivity | apply IH; discriminate].
Qed.

Section Host.

Variable toFixed1 : Q -> string.

(** X14. After any sequence of polls the page holds the payload of the
    last poll that resolved; failed polls keep it. Before the first poll
    settles the loading text is shown; if every poll so far has failed,
    the render throws (it reads a property of null); otherwise it shows
    the dashboard of that payload, and throws exactly when the payload
    lacks [hourly_load_heatmap] or [staff_performance]. *)
Theorem page_after_polls (responses : list (option Analytics)) :
  data (run responses initial) = last_resolved responses /\
  (responses = [] -> render toFixed1 (run responses initial) = Some LoadingAnalytics) /\
  (responses <> [] -> last_resolved responses = None ->
   render toFixed1 (run responses initial) = None) /\
  (forall d, last_resolved responses = Some d ->
     (render toFixed1 (run responses initial) = None <->
      hourly_load_heatmap d = None \/ staff_performance d = None) /\
     (forall heat staff,
        hourly_load_heatmap d = Some heat -> staff_performance d = Some staff ->
        render toFixed1 (run responses initial) =
          Some (Dashboard (minutes_text toFixed1 (avg_wait_time d))
                          (minutes_text toFixed1 (avg_service_time d))
                          (total_transactions_today d) heat (map row staff)))).
Proof.
  assert (Hdata : data (run responses initial) = last_resolved responses)
    by apply (run_data responses initial).
  split; [exact Hdata |]. split; [| split].
  - intros ->. reflexivity.
  - intros Hne Hnone. unfold render. rewrite Hdata, Hnone, (run_loading _ _ Hne). reflexivity.
  - intros d Hd. unfold render. rewrite Hdata, Hd. split.
    + destruct (hourly_load_heatmap d), (staff_performance d); split;
        try discriminate; try tauto; intros [H | H]; discriminate H.
    + intros heat staff -> ->. reflexivity.
Qed.

End Host.

End AdminPolls.

(* ------------------------------------------------------------------ *)
(** ** The appointment calendar's dates *)
(* ------------------------------------------------------------------ *)

Module CalendarDates.
Import JSDate AppointmentCalendar.

(** The calendar date read off a time value is a date of the calendar,
    and [MakeDay] takes it back to the day of the time value. *)
Lemma civil_of_day t :
  0 <= MonthFromTime t <= 11 /\
  1 <= DateFromTime t <= Calendar.DaysInMonth (YearFromTime t) (MonthFromTime t) /\
  MakeDay (YearFromTime t) (MonthFromTime t) (DateFromTime t) = Day t.
Proof.
  pose proof (Calendar.YearFromDay_bounds (Day t)) as Hb.
  rewrite Calendar.DayFromYear_succ in Hb.
  unfold DateFromTime, MonthFromTime, DayWithinYear, InLeapYear, YearFromTime in *.
  set (y := YearFromDay (Day t)) in *.
  unfold MakeDay, month_start, Calendar.DaysInMonth.
  destruct (Calendar.DaysInYear_cases y) as [E | E]; rewrite E in *; cbn [Z.eqb Pos.eqb];
    repeat match goal with
           | |- context [?a <? ?b] => destruct (Z.ltb_spec a b)
           end;
    repeat match goal with
           | |- context [?a / 12] =>
               let v := eval vm_compute in (a / 12) in change (a / 12) with v
           | |- context [?a mod 12] =>
               let v := eval vm_compute in (a mod 12) in change (a mod 12) with v
           end;
    rewrite ?Z.add_0_r, ?E; cbn [Z.eqb Pos.eqb]; cbv iota; repeat split; lia.
Qed.

(** A later date of the same month is as many days later. *)
Lemma MakeDay_shift y mn d k : MakeDay y mn (d + k) = MakeDay y mn d + k.
Proof. unfold MakeDay. lia. Qed.

Lemma day_and_time t : MakeDate (Day t) (TimeWithinDay t) = t.
Proof.
  unfold MakeDate, Day, TimeWithinDay, msPerDay. Calendar.div_lia.
Qed.

(** *** Text *)

Lemma free_of_append sep a b :
  Text.free_of sep (a ++ b) = Text.free_of sep a && Text.free_of sep b.
Proof.
  induction a as [| c a IH]; [reflexivity |].
  cbn. rewrite IH. apply andb_assoc.
Qed.

(** The text of a year from 0 to 9999 and of a number below 100 has no
    ['T']. *)
Definition year_free (y : Z) : bool :=
  Text.free_of "T" (iso_year y) && (String.length (iso_year y) =? 4)%nat.
Definition pad_free (n : Z) : bool := Text.free_of "T" (pad_to 2 n).

Lemma iso_year_free y :
  0 <= y <= 9999 ->
  Text.free_of "T" (iso_year y) = true /\ String.length (iso_year y) = 4%nat.
Proof.
  intros Hy.
  assert (H : year_free y = true)
    by (apply (Text.range_forall year_free 0 10000); [vm_compute; reflexivity | lia]).
  unfold year_free in H. apply andb_true_iff in H. destruct H as [H1 H2].
  split; [exact H1 | apply Nat.eqb_eq; exact H2].
Qed.

Lemma pad_to_free n : 0 <= n <= 99 -> Text.free_of "T" (pad_to 2 n) = true.
Proof.
  intros Hn. apply (Text.range_forall pad_free 0 100); [vm_compute; reflexivity | lia].
Qed.

(** ["YYYY-MM-DD"] of the calendar date of a time value. *)
Definition date_text (t : Z) : string :=
  (iso_year (YearFromTime t) ++ "-" ++ pad_to 2 (MonthFromTime t + 1) ++ "-" ++
   pad_to 2 (DateFromTime t))%string.

Lemma date_text_free t :
  0 <= YearFromTime t <= 9999 -> Text.free_of "T" (date_text t) = true.
Proof.
  intros Hy. destruct (civil_of_day t) as [Hm [Hd _]].
  pose proof (Calendar.DaysInMonth_le (YearFromTime t) (MonthFromTime t)) as H31.
  unfold date_text. rewrite !free_of_append.
  destruct (iso_year_free _ Hy) as [-> _].
  rewrite !pad_to_free by lia. reflexivity.
Qed.

Lemma Qtruncate_Z z : Qtruncate (inject_Z z) = z.
Proof. unfold Qtruncate. destruct (Qle_bool 0 (inject_Z z)); [apply Qfloor_Z | apply Qceiling_Z]. Qed.

Lemma Qtruncate_comp q z : (q == inject_Z z)%Q -> Qtruncate q = z.
Proof.
  intros H. transitivity (Qtruncate (inject_Z z)); [| apply Qtruncate_Z].
  unfold Qtruncate. rewrite (Qfloor_comp _ _ H), (Qceiling_comp _ _ H).
  destruct (Qle_bool 0 q) eqn:E1, (Qle_bool 0 (inject_Z z)) eqn:E2; try reflexivity.
  - apply Qle_bool_iff in E1. rewrite H in E1. apply Qle_bool_iff in E1. congruence.
  - apply Qle_bool_iff in E2. rewrite <- H in E2. apply Qle_bool_iff in E2. congruence.
Qed.

Section Host.

Variable LocalTZA : Z -> bool -> Z.

Local Abbreviation LocalTime := (LocalTime LocalTZA).
Local Abbreviation UTC := (UTC LocalTZA).
Local Abbreviation formattedDate := (formattedDate LocalTZA).
Local Abbreviation changeDate := (changeDate LocalTZA).

(** X15. For a date whose zone offset is a whole number of minutes and
    whose local year is between 0 and 9999, [formattedDate] is the local
    calendar date "YYYY-MM-DD": the year, month and day that
    [getFullYear()], [getMonth() + 1] and [getDate()] return, zero
    padded. *)
Theorem formattedDate_is_local (t : Z) :
  (LocalTZA t true) mod msPerMinute = 0 ->
  Z.abs (LocalTime t) <= 8640000000000000 ->
  0 <= YearFromTime (LocalTime t) <= 9999 ->
  formattedDate (Some t) = Some (date_text (LocalTime t)) /\
  getFullYear LocalTZA (Some t) = Some (YearFromTime (LocalTime t)) /\
  getMonth LocalTZA (Some t) = Some (MonthFromTime (LocalTime t)) /\
  getDate LocalTZA (Some t) = Some (DateFromTime (LocalTime t)).
Proof.
  intros _ Hclip Hy. split; [| repeat split].
  unfold AppointmentCalendar.formattedDate, getTimezoneOffset, Date_of_value.
  cbn [option_map].
  rewrite (Qtruncate_comp _ (LocalTime t)).
  - unfold TimeClip. destruct (Z.leb_spec (Z.abs (LocalTime t)) 8640000000000000); [| lia].
    unfold toISOString.
    change (iso_year (YearFromTime (LocalTime t)) ++ "-" ++
            pad_to 2 (MonthFromTime (LocalTime t) + 1) ++ "-" ++
            pad_to 2 (DateFromTime (LocalTime t)) ++ "T" ++ ?rest)%string
      with (iso_year (YearFromTime (LocalTime t)) ++ "-" ++
            pad_to 2 (MonthFromTime (LocalTime t) + 1) ++ "-" ++
            pad_to 2 (DateFromTime (LocalTime t)) ++ String "T" rest)%string.
    rewrite <- !Text.append_assoc.
    rewrite (Text.append_assoc _ "-" (pad_to 2 (MonthFromTime (LocalTime t) + 1))).
    rewrite (Text.append_assoc _ "-" (pad_to 2 (DateFromTime (LocalTime t)))).
    rewrite (Text.append_assoc (iso_year _) _ (_ ++ _)).
    fold (date_text (LocalTime t)).
    rewrite Text.split_cons by (apply date_text_free; exact Hy). reflexivity.
  - unfold msPerMinute, JSDate.LocalTime, Z.sub.
    rewrite !inject_Z_plus, !inject_Z_opp, !inject_Z_plus.
    change (inject_Z 60000) with (60000 # 1)%Q. change (inject_Z 60) with (60 # 1)%Q.
    change (inject_Z 1000) with (1000 # 1)%Q. field.
Qed.

(** X16. [changeDate(days)] moves the date by whole days of local time:
    when the local time that many days later exists in the zone, the new
    date has that local time, that is the same time of day on the
    calendar day [days] later. *)
Theorem changeDate_shifts_local_days (t days : Z) :
  Calendar.wall_clock LocalTZA (LocalTime t + days * msPerDay) ->
  Z.abs (UTC (LocalTime t + days * msPerDay)) <= 8640000000000000 ->
  changeDate days (Some t) = Some (UTC (LocalTime t + days * msPerDay)) /\
  LocalTime (UTC (LocalTime t + days * msPerDay)) = LocalTime t + days * msPerDay /\
  Day (LocalTime t + days * msPerDay) = Day (LocalTime t) + days /\
  TimeWithinDay (LocalTime t + days * msPerDay) = TimeWithinDay (LocalTime t).
Proof.
  intros Hwall Hclip.
  assert (Hnew : MakeDate (MakeDay (YearFromTime (LocalTime t)) (MonthFromTime (LocalTime t))
                                   (DateFromTime (LocalTime t) + days))
                          (TimeWithinDay (LocalTime t)) =
                 LocalTime t + days * msPerDay).
  { rewrite MakeDay_shift. destruct (civil_of_day (LocalTime t)) as [_ [_ ->]].
    pose proof (day_and_time (LocalTime t)) as H. unfold MakeDate in *. lia. }
  split; [| split; [| split]].
  - unfold AppointmentCalendar.changeDate, getDate, setDate. cbn [option_map].
    rewrite Hnew. unfold TimeClip.
    destruct (Z.leb_spec (Z.abs (UTC (LocalTime t + days * msPerDay))) 8640000000000000);
      [reflexivity | lia].
  - apply Calendar.LocalTime_UTC. exact Hwall.
  - unfold Day, msPerDay. Calendar.div_lia.
  - unfold TimeWithinDay, msPerDay. Calendar.div_lia.
Qed.

End Host.

(** X17. In a zone with a fixed offset, changing the date by [a] days
    and then by [b] days is changing it by [a + b] days; in particular
    the next day followed by the previous day is the date one started
    from. *)
Theorem changeDate_composes (offset t a b : Z) :
  Z.abs offset <= msPerDay ->
  Z.abs t + (Z.abs a + Z.abs b + 2) * msPerDay <= 8640000000000000 ->
  changeDate (fixed_zone offset) b (changeDate (fixed_zone offset) a (Some t)) =
    changeDate (fixed_zone offset) (a + b) (Some t) /\
  changeDate (fixed_zone offset) (a + b) (Some t) = Some (t + (a + b) * msPerDay) /\
  changeDate (fixed_zone offset) (-1) (changeDate (fixed_zone offset) 1 (Some t)) = Some t.
Proof.
  intros Hoff Hrange.
  assert (Hstep : forall u k, Z.abs u + (Z.abs k) * msPerDay <= 8640000000000000 ->
            changeDate (fixed_zone offset) k (Some u) = Some (u + k * msPerDay)).
  { intros u k Hk.
    destruct (changeDate_shifts_local_days (fixed_zone offset) u k) as [-> _].
    - apply Calendar.fixed_zone_wall_clock. exact Hoff.
    - unfold UTC, LocalTime, fixed_zone, msPerDay in *. lia.
    - unfold UTC, LocalTime, fixed_zone. f_equal. lia. }
  unfold msPerDay in *.
  rewrite (Hstep t a) by (unfold msPerDay; lia).
  rewrite (Hstep (t + a * 86400000) b) by (unfold msPerDay; lia).
  rewrite (Hstep t (a + b)) by (unfold msPerDay; lia).
  rewrite (Hstep t 1) by (unfold msPerDay; lia).
  rewrite (Hstep (t + 1 * 86400000) (-1)) by (unfold msPerDay; lia).
  unfold msPerDay. repeat split; f_equal; lia.
Qed.

(** Noon of 5 January 2025 in India, as a time value. *)
Definition noon_2025_01_05 : Z := 1736058600000.

Example formattedDate_samples :
  formattedDate IST (Some noon_2025_01_05) = Some "2025-01-05"%string /\
  formattedDate IST (changeDate IST 1 (Some noon_2025_01_05)) = Some "2025-01-06"%string /\
  formattedDate IST (changeDate IST (-5) (Some noon_2025_01_05)) = Some "2024-12-31"%string /\
  formattedDate IST (Some (noon_2025_01_05 + 9 * 3600000)) = Some "2025-01-05"%string /\
  toISOString (Some (noon_2025_01_05 + 9 * 3600000)) = Some "2025-01-05T15:30:00.000Z"%string /\
  formattedDate IST None = None.
Proof. vm_compute. repeat split. Qed.

(** X15 at noon of 5 January 2025 in India. *)
Lemma formattedDate_is_local_witness :
  formattedDate IST (Some noon_2025_01_05) =
    Some (date_text (LocalTime IST noon_2025_01_05)) /\
  getFullYear IST (Some noon_2025_01_05) = Some (YearFromTime (LocalTime IST noon_2025_01_05)) /\
  getMonth IST (Some noon_2025_01_05) = Some (MonthFromTime (LocalTime IST noon_2025_01_05)) /\
  getDate IST (Some noon_2025_01_05) = Some (DateFromTime (LocalTime IST noon_2025_01_05)).
Proof.
  apply (formattedDate_is_local IST noon_2025_01_05).
  - reflexivity.
  - vm_compute. discriminate.
  - vm_compute. split; discriminate.
Defined.

(** X16 at the next day of that date. *)
Lemma changeDate_shifts_local_days_witness :
  changeDate IST 1 (Some noon_2025_01_05) =
    Some (UTC IST (LocalTime IST noon_2025_01_05 + 1 * msPerDay)) /\
  LocalTime IST (UTC IST (LocalTime IST noon_2025_01_05 + 1 * msPerDay)) =
    LocalTime IST noon_2025_01_05 + 1 * msPerDay /\
  Day (LocalTime IST noon_2025_01_05 + 1 * msPerDay) = Day (LocalTime IST noon_2025_01_05) + 1 /\
  TimeWithinDay (LocalTime IST noon_2025_01_05 + 1 * msPerDay) =
    TimeWithinDay (LocalTime IST noon_2025_01_05).
Proof.
  apply (changeDate_shifts_local_days IST noon_2025_01_05 1).
  - apply Calendar.fixed_zone_wall_clock. vm_compute. discriminate.
  - vm_compute. discriminate.
Defined.

(** X17 at that date, three days on and five back. *)
Lemma changeDate_composes_witness :
  changeDate (fixed_zone 19800000) (-5) (changeDate (fixed_zone 19800000) 3 (Some noon_2025_01_05)) =
    changeDate (fixed_zone 19800000) (3 + -5) (Some noon_2025_01_05) /\
  changeDate (fixed_zone 19800000) (3 + -5) (Some noon_2025_01_05) =
    Some (noon_2025_01_05 + (3 + -5) * msPerDay) /\
  changeDate (fixed_zone 19800000) (-1) (changeDate (fixed_zone 19800000) 1 (Some noon_2025_01_05)) =
    Some noon_2025_01_05.
Proof.
  apply (changeDate_composes 19800000 noon_2025_01_05 3 (-5)).
  - vm_compute. discriminate.
  - vm_compute. discriminate.
Defined.

(** *** The mobile fragment *)

Lemma drop_spec k : forall s,
  (k <= String.length s)%nat ->
  exists front, s = (front ++ drop k s)%string /\ String.length front = k.
Proof.
  induction k as [| k IH]; intros s Hk.
  - exists EmptyString. split; reflexivity.
  - destruct s as [| c r]; [cbn in Hk; lia |].
    destruct (IH r) as [front [Hr Hf]]; [cbn in Hk; lia |].
    exists (String c front). cbn. rewrite <- Hr, Hf. split; reflexivity.
Qed.

Lemma length_append a b : String.length (a ++ b) = (String.length a + String.length b)%nat.
Proof. induction a as [| c a IH]; cbn; [| rewrite IH]; reflexivity. Qed.

(** X18. The card of an appointment shows the end of the mobile number
    and at most four characters of it: the mobile number is some hidden
    front followed by the fragment shown, which has four characters when
    the number has at least four and is the whole number otherwise. *)
Theorem mobile_tail_is_suffix (a : Appointment) :
  exists hidden,
    appt_mobile a = (hidden ++ mobile_tail a)%string /\
    String.length (mobile_tail a) = Nat.min 4 (String.length (appt_mobile a)) /\
    String.length hidden = (String.length (appt_mobile a) - 4)%nat.
Proof.
  unfold mobile_tail, slice_last.
  destruct (drop_spec (String.length (appt_mobile a) - 4) (appt_mobile a)) as [front [Hs Hf]];
    [lia |].
  exists front. split; [exact Hs |]. split; [| exact Hf].
  apply (f_equal String.length) in Hs. rewrite length_append, Hf in Hs. lia.
Qed.

Example mobile_tail_samples :
  slice_last 4 "9876543210" = "3210"%string /\ slice_last 4 "987" = "987"%string /\
  slice_last 4 "" = ""%string.
Proof. repeat split. Qed.

End CalendarDates.

(* ------------------------------------------------------------------ *)
(** ** The wizard in walk-in mode and the form before pre-booking *)
(* ------------------------------------------------------------------ *)

Module WalkInSame.

(** The booking of the wizard without its [scheduled_time], and the
    wizard without its mode and its pre-booking cells. *)
Definition old_booking (b : WalkInForm.Booking) : WalkInFormV1.Booking :=
  WalkInFormV1.mkBooking (WalkInForm.b_mobile b) (WalkInForm.b_name b) (WalkInForm.b_age b)
    (WalkInForm.b_is_disabled b) (WalkInForm.b_service_type b) (WalkInForm.b_booking_type b).

Definition old_form (w : WalkInForm.Wizard) : WalkInFormV1.Wizard :=
  WalkInFormV1.mkWizard (WalkInForm.step w) (WalkInForm.mobile w) (WalkInForm.name w)
    (WalkInForm.age w) (WalkInForm.isDisabled w) (WalkInForm.selectedService w)
    (WalkInForm.isListening w) (WalkInForm.services w) (WalkInForm.loading w)
    (WalkInForm.error w) (map old_booking (WalkInForm.inflight w)) (WalkInForm.completed w).

(** An event of the old form as an event of the wizard. *)
Definition as_new (e : WalkInFormV1.Event) : WalkInForm.Event :=
  match e with
  | WalkInFormV1.TypeMobile v => WalkInForm.TypeMobile v
  | WalkInFormV1.TypeName v => WalkInForm.TypeName v
  | WalkInFormV1.TypeAge v => WalkInForm.TypeAge v
  | WalkInFormV1.ToggleDisabled => WalkInForm.ToggleDisabled
  | WalkInFormV1.ClickNext => WalkInForm.ClickNext
  | WalkInFormV1.ClickMic => WalkInForm.ClickMic
  | WalkInFormV1.TapService i => WalkInForm.TapService i
  | WalkInFormV1.VoiceResult t => WalkInForm.VoiceResult t
  | WalkInFormV1.BookingSettled k o => WalkInForm.BookingSettled k o
  | WalkInFormV1.CatalogLoaded l => WalkInForm.CatalogLoaded l
  end.

(** Reading a cell of the wizard after a setter. *)
Ltac cells :=
  cbn [WalkInForm.mode WalkInForm.step WalkInForm.mobile WalkInForm.name WalkInForm.age
       WalkInForm.isDisabled WalkInForm.selectedService WalkInForm.isListening
       WalkInForm.services WalkInForm.loading WalkInForm.error WalkInForm.selectedDate
       WalkInForm.selectedTimeSlot WalkInForm.availableSlots WalkInForm.inflight
       WalkInForm.completed WalkInForm.setStep WalkInForm.setMobile WalkInForm.setName
       WalkInForm.setAge WalkInForm.setIsDisabled WalkInForm.setSelectedService
       WalkInForm.setIsListening WalkInForm.setServices WalkInForm.setLoading
       WalkInForm.setError WalkInForm.setSelectedDate WalkInForm.setSelectedTimeSlot
       WalkInForm.setAvailableSlots WalkInForm.post WalkInForm.onComplete WalkInForm.land].

Lemma map_remove_nth {A B} (f : A -> B) k : forall l,
  map f (WalkInForm.remove_nth k l) = WalkInForm.remove_nth k (map f l).
Proof.
  induction k as [| k IH]; intros [| x l]; cbn; try reflexivity.
  rewrite IH. reflexivity.
Qed.

Section Host.

Variable LocalTZA : Z -> bool -> Z.

Lemma handleBookSlot_same serviceId w :
  WalkInForm.mode w = WalkInForm.walk_in ->
  old_form (WalkInForm.handleBookSlot LocalTZA serviceId w) =
  WalkInFormV1.handleBookSlot serviceId (old_form w).
Proof.
  intros Hm. unfold WalkInForm.handleBookSlot, WalkInFormV1.handleBookSlot.
  cbn [old_form WalkInFormV1.mobile]. rewrite Hm. cbn [WalkInForm.is_pre_book andb].
  destruct (_ || _); [reflexivity |].
  unfold old_form, WalkInFormV1.post, WalkInFormV1.setError, WalkInFormV1.setLoading.
  cells. cbn -[String.eqb JS.parseInt].
  rewrite map_app. cbn [map]. unfold old_booking, WalkInForm.booking, WalkInFormV1.booking.
  cbn -[String.eqb JS.parseInt]. rewrite Hm. reflexivity.
Qed.

(** Each event of the old form does to the wizard in [walk_in] mode what
    it does to the old form. *)
Lemma fire_same e w :
  WalkInForm.mode w = WalkInForm.walk_in ->
  old_form (WalkInForm.fire LocalTZA (as_new e) w) = WalkInFormV1.fire e (old_form w).
Proof.
  intros Hm. destruct e; cbn [as_new]; unfold WalkInForm.fire, WalkInFormV1.fire;
    cbn [old_form WalkInFormV1.step WalkInFormV1.services WalkInFormV1.loading
         WalkInFormV1.inflight WalkInFormV1.isDisabled WalkInFormV1.isListening].
  - destruct (_ =? 1); reflexivity.
  - destruct (_ =? 1); reflexivity.
  - destruct (_ =? 1); reflexivity.
  - destruct (_ =? 1); reflexivity.
  - destruct (_ =? 1); [| reflexivity].
    unfold WalkInForm.nextStep_onClick, WalkInFormV1.nextStep_onClick.
    cbn [old_form WalkInFormV1.mobile]. destruct (_ =? 10)%nat; reflexivity.
  - destruct (_ =? 2); reflexivity.
  - destruct (_ =? 2); [| reflexivity].
    destruct (nth_error _ _) as [service |]; [| reflexivity].
    destruct (WalkInForm.loading w); [reflexivity |].
    unfold WalkInForm.service_onClick, WalkInFormV1.service_onClick.
    rewrite Hm. cbn [WalkInForm.is_pre_book].
    rewrite <- handleBookSlot_same by exact Hm. reflexivity.
  - unfold WalkInForm.onresult, WalkInFormV1.onresult, WalkInForm.handleVoiceResult,
      WalkInFormV1.handleVoiceResult.
    cbn [old_form WalkInFormV1.services WalkInFormV1.mobile].
    rewrite Hm. cbn [WalkInForm.is_walk_in]. rewrite andb_true_r.
    destruct (find _ _) as [found |]; [| reflexivity].
    destruct (_ =? 10)%nat; [| reflexivity].
    rewrite <- handleBookSlot_same by exact Hm. reflexivity.
  - rewrite length_map.
    destruct (_ <? _)%nat; [| reflexivity].
    unfold WalkInForm.handleBookSlot_settled, WalkInFormV1.handleBookSlot_settled.
    destruct o as [result |]; [destruct (WalkInForm.success result) |];
      unfold old_form; cells; cbn; rewrite map_remove_nth; reflexivity.
  - reflexivity.
Qed.

(** X19. The wizard in [walk_in] mode is the form as it was before
    pre-booking: after the same events both hold the same cells, have
    handed over the same results and have the same requests in flight,
    the wizard's requests carrying a [scheduled_time] of null besides. *)
Theorem walk_in_mode_is_old_form (today : string) (random : nat -> Q)
        (es : list WalkInFormV1.Event) :
  old_form (WalkInForm.run LocalTZA (map as_new es)
              (WalkInForm.mount WalkInForm.walk_in today random)) =
    WalkInFormV1.run es WalkInFormV1.mount /\
  Forall (fun b => WalkInForm.b_scheduled_time b = None)
         (WalkInForm.inflight
            (WalkInForm.run LocalTZA (map as_new es)
               (WalkInForm.mount WalkInForm.walk_in today random))).
Proof.
  split.
  - change WalkInFormV1.mount
      with (old_form (WalkInForm.mount WalkInForm.walk_in today random)).
    assert (Hm : WalkInForm.mode (WalkInForm.mount WalkInForm.walk_in today random) =
                 WalkInForm.walk_in) by reflexivity.
    revert Hm. generalize (WalkInForm.mount WalkInForm.walk_in today random).
    induction es as [| e es IH]; intros w Hm; [reflexivity |].
    cbn [map WalkInForm.run WalkInFormV1.run fold_left].
    rewrite <- (fire_same e w Hm). apply IH.
    rewrite WizardRuns.fire_mode. exact Hm.
  - pose proof (WizardRuns.reached_sound LocalTZA WalkInForm.walk_in today random
                  (map as_new es)) as [_ _ _ Hflight _ _ _ _].
    unfold WizardRuns.reached in Hflight.
    eapply Forall_impl; [| exact Hflight].
    intros b [_ [_ [_ H]]]. exact H.
Qed.

End Host.

End WalkInSame.

(* ------------------------------------------------------------------ *)
(** ** Runs of the check-in screen *)
(* ------------------------------------------------------------------ *)

Module CheckInRuns.
Import CheckInScreen CheckInFlow.

(** What every run of the screen keeps. *)
Record Kept (m : Mounted) : Prop := mkKept {
  kept_posted : Forall (fun t => String.length t = 10%nat) (posted (screen m));
  kept_awaiting : awaiting m = match status (screen m) with processing => 1%nat | _ => 0%nat end;
  kept_timer : timer m = match status (screen m) with scanning => true | _ => false end;
  kept_scheduled :
    match status (screen m) with
    | success => exists r, r_success r = true /\ details (screen m) = Some r /\
                           scheduled (screen m) = [r]
    | _ => scheduled (screen m) = []
    end
}.

Lemma mount_kept : Kept mount.
Proof. split; cbn; try reflexivity. apply Forall_nil. Qed.

Lemma fire_kept e m : Kept m -> Kept (fire e m).
Proof.
  intros [Hp Ha Ht Hs]. destruct m as [[st msg det po sch] tm aw].
  cbn [screen timer awaiting status posted scheduled details] in *.
  destruct e as [| mobile | o |]; cbn [fire screen timer awaiting status].
  - destruct tm; [| split; assumption].
    destruct st; try discriminate. split; cbn; auto.
  - destruct st; try (split; assumption).
    destruct (String.length mobile =? 10)%nat eqn:Hlen; cbn [negb]; [| split; assumption].
    unfold handleMobileSubmit. rewrite Hlen. cbn [negb].
    split; cbn; auto.
    apply Forall_app. split; [exact Hp |].
    apply Forall_cons; [apply Nat.eqb_eq; exact Hlen | apply Forall_nil].
  - destruct aw as [| n]; [split; assumption |].
    destruct st; try discriminate. injection Ha as ->.
    cbn in Hs. subst sch.
    destruct o as [result |]; cbn [handleMobileSubmit_settled];
      [destruct (r_success result) eqn:Hr |]; split; cbn; auto.
    exists result. auto.
  - destruct st; split; assumption.
Qed.

Lemma run_kept es : forall m, Kept m -> Kept (run es m).
Proof.
  induction es as [| e es IH]; intros m H; [exact H |].
  cbn [run fold_left]. apply IH. apply fire_kept. exact H.
Qed.

(** X20. Whatever is submitted, and however the lookups settle, every
    mobile number the screen has looked up has exactly ten characters,
    at most one lookup is awaited, and one is awaited exactly while the
    status is [processing]. *)
Theorem one_lookup_at_a_time (es : list Event) :
  Forall (fun t => String.length t = 10%nat) (posted (screen (run es mount))) /\
  (awaiting (run es mount) <= 1)%nat /\
  (awaiting (run es mount) = 1%nat <-> status (screen (run es mount)) = processing).
Proof.
  destruct (run_kept es mount mount_kept) as [Hp Ha _ _].
  split; [exact Hp |]. rewrite Ha.
  destruct (status (screen (run es mount))); split; try lia; split; congruence.
Qed.

Lemma success_fixed e m :
  Kept m -> status (screen m) = success -> fire e m = m.
Proof.
  intros [_ Ha Ht _] Hs. rewrite Hs in Ha, Ht.
  destruct e; cbn [fire]; rewrite ?Ha, ?Ht, ?Hs; reflexivity.
Qed.

Lemma run_app (es es' : list Event) m : run (es ++ es') m = run es' (run es m).
Proof. unfold run. apply fold_left_app. Qed.

(** X21. Once the status is [success] the screen stays as it is under
    every further event, and it has scheduled exactly one result for
    [onComplete]: a successful one, the one it shows as [details]. *)
Theorem success_is_final (es es' : list Event) :
  status (screen (run es mount)) = success ->
  run (es ++ es')%list mount = run es mount /\
  exists r, r_success r = true /\
            details (screen (run es mount)) = Some r /\
            scheduled (screen (run es mount)) = [r].
Proof.
  intros Hs. pose proof (run_kept es mount mount_kept) as HK. split.
  - rewrite run_app. generalize dependent (run es mount). intros m Hs HK.
    induction es' as [| e es' IH]; [reflexivity |].
    cbn [run fold_left]. rewrite (success_fixed e m HK Hs). exact IH.
  - destruct HK as [_ _ _ Hsch]. rewrite Hs in Hsch. exact Hsch.
Qed.

Definition found : Result := mkResult true (Some "Checked in") (Some "A12") (Some 2).

(** X21 at a lookup that succeeds, followed by a second submit and a
    late timer. *)
Lemma success_is_final_witness :
  run ([TimerFired; Submit "9876543210"; Settle (resolved found)] ++
       [Submit "9876543211"; TimerFired; TryAgain])%list mount =
    run [TimerFired; Submit "9876543210"; Settle (resolved found)] mount /\
  exists r, r_success r = true /\
            details (screen (run [TimerFired; Submit "9876543210"; Settle (resolved found)] mount)) = Some r /\
            scheduled (screen (run [TimerFired; Submit "9876543210"; Settle (resolved found)] mount)) = [r].
Proof.
  apply (success_is_final [TimerFired; Submit "9876543210"; Settle (resolved found)]
           [Submit "9876543211"; TimerFired; TryAgain]).
  reflexivity.
Defined.

(** The form takes any ten characters: these are looked up. *)
Example letters_are_looked_up :
  posted (screen (run [TimerFired; Submit "abcdefghij"] mount)) = ["abcdefghij"].
Proof. reflexivity. Qed.

End CheckInRuns.

(* ------------------------------------------------------------------ *)
(** ** The voice match on a catalog of plain names *)
(* ------------------------------------------------------------------ *)

Module VoiceNames.

(** The spoken words "cash deposit" against a catalog whose names have
    one underscore or none. *)
Lemma voice_match_single_underscore_witness :
  find (WalkInForm.voice_match "cash deposit")
       [BookingWizard.forex; BookingWizard.cash_deposit] =
  find (BookingWizard.spec_match "cash deposit")
       [BookingWizard.forex; BookingWizard.cash_deposit].
Proof.
  apply (BookingWizard.voice_match_single_underscore "cash deposit"
           [BookingWizard.forex; BookingWizard.cash_deposit]).
  repeat (apply Forall_cons; [reflexivity |]). apply Forall_nil.
Defined.

End VoiceNames.
